(** * MNIST-1D teaching notebooks: dataset adapter and training loops

    A shallow embedding of the data handling and training-loop code of the
    notebooks

      - [notebooks/02_convnets.ipynb]: class [MNIST1D] and the inline
        training loop of the classification cell;
      - the representation-learning notebook: [get_dataloaders] and
        [train_classifier].

    Python values are modelled as follows.  A Python [int] is a [Z]; a Python
    [float] and a NumPy [float64] are Rocq's primitive binary64 [float]; a
    [float32] is a [spec_float] operated on with precision 24 and maximal
    exponent 128; a raised exception is the [Raise] constructor of [result];
    objects that are mutated in place (the [logs] dictionary, the model and
    optimizer, standard output) live in an explicit store that every
    statement threads through. *)

From Stdlib Require Import ZArith QArith Floats Uint63 SpecFloat Permutation Lia.
From stdpp Require Import base option list gmap strings.

Local Open Scope Z_scope.

(** ** Exceptions and the error monad *)

Inductive exn : Type :=
  | ValueError
  | IndexError
  | KeyError
  | ZeroDivisionError
  | OverflowError
  | UnboundLocalError
  | RuntimeError
  | AssertionError.

Inductive result (A : Type) : Type :=
  | Ok (a : A)
  | Raise (e : exn).

Arguments Ok {A} a.
Arguments Raise {A} e.

Definition rbind {A B : Type} (r : result A) (k : A -> result B) : result B :=
  match r with
  | Ok a => k a
  | Raise e => Raise e
  end.

Declare Scope result_scope.
Delimit Scope result_scope with res.
Notation "'let!' x ':=' c 'in' k" := (rbind c (fun x => k))
  (at level 10, x pattern, c at level 100, k at level 200) : result_scope.

Local Open Scope result_scope.

Definition is_ok {A : Type} (r : result A) : bool :=
  match r with Ok _ => true | Raise _ => false end.

Definition rmap {A B : Type} (f : A -> B) (r : result A) : result B :=
  let! a := r in Ok (f a).

(** [[f(x) for x in l]] where [f] may raise: the first exception wins. *)
Fixpoint mapM {A B : Type} (f : A -> result B) (l : list A) : result (list B) :=
  match l with
  | [] => Ok []
  | x :: l' => let! b := f x in let! bs := mapM f l' in Ok (b :: bs)
  end.

(** ** Floating point *)



Definition SFfinite (x : spec_float) : bool :=
  match x with
  | S754_zero _ | S754_finite _ _ _ => true
  | _ => false
  end.

(** [float(n)] for a Python [int] below [2^63], rounded to nearest even. *)
Definition float_of_int (n : Z) : float :=
  if n <? 0 then (- PrimFloat.of_uint63 (Uint63.of_Z (- n)))%float
  else PrimFloat.of_uint63 (Uint63.of_Z n).

(** [math.ceil]: an exact integer; NaN and the infinities raise. *)
Definition ceil_finite (s : bool) (m : positive) (e : Z) : Z :=
  match e with
  | Z0 => cond_Zopp s (Zpos m)
  | Zpos p => cond_Zopp s (Zpos m) * Z.pow_pos 2 p
  | Zneg p => - ((- cond_Zopp s (Zpos m)) / Z.pow_pos 2 p)
  end.

Definition math_ceil (x : float) : result Z :=
  match Prim2SF x with
  | S754_nan => Raise ValueError
  | S754_infinity _ => Raise OverflowError
  | S754_zero _ => Ok 0
  | S754_finite s m e => Ok (ceil_finite s m e)
  end.

(** Python's [x / n] for a float [x] and an int [n]. *)
Definition py_truediv (x : float) (n : Z) : result float :=
  if n =? 0 then Raise ZeroDivisionError else Ok (x / float_of_int n)%float.

(** Rounding a binary64 to binary32: [ndarray.astype(np.float32)]. *)
Definition astype_float32 (x : float) : spec_float :=
  match Prim2SF x with
  | S754_finite s m e => binary_round 24 128 s m e
  | other => other
  end.

(** [ndarray.astype(np.int64)] on integers: two's complement wrap-around. *)
Definition astype_int64 (z : Z) : Z :=
  (z + 2 ^ 63) mod 2 ^ 64 - 2 ^ 63.

(** ** NumPy arrays *)

(** A two-dimensional array: its rows, and the length of its second axis,
    which an array keeps even when it has no row. *)
Record ndarray2 (A : Type) : Type := mk_ndarray2 {
  ncols : nat;
  rows : list (list A)
}.

Arguments mk_ndarray2 {A} ncols rows.
Arguments ncols {A} n.
Arguments rows {A} n.

Definition shape2 {A : Type} (a : ndarray2 A) : list nat :=
  [length (rows a); ncols a].

Definition rectangular {A : Type} (a : ndarray2 A) : Prop :=
  Forall (fun r => length r = ncols a) (rows a).

Definition map2d {A B : Type} (f : A -> B) (a : ndarray2 A) : ndarray2 B :=
  mk_ndarray2 (ncols a) (map (map f) (rows a)).

(** Indexing with a list of integer positions, [a[idx]]: an index outside
    the array raises [IndexError]. *)
Definition take {A : Type} (l : list A) (idx : list nat) : result (list A) :=
  mapM (fun i => match l !! i with
                 | Some x => Ok x
                 | None => Raise IndexError
                 end) idx.

Definition take_rows {A : Type} (a : ndarray2 A) (idx : list nat)
  : result (ndarray2 A) :=
  let! r := take (rows a) idx in Ok (mk_ndarray2 (ncols a) r).

(** The scalar loops of [np.minimum] and [np.maximum]: a NaN propagates. *)
Definition np_minimum (a b : float) : float :=
  if (a <=? b)%float || PrimFloat.is_nan a then a else b.

Definition np_maximum (a b : float) : float :=
  if (b <=? a)%float || PrimFloat.is_nan a then a else b.

(** [np.min(a)] and [np.max(a)] over all elements of the array; an array
    without elements raises [ValueError]. *)
Definition np_reduce (op : float -> float -> float) (a : ndarray2 float)
  : result float :=
  match concat (rows a) with
  | [] => Raise ValueError
  | x :: xs => Ok (fold_left op xs x)
  end.

Definition np_min : ndarray2 float -> result float := np_reduce np_minimum.
Definition np_max : ndarray2 float -> result float := np_reduce np_maximum.

(** Basic slicing [l[start:stop]] with Python's treatment of negative and
    out-of-range bounds; it never raises. *)
Definition clamp_index (n i : Z) : Z :=
  if i <? 0 then Z.max 0 (i + n) else Z.min i n.

Definition slice {A : Type} (l : list A) (start stop : Z) : list A :=
  let n := Z.of_nat (length l) in
  let lo := clamp_index n start in
  let hi := clamp_index n stop in
  firstn (Z.to_nat (hi - lo)) (skipn (Z.to_nat lo) l).

Definition slice_rows {A : Type} (a : ndarray2 A) (start stop : Z) : ndarray2 A :=
  mk_ndarray2 (ncols a) (slice (rows a) start stop).

(** Integer indexing [l[i]]: negative positions count from the end, a
    position outside [-len, len) raises [IndexError]. *)
Definition index_int {A : Type} (l : list A) (i : Z) : result A :=
  let n := Z.of_nat (length l) in
  if (i <? - n) || (n <=? i) then Raise IndexError
  else match l !! Z.to_nat (if i <? 0 then i + n else i) with
       | Some x => Ok x
       | None => Raise IndexError
       end.


(** ** PyTorch tensors

    [torch.FloatTensor] holds binary32 values and [torch.LongTensor] 64-bit
    integers; both are stored row-major together with their shape. *)

Record FloatTensor : Type := mk_FloatTensor {
  ft_shape : list nat;
  ft_data : list spec_float
}.

Record LongTensor : Type := mk_LongTensor {
  lt_shape : list nat;
  lt_data : list Z
}.

(** [torch.from_numpy] of a two-dimensional [float32] array and of a
    zero-dimensional [int64] array. *)
Definition from_numpy2 (a : ndarray2 spec_float) : FloatTensor :=
  mk_FloatTensor (shape2 a) (concat (rows a)).

Definition from_numpy0 (z : Z) : LongTensor :=
  mk_LongTensor [] [z].

(** [torch.stack(ts, 0)], which the default collate function of a
    [DataLoader] applies to the samples of a batch: the tensors must all
    have the shape of the first one. *)
Definition stack_float (ts : list FloatTensor) : result FloatTensor :=
  match ts with
  | [] => Raise RuntimeError
  | t :: _ =>
      if forallb (fun u => bool_decide (ft_shape u = ft_shape t)) ts
      then Ok (mk_FloatTensor (length ts :: ft_shape t) (concat (map ft_data ts)))
      else Raise RuntimeError
  end.

Definition stack_long (ts : list LongTensor) : result LongTensor :=
  match ts with
  | [] => Raise RuntimeError
  | t :: _ =>
      if forallb (fun u => bool_decide (lt_shape u = lt_shape t)) ts
      then Ok (mk_LongTensor (length ts :: lt_shape t) (concat (map lt_data ts)))
      else Raise RuntimeError
  end.

(** ** scikit-learn's [train_test_split]

    The notebooks call [train_test_split(x, y, test_size=p, random_state=seed)]
    with a float [p].  The function is not part of the repository; it is
    modelled after scikit-learn's implementation ([check_random_state],
    [_validate_shuffle_split] and [ShuffleSplit._iter_indices]).  NumPy's
    generator is an interface: a generator can be created from a seed and
    asked for a pseudo-random permutation of [0 .. n-1]. *)

Class NumpyRandom : Type := {
  RandomState : Type;
  RandomState_seed : Z -> RandomState;
  rs_permutation : RandomState -> nat -> list nat
}.

Section TrainTestSplit.

Context `{NumpyRandom}.

(** The generator behind [np.random], which the notebooks seed with
    [np.random.seed(13)] and which every unseeded draw advances. *)
Variable np_random : RandomState.

(** [check_random_state(seed)]: [None] selects the global generator, an
    int seeds a fresh one (NumPy accepts seeds in [0, 2^32)). *)
Definition check_random_state (seed : option Z) : result RandomState :=
  match seed with
  | None => Ok np_random
  | Some n =>
      if (n <? 0) || (2 ^ 32 <=? n) then Raise ValueError
      else Ok (RandomState_seed n)
  end.

(** [_validate_shuffle_split(n_samples, test_size, None)] for a float
    [test_size]. *)
Definition validate_shuffle_split_float (n_samples : Z) (test_size : float)
  : result (Z * Z) :=
  if (test_size <=? 0)%float || (1 <=? test_size)%float then Raise ValueError
  else
    let! n_test := math_ceil (test_size * float_of_int n_samples)%float in
    let n_train := n_samples - n_test in
    if n_samples <? n_train + n_test then Raise ValueError
    else if n_train =? 0 then Raise ValueError
    else Ok (n_train, n_test).

(** [_validate_shuffle_split(n_samples, n_test, n_train)] for the two int
    sizes that [train_test_split] hands to [ShuffleSplit]. *)
Definition validate_shuffle_split_int (n_samples n_test n_train : Z)
  : result (Z * Z) :=
  if (n_samples <=? n_test) || (n_test <=? 0) then Raise ValueError
  else if (n_samples <=? n_train) || (n_train <=? 0) then Raise ValueError
  else if n_samples <? n_train + n_test then Raise ValueError
  else if n_train =? 0 then Raise ValueError
  else Ok (n_train, n_test).

(** The index sets of the split: [(ind_train, ind_test)]. *)
Definition split_indices (n_samples : nat) (test_size : float)
    (random_state : option Z) : result (list nat * list nat) :=
  let n := Z.of_nat n_samples in
  let! (n_train, n_test) := validate_shuffle_split_float n test_size in
  let! (n_train, n_test) := validate_shuffle_split_int n n_test n_train in
  let! rng := check_random_state random_state in
  let permutation := rs_permutation rng n_samples in
  let ind_test := slice permutation 0 n_test in
  let ind_train := slice permutation n_test (n_test + n_train) in
  Ok (ind_train, ind_test).

Definition train_test_split (x : ndarray2 float) (y : list Z)
    (test_size : float) (random_state : option Z)
  : result (ndarray2 float * ndarray2 float * list Z * list Z) :=
  if negb (length (rows x) =? length y)%nat then Raise ValueError
  else
    let! (train, test) :=
      split_indices (length (rows x)) test_size random_state in
    let! x_train := take_rows x train in
    let! x_test := take_rows x test in
    let! y_train := take y train in
    let! y_test := take y test in
    Ok (x_train, x_test, y_train, y_test).

End TrainTestSplit.

(** ** The dataset adapter: class [MNIST1D] of [02_convnets.ipynb] *)

(** The dictionary returned by [mnist1d.data.make_dataset]: the entries
    ['x'] (one row per sample) and ['y'] (one label per sample). *)
Record mnist1d_data : Type := mk_data {
  data_x : ndarray2 float;
  data_y : list Z
}.

Module MNIST1D.

Record t : Type := mk {
  is_training : bool;
  data : mnist1d_data;
  X_loc : float;
  X_scale : float;
  X : ndarray2 float;
  y : list Z
}.

(** [(a - loc) / scale], broadcast over the array. *)
Definition normalize (loc scale : float) (a : ndarray2 float) : ndarray2 float :=
  map2d (fun v => ((v - loc) / scale)%float) a.

(** The defaults of [__init__]: [validation_size = 0.1] and [seed = 42]. *)
Definition default_validation_size : float := 0x1.999999999999ap-4%float.
Definition default_seed : Z := 42.

Section Class.

Context `{NumpyRandom}.
Variable np_random : RandomState.

(** [MNIST1D.__init__(self, train, validation_size, mnist1d_args, seed)],
    applied to [data = make_dataset(mnist1d_args)]. *)
Definition init (train : bool) (validation_size : float)
    (data : mnist1d_data) (seed : Z) : result t :=
  let! (X_train, X_validation, y_train, y_validation) :=
    train_test_split np_random (data_x data) (data_y data)
                     validation_size (Some seed) in
  let! lo := np_min X_train in
  let X_loc := lo in
  let! hi := np_max X_train in
  let! lo' := np_min X_train in
  let X_scale := (hi - lo')%float in
  if train
  then Ok (mk train data X_loc X_scale (normalize X_loc X_scale X_train) y_train)
  else Ok (mk train data X_loc X_scale
              (normalize X_loc X_scale X_validation) y_validation).

End Class.

(** [MNIST1D.__len__]: [self.X.shape[0]]. *)
Definition len (self : t) : Z := Z.of_nat (length (rows (X self))).

(** [MNIST1D.__getitem__(self, index)]. *)
Definition getitem (self : t) (index : Z) : result (FloatTensor * LongTensor) :=
  let X := from_numpy2 (map2d astype_float32
                          (slice_rows (X self) index (index + 1))) in
  let! label := index_int (y self) index in
  let y := from_numpy0 (astype_int64 label) in
  Ok (X, y).

End MNIST1D.

(** ** Batching: [torch.utils.data.DataLoader] over an [MNIST1D] *)

Record DataLoader : Type := mk_DataLoader {
  dataset : MNIST1D.t;
  batch_size : Z;
  shuffle : bool
}.

(** The fetcher of a map-style dataset: the samples of a batch of indices
    are read one by one and stacked by the default collate function. *)
Definition fetch (ds : MNIST1D.t) (batch : list Z)
  : result (FloatTensor * LongTensor) :=
  let! samples := mapM (MNIST1D.getitem ds) batch in
  let! Xb := stack_float (map fst samples) in
  let! yb := stack_long (map snd samples) in
  Ok (Xb, yb).

(** [get_dataloaders(batch_size)] of the representation-learning notebook,
    applied to [clean = make_dataset(clean_config)]. *)
Definition get_dataloaders `{NumpyRandom} (np_random : RandomState)
    (clean : mnist1d_data) (batch_size : Z) : result (DataLoader * DataLoader) :=
  let! dataset_train_clean :=
    MNIST1D.init np_random true MNIST1D.default_validation_size clean
                 MNIST1D.default_seed in
  let! dataset_test_clean :=
    MNIST1D.init np_random false MNIST1D.default_validation_size clean
                 MNIST1D.default_seed in
  if negb (MNIST1D.len dataset_train_clean =? 3600) then Raise AssertionError
  else if negb (MNIST1D.len dataset_test_clean =? 400) then Raise AssertionError
  else
    let train_dataloader := mk_DataLoader dataset_train_clean batch_size true in
    let test_dataloader := mk_DataLoader dataset_test_clean batch_size false in
    Ok (train_dataloader, test_dataloader).

(** ** One pass over a [DataLoader]

    [DataLoader] is PyTorch's; its batching is modelled after
    [torch.utils.data.BatchSampler] with [drop_last=False]: the indices the
    sampler yields are collected into a batch, which is yielded when it
    holds [batch_size] indices; what is left at the end is yielded as a
    shorter batch.  The sampler yields [range(len(dataset))] without
    shuffling and a random permutation of it with shuffling. *)
Fixpoint batch_sampler (batch_size : Z) (sampler : list Z) (batch : list Z)
  : list (list Z) :=
  match sampler with
  | [] => if (0 <? length batch)%nat then [batch] else []
  | idx :: sampler' =>
      let batch := batch ++ [idx] in
      if Z.of_nat (length batch) =? batch_size
      then batch :: batch_sampler batch_size sampler' []
      else batch_sampler batch_size sampler' batch
  end.

(** [len(dataloader)], the number of batches of a pass. *)
Definition DataLoader_len (dl : DataLoader) : Z :=
  (MNIST1D.len (dataset dl) + batch_size dl - 1) / batch_size dl.

(** [list(dataloader)] when the sampler yields the indices [order]: the
    batches are fetched and collated one after the other. *)
Definition DataLoader_iter (dl : DataLoader) (order : list Z)
  : result (list (FloatTensor * LongTensor)) :=
  mapM (fetch (dataset dl)) (batch_sampler (batch_size dl) order []).

(** ** Convolutional networks, by the shapes of their tensors

    The two [MyCNN] classes assemble [torch.nn] layers.  Their weights are
    drawn at random and do not matter below; a tensor is represented by its
    shape, as on PyTorch's [meta] device, which [MyCNN.__init__] of the
    representation-learning notebook uses itself to size its linear tail.
    The layers are modelled after PyTorch: the parameters a layer
    allocates, what its constructor rejects, and the shape it returns or
    the exception it raises for the shape of its input. *)

Inductive padding_mode : Type := zeros | replicate.

Inductive layer : Type :=
| Conv1d (in_channels out_channels kernel_size padding stride : Z)
         (mode : padding_mode)
| ReLU
| Flatten
| Linear (in_features out_features : Z)
| InstanceNorm1d (num_features : Z)
| Dropout (p : float).

(** The shapes of the parameters of a layer, in the order of
    [parameters()]: weight, then bias.  [InstanceNorm1d] is not affine by
    default and has none. *)
Definition parameters (l : layer) : list (list Z) :=
  match l with
  | Conv1d in_channels out_channels kernel_size _ _ _ =>
      [[out_channels; in_channels; kernel_size]; [out_channels]]
  | Linear in_features out_features =>
      [[out_features; in_features]; [out_features]]
  | _ => []
  end.

(** [p.numel()]. *)
Definition numel (shape : list Z) : Z := fold_left Z.mul shape 1.

(** Constructing a layer: a parameter with a negative dimension cannot be
    allocated; a dropout probability outside [0, 1] is rejected. *)
Definition layer_init (l : layer) : result layer :=
  if negb (forallb (forallb (fun d => 0 <=? d)) (parameters l))
  then Raise RuntimeError
  else match l with
       | Dropout p => if (p <? 0)%float || (1 <? p)%float then Raise ValueError
                      else Ok l
       | _ => Ok l
       end.

(** The output length of a convolution over a signal of length [len]. *)
Definition conv1d_length (len kernel_size padding stride : Z) : result Z :=
  if (len <=? 0) || (len + 2 * padding <? kernel_size) then Raise RuntimeError
  else Ok ((len + 2 * padding - kernel_size) / stride + 1).

(** [layer(x)], on shapes.  A convolution takes [(N, C, L)] or [(C, L)];
    [Flatten()] merges the dimensions from the second one on; [Linear]
    acts on the last dimension; [InstanceNorm1d] rejects a signal of a
    single element. *)
Definition layer_forward (l : layer) (x : list Z) : result (list Z) :=
  match l with
  | Conv1d in_channels out_channels kernel_size padding stride _ =>
      match x with
      | [n; c; len] =>
          if negb (c =? in_channels) then Raise RuntimeError
          else let! len' := conv1d_length len kernel_size padding stride in
               Ok [n; out_channels; len']
      | [c; len] =>
          if negb (c =? in_channels) then Raise RuntimeError
          else let! len' := conv1d_length len kernel_size padding stride in
               Ok [out_channels; len']
      | _ => Raise RuntimeError
      end
  | ReLU => Ok x
  | Dropout _ => Ok x
  | Flatten =>
      match x with
      | n :: d :: rest => Ok [n; fold_left Z.mul rest d]
      | _ => Raise IndexError
      end
  | Linear in_features out_features =>
      match x with
      | [] => Raise RuntimeError
      | _ => if negb (List.last x 0 =? in_features) then Raise RuntimeError
             else Ok (removelast x ++ [out_features])
      end
  | InstanceNorm1d _ =>
      match x with
      | [_; _; len] => if len =? 1 then Raise ValueError else Ok x
      | [_; len] => if len =? 1 then Raise ValueError else Ok x
      | _ => Raise ValueError
      end
  end.

(** [torch.nn.Sequential]: the layers are applied in order. *)
Fixpoint sequential (layers : list layer) (x : list Z) : result (list Z) :=
  match layers with
  | [] => Ok x
  | l :: layers' => let! y := layer_forward l x in sequential layers' y
  end.

(** [sum([p.numel() for p in self.parameters() if p.requires_grad])]; every
    parameter requires a gradient unless frozen, which the notebooks never
    do. *)
Definition sum_numel (layers : list layer) : Z :=
  fold_left Z.add (map numel (flat_map parameters layers)) 0.

(** [MyCNN] of [02_convnets.ipynb]; [nlayers] is accepted and not used. *)
Module Convnets.
Module MyCNN.

Definition init (nlayers nchannels : Z) : result (list layer) :=
  mapM layer_init
    [Conv1d 1 nchannels 5 2 2 zeros;
     ReLU;
     Conv1d nchannels nchannels 5 2 2 zeros;
     ReLU;
     Conv1d nchannels nchannels 3 1 1 zeros;
     ReLU;
     Flatten;
     Linear (nchannels * 10) 10].

Definition forward (self : list layer) (x : list Z) : result (list Z) :=
  sequential self x.

Definition count_params (self : list layer) : Z := sum_numel self.

End MyCNN.
End Convnets.

(** [MyCNN] of the representation-learning notebook. *)
Module Latent.
Module MyCNN.

Record t : Type := mk {
  layers : list layer;
  final_layers : list layer
}.

(** The layers one iteration of the loop over
    [zip(channels[:-1], channels[1:])] appends. *)
Definition block (dropout_p : float) (oc : Z * Z) : list layer :=
  let '(old_n_channels, new_n_channels) := oc in
  [Conv1d old_n_channels new_n_channels 3 1 2 replicate;
   Conv1d new_n_channels new_n_channels 3 1 1 replicate;
   InstanceNorm1d new_n_channels;
   ReLU;
   Dropout dropout_p].

Definition init (channels : list Z) (input_ndim output_ndim mlp_hidden_ndim : Z)
    (dropout_p : float) : result t :=
  let channels := 1 :: channels in
  let! blocks :=
    mapM layer_init
         (flat_map (block dropout_p)
                   (combine (removelast channels) (tail channels))) in
  let layers := blocks ++ [Flatten] in
  let! dummy_X := (if input_ndim <? 0 then Raise RuntimeError
                   else Ok [1; 1; input_ndim]) in
  let! dummy_out := sequential layers dummy_X in
  let! in_features := index_int dummy_out (-1) in
  let! l1 := layer_init (Linear in_features mlp_hidden_ndim) in
  let! l2 := layer_init (Linear mlp_hidden_ndim output_ndim) in
  Ok (mk layers [l1; ReLU; l2]).

(** [forward(x)] returns the logits and the latent representation. *)
Definition forward (self : t) (x : list Z) : result (list Z * list Z) :=
  let! latent_cnn :=
    (if (length x =? 2)%nat
     then match x with
          | n :: rest => sequential (layers self) (n :: 1 :: rest)
          | [] => Raise IndexError
          end
     else sequential (layers self) x) in
  let! out := sequential (final_layers self) latent_cnn in
  Ok (out, latent_cnn).

End MyCNN.
End Latent.

(** ** The store of a training run

    A run mutates four things in place: the PyTorch side (the parameters and
    mode of the model, the accumulators of the optimizer, the random number
    generator that shuffles batches), the metrics dictionary, standard
    output, and - kept here to observe the order of the side effects - the
    sequence of [list.append] calls with the position each one wrote to. *)

Record Line (V : Type) : Type := mk_Line {
  line_epoch : Z;
  line_max_epochs : Z;
  line_values : list V
}.

Arguments mk_Line {V} _ _ _.
Arguments line_epoch {V} _.
Arguments line_max_epochs {V} _.
Arguments line_values {V} _.

Record St (World V : Type) : Type := mk_St {
  world : World;
  logs : gmap string (list V);
  stdout : list (Line V);
  appends : list (string * nat)
}.

Arguments mk_St {World V} _ _ _ _.
Arguments world {World V} _.
Arguments logs {World V} _.
Arguments stdout {World V} _.
Arguments appends {World V} _.

(** Statements: a store transformer that returns a value or raises.  The
    store survives an exception, as the objects of the caller do. *)
Definition M (World V A : Type) : Type := St World V -> result A * St World V.

Definition ret {World V A : Type} (a : A) : M World V A :=
  fun s => (Ok a, s).

Definition bind {World V A B : Type} (c : M World V A) (k : A -> M World V B)
  : M World V B :=
  fun s => match c s with
           | (Ok a, s') => k a s'
           | (Raise e, s') => (Raise e, s')
           end.

Definition raise {World V A : Type} (e : exn) : M World V A :=
  fun s => (Raise e, s).

Definition lift {World V A : Type} (r : result A) : M World V A :=
  fun s => (r, s).

Declare Scope prog_scope.
Delimit Scope prog_scope with prog.
Notation "x <- c ;; k" := (bind c (fun x => k))
  (at level 100, c at next level, right associativity) : prog_scope.
Notation "c ;; k" := (bind c (fun _ => k))
  (at level 100, right associativity) : prog_scope.

Local Open Scope prog_scope.

(** Running a pure step of the PyTorch side. *)
Definition on_world {World V A : Type} (f : World -> World * A) : M World V A :=
  fun s => let (w, a) := f (world s) in
           (Ok a, mk_St w (logs s) (stdout s) (appends s)).

(** [print(...)] of a progress line. *)
Definition print {World V : Type} (l : Line V) : M World V unit :=
  fun s => (Ok tt, mk_St (world s) (logs s) (stdout s ++ [l]) (appends s)).

(** [for x in xs: body], threading the local variables [L] of the loop. *)
Fixpoint for_each {World V A L : Type} (body : A -> L -> M World V L)
    (xs : list A) (l : L) : M World V L :=
  match xs with
  | [] => ret l
  | x :: xs' => l' <- body x l ;; for_each body xs' l'
  end.

(** [range(n)]. *)
Definition range (n : Z) : list Z := map Z.of_nat (seq 0 (Z.to_nat n)).

(** Python's [a % b] on ints. *)
Definition py_mod (a b : Z) : result Z :=
  if b =? 0 then Raise ZeroDivisionError else Ok (a mod b).

(** A float32 tensor of rank one: [torch.zeros((n,))], item assignment
    [t[idx] = v] and [t.mean()], the sum being taken left to right. *)
Definition torch_zeros (n : nat) : list spec_float := repeat (S754_zero false) n.

Definition tensor_setitem (t : list spec_float) (idx : nat) (v : float)
  : result (list spec_float) :=
  if (idx <? length t)%nat then Ok (<[idx := astype_float32 v]> t)
  else Raise IndexError.

Definition tensor_mean (t : list spec_float) : spec_float :=
  SFdiv 24 128 (fold_left (SFadd 24 128) t (S754_zero false))
        (binary_normalize 24 128 (Z.of_nat (length t)) 0 false).

(** ** The collaborators of a training loop

    The model, the loss function, the optimizer, [accuracy_score] and the
    data loaders are PyTorch and scikit-learn objects; the loops only call
    them.  Each call is a function on the PyTorch side of the store.  A data
    loader has a fixed number of batches, [len(loader)]; starting an
    iteration may consume randomness (shuffling) and fixes the batches of
    this pass. *)

Class Torch : Type := {
  World : Type;
  Batch : Type;
  Pred : Type;
  Loss : Type;
  model_to : World -> World;
  model_train : World -> World;
  model_eval : World -> World;
  model_call : World -> Batch -> World * Pred;
  loss_call : World -> Pred -> Batch -> World * Loss;
  loss_backward : World -> Loss -> World;
  optimizer_step : World -> World;
  optimizer_zero_grad : World -> World;
  loss_item : Loss -> float;
  accuracy : Batch -> Pred -> float
}.

Record Loader `{Torch} : Type := mk_Loader {
  loader_len : nat;
  loader_iter : World -> World * (nat -> Batch)
}.

Section Loops.

Context `{torch : Torch}.
Context {V : Type}.

Definition call (f : World -> World) : M World V unit :=
  on_world (fun w => (f w, tt)).

(** [iter(loader)]: the batches of one pass, in the order they are
    yielded. *)
Definition iterate (loader : Loader) : M World V (list Batch) :=
  on_world (fun w => let (w', batch_at) := loader_iter loader w in
                     (w', map batch_at (seq 0 (loader_len loader)))).

(** [d[key]] on a [defaultdict(list)] and on a [dict]. *)
Definition defaultdict_getitem (key : string) : M World V unit :=
  fun s => match logs s !! key with
           | Some _ => (Ok tt, s)
           | None => (Ok tt, mk_St (world s) (<[key := []]> (logs s))
                                   (stdout s) (appends s))
           end.

Definition dict_getitem (key : string) : M World V unit :=
  fun s => match logs s !! key with
           | Some _ => (Ok tt, s)
           | None => (Raise KeyError, s)
           end.

(** [l.append(v)] on the list stored under [key]. *)
Definition list_append (key : string) (v : V) : M World V unit :=
  fun s => let old := default [] (logs s !! key) in
           (Ok tt, mk_St (world s) (<[key := old ++ [v]]> (logs s)) (stdout s)
                         (appends s ++ [(key, length old)])).

End Loops.

(** ** [train_classifier] of the representation-learning notebook *)

Section TrainClassifier.

Context `{torch : Torch}.

Variables train_dataloader test_dataloader : Loader.

(** The accumulators of an epoch and the loss of the last batch, which a
    [for] loop leaves bound (or unbound, if there was no batch yet). *)
Definition acc_locals : Type := float * float * option Loss.

(** The body of [for X_train, y_train in train_dataloader]. *)
Definition train_step (b : Batch) (l : acc_locals) : M World float acc_locals :=
  let '(train_loss_epoch_sum, train_acc_epoch_sum, _) := l in
  y_pred_train_logits <- on_world (fun w => model_call w b) ;;
  train_loss <- on_world (fun w => loss_call w y_pred_train_logits b) ;;
  call (fun w => loss_backward w train_loss) ;;
  call optimizer_step ;;
  call optimizer_zero_grad ;;
  ret ((train_loss_epoch_sum + loss_item train_loss)%float,
       (train_acc_epoch_sum + accuracy b y_pred_train_logits)%float,
       Some train_loss).

(** The body of [for X_test, y_test in test_dataloader], under
    [torch.no_grad()]. *)
Definition test_step (b : Batch) (l : acc_locals) : M World float acc_locals :=
  let '(test_loss_epoch_sum, test_acc_epoch_sum, _) := l in
  y_pred_test_logits <- on_world (fun w => model_call w b) ;;
  test_loss <- on_world (fun w => loss_call w y_pred_test_logits b) ;;
  ret ((test_loss_epoch_sum + loss_item test_loss)%float,
       (test_acc_epoch_sum + accuracy b y_pred_test_logits)%float,
       Some test_loss).

(** [logs[key].append(total / len(loader))]: the list is looked up first,
    then the argument is evaluated, then the value is appended. *)
Definition log_mean (key : string) (total : float) (loader : Loader)
  : M World float unit :=
  defaultdict_getitem key ;;
  mean <- lift (py_truediv total (Z.of_nat (loader_len loader))) ;;
  list_append key mean.

(** The body of [for epoch in range(max_epochs)]; the locals that outlive
    an iteration are [train_loss] and [test_loss]. *)
Definition train_classifier_epoch (max_epochs log_every : Z) (epoch : Z)
    (l : option Loss * option Loss) : M World float (option Loss * option Loss) :=
  let '(train_loss, test_loss) := l in
  call model_train ;;
  batches <- iterate train_dataloader ;;
  r <- for_each train_step batches (0%float, 0%float, train_loss) ;;
  let '(train_loss_epoch_sum, train_acc_epoch_sum, train_loss) := r in
  call model_eval ;;
  batches <- iterate test_dataloader ;;
  r <- for_each test_step batches (0%float, 0%float, test_loss) ;;
  let '(test_loss_epoch_sum, test_acc_epoch_sum, test_loss) := r in
  log_mean "train_loss" train_loss_epoch_sum train_dataloader ;;
  log_mean "test_loss" test_loss_epoch_sum test_dataloader ;;
  log_mean "train_acc" train_acc_epoch_sum train_dataloader ;;
  log_mean "test_acc" test_acc_epoch_sum test_dataloader ;;
  r <- lift (py_mod (epoch + 1) log_every) ;;
  (if (r =? 0) || (epoch + 1 =? max_epochs)
   then match train_loss, test_loss with
        | Some a, Some b =>
            print (mk_Line (epoch + 1) max_epochs [loss_item a; loss_item b])
        | _, _ => raise UnboundLocalError
        end
   else ret tt) ;;
  ret (train_loss, test_loss).

(** [train_classifier(model, optimizer, loss_func, train_dataloader,
    test_dataloader, max_epochs, log_every, use_gpu, logs)]; the model,
    the optimizer and [logs] are the objects of the store, and [logs] is
    what the function returns. *)
Definition train_classifier (max_epochs log_every : Z)
  : M World float (gmap string (list float)) :=
  call model_to ;;
  for_each (train_classifier_epoch max_epochs log_every)
           (range max_epochs) (None, None) ;;
  fun s => (Ok (logs s), s).

End TrainClassifier.

(** ** The training cell of [02_convnets.ipynb] *)

Section ConvnetsCell.

Context `{torch : Torch}.

Variables train_dataloader validation_dataloader : Loader.

(** The per-batch containers [(acc, loss)] of one pass. *)
Definition containers : Type := list spec_float * list spec_float.

(** The body of [for idx, (X, y) in enumerate(train_dataloader)]. *)
Definition cell_train_step (ib : nat * Batch) (l : containers)
  : M World spec_float containers :=
  let '(idx, b) := ib in
  let '(train_acc, train_loss) := l in
  y_hat <- on_world (fun w => model_call w b) ;;
  loss <- on_world (fun w => loss_call w y_hat b) ;;
  call (fun w => loss_backward w loss) ;;
  call optimizer_step ;;
  call optimizer_zero_grad ;;
  let acc := accuracy b y_hat in
  train_loss <- lift (tensor_setitem train_loss idx (loss_item loss)) ;;
  train_acc <- lift (tensor_setitem train_acc idx acc) ;;
  ret (train_acc, train_loss).

(** The body of [for idx, (X_validation, y_validation) in
    enumerate(validation_dataloader)]. *)
Definition cell_validation_step (ib : nat * Batch) (l : containers)
  : M World spec_float containers :=
  let '(idx, b) := ib in
  let '(validation_acc, validation_loss) := l in
  y_hat_validation <- on_world (fun w => model_call w b) ;;
  loss_ <- on_world (fun w => loss_call w y_hat_validation b) ;;
  let acc := accuracy b y_hat_validation in
  validation_loss <- lift (tensor_setitem validation_loss idx (loss_item loss_)) ;;
  validation_acc <- lift (tensor_setitem validation_acc idx acc) ;;
  ret (validation_acc, validation_loss).

(** [results[key].append(t.mean())]. *)
Definition results_append (key : string) (t : list spec_float)
  : M World spec_float unit :=
  dict_getitem key ;;
  list_append key (tensor_mean t).

Definition enumerate {A : Type} (l : list A) : list (nat * A) :=
  combine (seq 0 (length l)) l.

(** The body of [for epoch in range(max_epochs)]; the four containers
    are allocated once, before the loop, and reused by every epoch. *)
Definition cell_epoch (max_epochs log_every : Z) (epoch : Z)
    (l : containers * containers) : M World spec_float (containers * containers) :=
  let '(train, validation) := l in
  call model_train ;;
  batches <- iterate train_dataloader ;;
  train <- for_each cell_train_step (enumerate batches) train ;;
  call model_eval ;;
  batches <- iterate validation_dataloader ;;
  validation <- for_each cell_validation_step (enumerate batches) validation ;;
  let '(train_acc, train_loss) := train in
  let '(validation_acc, validation_loss) := validation in
  results_append "train_losses" train_loss ;;
  results_append "train_acc" train_acc ;;
  results_append "validation_losses" validation_loss ;;
  results_append "validation_acc" validation_acc ;;
  r <- lift (py_mod epoch log_every) ;;
  (if (r =? 0) || (epoch + 1 =? max_epochs)
   then print (mk_Line (epoch + 1) max_epochs
                 [tensor_mean train_loss; tensor_mean train_acc;
                  tensor_mean validation_loss; tensor_mean validation_acc])
   else ret tt) ;;
  ret (train, validation).

(** The cell, with its constants [max_epochs] and [log_every] as
    parameters: it binds [results] to a fresh dictionary, allocates the
    containers and runs the loop. *)
Definition training_cell (max_epochs log_every : Z) : M World spec_float unit :=
  (fun s => (Ok tt,
             mk_St (world s)
                   (<["train_losses" := []]>
                    (<["validation_losses" := []]>
                     (<["train_acc" := []]>
                      (<["validation_acc" := []]> ∅))))
                   (stdout s) (appends s))) ;;
  let ntrainsteps := loader_len train_dataloader in
  let train := (torch_zeros ntrainsteps, torch_zeros ntrainsteps) in
  let nvalidationsteps := loader_len validation_dataloader in
  let validation := (torch_zeros nvalidationsteps, torch_zeros nvalidationsteps) in
  for_each (cell_epoch max_epochs log_every) (range max_epochs)
           (train, validation) ;;
  ret tt.

End ConvnetsCell.

(** ** The embedding cache of the representation-learning notebook

    The plotting cells project data to two dimensions with the methods of
    [emb_methods] and keep the projections of the autoencoder's latent
    codes in [vis_cache = defaultdict(dict)], from which later cells read
    them.  The estimators, the scaler and the colour map are scikit-learn's,
    UMAP's and the notebook's helpers; the cells only call them. *)


Section VisCache.

Context `{Embedding}.














End VisCache.

(** ** Small concrete collaborators, used to run the definitions *)

(** A generator whose permutation rotates [0 .. n-1] by the seed. *)
Definition rotation (k n : nat) : list nat :=
  skipn (k mod n) (seq 0 n) ++ firstn (k mod n) (seq 0 n).

#[local] Instance toy_random : NumpyRandom := {
  RandomState := Z;
  RandomState_seed := fun seed => seed;
  rs_permutation := fun rs n => rotation (Z.to_nat rs) n
}.

(** The state of the global generator during the examples. *)
Definition toy_rng : @RandomState toy_random := 0.

(** Four samples of two values each; samples 2 and 3 end up in the
    validation partition for [validation_size = 0.5] and [seed = 42]. *)
Definition toy_data : mnist1d_data :=
  mk_data (mk_ndarray2 2 [[1; 5]; [2; 6]; [3; 7]; [4; 8]]%float) [0; 1; 2; 3].

Definition toy_data_perturbed : mnist1d_data :=
  mk_data (mk_ndarray2 2 [[1; 5]; [2; 6]; [3; 7]; [100; -50]]%float) [0; 1; 2; 3].

(** Four signals of 40 elements, the length of an MNIST-1D signal. *)
Definition toy_signals : mnist1d_data :=
  mk_data (mk_ndarray2 40 [repeat 1%float 40; repeat 2%float 40;
                           repeat 3%float 40; repeat 4%float 40])
          [0; 1; 2; 3].

(** The same samples with a constant training partition. *)
Definition toy_data_constant : mnist1d_data :=
  mk_data (mk_ndarray2 2 [[3; 3]; [3; 3]; [1; 5]; [2; 6]]%float) [0; 1; 2; 3].

(** A "model" whose state counts the calls made to it; every loss is 0.5
    and every accuracy 1. *)
#[local] Instance toy_torch : Torch := {
  World := nat;
  Batch := nat;
  Pred := unit;
  Loss := unit;
  model_to := fun w => w;
  model_train := fun w => w;
  model_eval := fun w => w;
  model_call := fun w _ => (S w, tt);
  loss_call := fun w _ _ => (w, tt);
  loss_backward := fun w _ => w;
  optimizer_step := fun w => w;
  optimizer_zero_grad := fun w => w;
  loss_item := fun _ => 0.5%float;
  accuracy := fun _ _ => 1%float
}.

Definition toy_loader (n : nat) : Loader := mk_Loader _ n (fun w => (w, fun i => i)).

Definition toy_store {V : Type} : St nat V := mk_St 0%nat ∅ [] [].






(** ** Observations used in the statements *)

(** The normalization statistics [(loc, scale)] of a constructed dataset. *)
Definition stats (r : result MNIST1D.t) : result (float * float) :=
  rmap (fun ds => (MNIST1D.X_loc ds, MNIST1D.X_scale ds)) r.

(** The outcome of a computation without its value. *)
Definition outcome {A : Type} (r : result A) : result unit :=
  rmap (fun _ => tt) r.

(** The metrics dictionary after [d[key].append(v)], and the number of
    values stored under a key. *)
Definition log_append {V : Type} (key : string) (v : V)
    (lg : gmap string (list V)) : gmap string (list V) :=
  <[key := default [] (lg !! key) ++ [v]]> lg.

Definition log_values {V : Type} (key : string) (lg : gmap string (list V))
  : list V :=
  default [] (lg !! key).

(** The four means of an epoch, in the order [train_classifier] appends
    them; the dictionary after the epoch; the [append] calls of the epochs
    [0 .. n-1] of a run that starts on the dictionary [lg]. *)
Definition epoch_means (V : Type) : Type := V * V * V * V.

Definition record_epoch (m : epoch_means float) (lg : gmap string (list float))
  : gmap string (list float) :=
  let '(train_loss, test_loss, train_acc, test_acc) := m in
  log_append "test_acc" test_acc
    (log_append "train_acc" train_acc
       (log_append "test_loss" test_loss
          (log_append "train_loss" train_loss lg))).

Definition appends_of_run (keys : list string) {V : Type}
    (lg : gmap string (list V)) (n : nat) : list (string * nat) :=
  flat_map (fun i => map (fun key => (key, (length (log_values key lg) + i)%nat)) keys)
           (seq 0 n).

Definition train_classifier_keys : list string :=
  ["train_loss"; "test_loss"; "train_acc"; "test_acc"].

Definition training_cell_keys : list string :=
  ["train_losses"; "train_acc"; "validation_losses"; "validation_acc"].

(** The dictionary the training cell of [02_convnets.ipynb] starts from,
    and the dictionary after one of its epochs. *)
Definition fresh_results : gmap string (list spec_float) :=
  <["train_losses" := []]>
    (<["validation_losses" := []]>
       (<["train_acc" := []]> (<["validation_acc" := []]> ∅))).

Definition record_cell_epoch (m : epoch_means spec_float)
    (lg : gmap string (list spec_float)) : gmap string (list spec_float) :=
  let '(train_loss, train_acc, validation_loss, validation_acc) := m in
  log_append "validation_acc" validation_acc
    (log_append "validation_losses" validation_loss
       (log_append "train_acc" train_acc
          (log_append "train_losses" train_loss lg))).

(** The values one epoch stores under [key], when its four means are
    appended under the four keys [keys], in this order. *)
Definition means_under {V : Type} (keys : list string) (m : epoch_means V)
    (key : string) : list V :=
  let '(m1, m2, m3, m4) := m in
  map snd (List.filter (fun kv => bool_decide (fst kv = key))
                  (combine keys [m1; m2; m3; m4])).

(** The four means the training cell appends for the containers
    [((train_acc, train_loss), (validation_acc, validation_loss))]. *)
Definition cell_means (l : (list spec_float * list spec_float)
                           * (list spec_float * list spec_float))
  : epoch_means spec_float :=
  let '((train_acc, train_loss), (validation_acc, validation_loss)) := l in
  (tensor_mean train_loss, tensor_mean train_acc,
   tensor_mean validation_loss, tensor_mean validation_acc).

(** A pair of per-batch containers of the size they were allocated with. *)
Definition sized (n : nat) (l : containers) : Prop :=
  length (fst l) = n /\ length (snd l) = n.

Definition cell_sized `{Torch} (train_dataloader validation_dataloader : Loader)
    (l : containers * containers) : Prop :=
  sized (loader_len train_dataloader) (fst l)
  /\ sized (loader_len validation_dataloader) (snd l).

(** The rule for progress lines in the words of the specification: a line
    after the epoch with index [epoch_index] exactly when
    [(epoch_index + 1) % log_every == 0] or the epoch is the final one. *)
Definition spec_progress_due (max_epochs log_every epoch_index : Z) : bool :=
  ((epoch_index + 1) mod log_every =? 0) || (epoch_index + 1 =? max_epochs).

(** The rule of the training cell of [02_convnets.ipynb]. *)
Definition cell_progress_due (max_epochs log_every epoch_index : Z) : bool :=
  (epoch_index mod log_every =? 0) || (epoch_index + 1 =? max_epochs).

(** The progress lines of the training cell as its records determine them:
    after the epoch with index [i], if a line is due, the four means of
    that epoch. *)
Definition cell_line (max_epochs log_every : Z)
    (em : Z * epoch_means spec_float) : list (Line spec_float) :=
  let '(epoch, (train_loss, train_acc, validation_loss, validation_acc)) := em in
  if cell_progress_due max_epochs log_every epoch
  then [mk_Line (epoch + 1) max_epochs
                [train_loss; train_acc; validation_loss; validation_acc]]
  else [].

(** The epoch numbers printed by a run: the [n/max_epochs] of its lines. *)
Definition printed_epochs {V : Type} (out : list (Line V)) : list Z :=
  map line_epoch out.

(** A statement that returns, satisfies [P] and leaves the dictionary,
    standard output and the append history as they are. *)
Definition world_only `{Torch} {V A : Type} (P : A -> Prop) (c : M World V A)
  : Prop :=
  forall s, exists w a,
    c s = (Ok a, mk_St w (logs s) (stdout s) (appends s)) /\ P a.

(** The store [s'] is the store [s] after more values have been appended
    ([d key] under [key]), more lines printed ([out]) and more [append]
    calls made ([rel], their positions counted from the end of the
    sequence in [s]); the PyTorch side aside. *)
Definition grown {World V : Type} (s s' : St World V) (d : string -> list V)
    (out : list (Line V)) (rel : list (string * nat)) : Prop :=
  (forall key, log_values key (logs s') = log_values key (logs s) ++ d key)
  /\ stdout s' = stdout s ++ out
  /\ appends s'
     = appends s
       ++ map (fun kp => (fst kp, (length (log_values (fst kp) (logs s)) + snd kp)%nat))
              rel.

(** A statement that reads nothing of the store but the PyTorch side (and
    whether the keys [keys] are in the dictionary): run on two stores with
    the same PyTorch side, it ends alike, reaches the same PyTorch side and
    grows both stores by the same values, lines and [append] calls. *)
Definition store_blind `{Torch} {V A : Type} (keys : list string)
    (c : M World V A) : Prop :=
  forall s1 s2 : St World V,
    world s1 = world s2 ->
    Forall (fun key => is_Some (logs s1 !! key)) keys ->
    Forall (fun key => is_Some (logs s2 !! key)) keys ->
    exists d out rel,
      fst (c s1) = fst (c s2)
      /\ world (snd (c s1)) = world (snd (c s2))
      /\ grown s1 (snd (c s1)) d out rel
      /\ grown s2 (snd (c s2)) d out rel
      /\ Forall (fun key => is_Some (logs (snd (c s1)) !! key)) keys
      /\ Forall (fun key => is_Some (logs (snd (c s2)) !! key)) keys.


Definition same_training `{Torch} {V1 V2 A B : Type} (R : A -> B -> Prop)
    (c1 : M World V1 A) (c2 : M World V2 B) : Prop :=
  forall s1 s2 a b s1' s2',
    world s1 = world s2 ->
    c1 s1 = (Ok a, s1') -> c2 s2 = (Ok b, s2') ->
    R a b /\ world s1' = world s2'.

(** * Properties *)

(** ** Running the definitions *)

Example ceil_0_1_times_4000 :
  math_ceil (0x1.999999999999ap-4 * float_of_int 4000)%float = Ok 400.
Proof. vm_compute. reflexivity. Qed.

Example ceil_0_07_times_100 :
  math_ceil (0x1.1eb851eb851ecp-4 * float_of_int 100)%float = Ok 8.
Proof. vm_compute. reflexivity. Qed.

(** [0.07 * 100] is [7.000000000000001] in binary64: 8 of 100 samples go
    to the validation partition. *)
Example split_sizes_0_07_of_100 :
  validate_shuffle_split_float 100 0x1.1eb851eb851ecp-4%float = Ok (92, 8).
Proof. vm_compute. reflexivity. Qed.

Example astype_float32_0_1 :
  astype_float32 0x1.999999999999ap-4 = S754_finite false 13421773 (-27).
Proof. vm_compute. reflexivity. Qed.

Example slice_last_row : slice [10; 20; 30] (-1) 0 = [].
Proof. reflexivity. Qed.

Example slice_before_last : slice [10; 20; 30] (-2) (-1) = [20].
Proof. reflexivity. Qed.

Example slice_past_end : slice [10; 20; 30] 3 4 = [].
Proof. reflexivity. Qed.

Example index_int_negative : index_int [10; 20; 30] (-1) = Ok 30.
Proof. reflexivity. Qed.

Example index_int_past_end : index_int [10; 20; 30] 3 = Raise IndexError.
Proof. reflexivity. Qed.

Example toy_split :
  split_indices toy_rng 4 0.5%float (Some 42) = Ok ([0; 1]%nat, [2; 3]%nat).
Proof. vm_compute. reflexivity. Qed.

(** Without a seed the split follows the global generator. *)
Example unseeded_split_follows_global_generator :
  split_indices toy_rng 4 0.5%float None = Ok ([2; 3]%nat, [0; 1]%nat)
  /\ split_indices (1 : @RandomState toy_random) 4 0.5%float None
     = Ok ([3; 0]%nat, [1; 2]%nat).
Proof. vm_compute. split; reflexivity. Qed.

Example tensor_mean_empty : tensor_mean [] = S754_nan.
Proof. reflexivity. Qed.

(** ** The error monad and array indexing *)

Lemma mapM_ext {A B : Type} (f g : A -> result B) (l : list A) :
  Forall (fun x => f x = g x) l -> mapM f l = mapM g l.
Proof.
  induction 1 as [|x l Hx _ IH]; simpl; [reflexivity|].
  rewrite Hx, IH. reflexivity.
Qed.

Lemma mapM_length {A B : Type} (f : A -> result B) (l : list A) (r : list B) :
  mapM f l = Ok r -> length r = length l.
Proof.
  revert r. induction l as [|x l IH]; simpl; intros r Hr.
  - injection Hr as <-. reflexivity.
  - destruct (f x) as [b|e]; simpl in Hr; [|discriminate].
    destruct (mapM f l) as [bs|e]; simpl in Hr; [|discriminate].
    injection Hr as <-. simpl. f_equal. apply IH. reflexivity.
Qed.

Lemma take_ext {A : Type} (l l' : list A) (idx : list nat) :
  Forall (fun i => l' !! i = l !! i) idx -> take l' idx = take l idx.
Proof.
  intros Hagree. unfold take. apply mapM_ext.
  eapply Forall_impl; [exact Hagree|].
  intros i Hi. simpl in Hi. rewrite Hi. reflexivity.
Qed.

Lemma take_length {A : Type} (l : list A) (idx : list nat) (r : list A) :
  take l idx = Ok r -> length r = length idx.
Proof. apply mapM_length. Qed.

Lemma take_in_range {A : Type} (l : list A) (idx : list nat) :
  Forall (fun i => (i < length l)%nat) idx -> is_ok (take l idx) = true.
Proof.
  unfold take. induction 1 as [|i idx Hi _ IH]; simpl; [reflexivity|].
  destruct (lookup_lt_is_Some_2 l i Hi) as [x ->]. simpl.
  destruct (mapM _ idx); [reflexivity|discriminate].
Qed.

Lemma take_rows_ext (a a' : ndarray2 float) (idx : list nat) :
  ncols a' = ncols a ->
  Forall (fun i => rows a' !! i = rows a !! i) idx ->
  take_rows a' idx = take_rows a idx.
Proof.
  intros Hc Hagree. unfold take_rows.
  rewrite (take_ext (rows a) (rows a') idx Hagree), Hc. reflexivity.
Qed.

Lemma take_outcome {A : Type} (l l' : list A) (idx : list nat) :
  length l' = length l -> outcome (take l' idx) = outcome (take l idx).
Proof.
  intros Hlen. unfold take. induction idx as [|i idx IH]; simpl; [reflexivity|].
  destruct (l !! i) as [x|] eqn:Hx.
  - destruct (lookup_lt_is_Some_2 l' i) as [x' ->].
    { rewrite Hlen. apply lookup_lt_is_Some_1. eauto. }
    simpl. revert IH. unfold outcome, rmap.
    destruct (mapM _ idx), (mapM _ idx); simpl; congruence.
  - apply lookup_ge_None_1 in Hx. rewrite <- Hlen in Hx.
    apply lookup_ge_None_2 in Hx. rewrite Hx. reflexivity.
Qed.

Lemma take_rows_outcome (a a' : ndarray2 float) (idx : list nat) :
  length (rows a') = length (rows a) ->
  outcome (take_rows a' idx) = outcome (take_rows a idx).
Proof.
  intros Hlen. unfold take_rows.
  pose proof (take_outcome (rows a) (rows a') idx Hlen) as Ho.
  revert Ho. unfold outcome, rmap.
  destruct (take (rows a') idx), (take (rows a) idx); simpl; congruence.
Qed.

(** ** The dataset adapter *)

Section Adapter.

Context `{NumpyRandom}.
Variable np_random : RandomState.

(** The constructor, unfolded once: the split, the statistics of the
    training partition, then the view. *)
Lemma init_unfold (train : bool) (p : float) (d : mnist1d_data) (seed : Z)
    (ind_train ind_test : list nat) :
  length (rows (data_x d)) = length (data_y d) ->
  split_indices np_random (length (rows (data_x d))) p (Some seed)
    = Ok (ind_train, ind_test) ->
  MNIST1D.init np_random train p d seed =
    (let! X_train := take_rows (data_x d) ind_train in
     let! X_validation := take_rows (data_x d) ind_test in
     let! y_train := take (data_y d) ind_train in
     let! y_validation := take (data_y d) ind_test in
     let! lo := np_min X_train in
     let! hi := np_max X_train in
     Ok (MNIST1D.mk train d lo (hi - lo)%float
           (MNIST1D.normalize lo (hi - lo)%float
              (if train then X_train else X_validation))
           (if train then y_train else y_validation))).
Proof.
  intros Hlen Hsplit. unfold MNIST1D.init, train_test_split.
  rewrite Hsplit. apply Nat.eqb_eq in Hlen. rewrite Hlen. simpl.
  destruct (take_rows (data_x d) ind_train) as [X_train|]; simpl; [|reflexivity].
  destruct (take_rows (data_x d) ind_test) as [X_val|]; simpl; [|reflexivity].
  destruct (take (data_y d) ind_train) as [y_train|]; simpl; [|reflexivity].
  destruct (take (data_y d) ind_test) as [y_val|]; simpl; [|reflexivity].
  destruct (np_min X_train) as [lo|]; simpl; [|reflexivity].
  destruct (np_max X_train) as [hi|]; simpl; [|reflexivity].
  destruct train; reflexivity.
Qed.

Lemma init_mismatch (train : bool) (p : float) (d : mnist1d_data) (seed : Z) :
  length (rows (data_x d)) <> length (data_y d) ->
  MNIST1D.init np_random train p d seed = Raise ValueError.
Proof.
  intros Hlen. unfold MNIST1D.init, train_test_split.
  apply Nat.eqb_neq in Hlen. rewrite Hlen. reflexivity.
Qed.

End Adapter.

Section Leakage.

Context `{NumpyRandom}.
Variable np_random : RandomState.

(** C1 - Leakage-freedom of the normalization.  Let [d'] be [d] with its
    validation-partition inputs perturbed at will: same labels, same
    shape, and the same input at every index of the training partition of
    the split for [(p, seed)].  Then the statistics [(loc, scale)] of the
    dataset built from [d'] are those of the dataset built from [d], for
    the training and for the validation view alike; and the validation
    view of [d'] holds exactly the validation inputs normalized with
    [loc = min] and [scale = max - min] of the training inputs of [d]. *)
Theorem leakage_freedom (d d' : mnist1d_data) (p : float) (seed : Z)
    (ind_train ind_test : list nat) :
  split_indices np_random (length (rows (data_x d))) p (Some seed)
    = Ok (ind_train, ind_test) ->
  data_y d' = data_y d ->
  ncols (data_x d') = ncols (data_x d) ->
  length (rows (data_x d')) = length (rows (data_x d)) ->
  Forall (fun i => rows (data_x d') !! i = rows (data_x d) !! i) ind_train ->
  (forall train train' : bool,
      stats (MNIST1D.init np_random train p d' seed)
      = stats (MNIST1D.init np_random train' p d seed))
  /\ (forall view : MNIST1D.t,
        MNIST1D.init np_random false p d' seed = Ok view ->
        exists X_train X_validation lo hi,
          take_rows (data_x d) ind_train = Ok X_train
          /\ take_rows (data_x d') ind_test = Ok X_validation
          /\ np_min X_train = Ok lo
          /\ np_max X_train = Ok hi
          /\ MNIST1D.X_loc view = lo
          /\ MNIST1D.X_scale view = (hi - lo)%float
          /\ MNIST1D.X view = MNIST1D.normalize lo (hi - lo)%float X_validation).
Proof.
  intros Hsplit Hy Hc Hn Hagree.
  destruct (Nat.eq_dec (length (rows (data_x d))) (length (data_y d)))
    as [Hlen|Hlen].
  - assert (Hlen' : length (rows (data_x d')) = length (data_y d'))
      by (rewrite Hn, Hy; exact Hlen).
    assert (Hsplit' : split_indices np_random (length (rows (data_x d'))) p
                        (Some seed) = Ok (ind_train, ind_test))
      by (rewrite Hn; exact Hsplit).
    pose proof (take_rows_ext (data_x d) (data_x d') ind_train Hc Hagree) as Htr.
    pose proof (take_rows_outcome (data_x d) (data_x d') ind_test Hn) as Hte.
    split.
    + intros train train'.
      rewrite (init_unfold np_random train p d' seed _ _ Hlen' Hsplit').
      rewrite (init_unfold np_random train' p d seed _ _ Hlen Hsplit).
      rewrite Htr, Hy.
      destruct (take_rows (data_x d) ind_train) as [X_train|]; simpl;
        [|reflexivity].
      revert Hte. unfold outcome, rmap.
      destruct (take_rows (data_x d') ind_test),
               (take_rows (data_x d) ind_test); simpl;
        try discriminate; [|intros [= ->]; reflexivity].
      intros _.
      destruct (take (data_y d) ind_train); simpl; [|reflexivity].
      destruct (take (data_y d) ind_test); simpl; [|reflexivity].
      destruct (np_min X_train); simpl; [|reflexivity].
      destruct (np_max X_train); simpl; reflexivity.
    + intros view.
      rewrite (init_unfold np_random false p d' seed _ _ Hlen' Hsplit').
      rewrite Htr.
      destruct (take_rows (data_x d) ind_train) as [X_train|]; simpl;
        [|discriminate].
      destruct (take_rows (data_x d') ind_test) as [X_val|]; simpl;
        [|discriminate].
      destruct (take (data_y d') ind_train); simpl; [|discriminate].
      destruct (take (data_y d') ind_test); simpl; [|discriminate].
      destruct (np_min X_train) as [lo|] eqn:Hlo; simpl; [|discriminate].
      destruct (np_max X_train) as [hi|] eqn:Hhi; simpl; [|discriminate].
      intros [= <-]. exists X_train, X_val, lo, hi. repeat split; assumption.
  - assert (Hlen' : length (rows (data_x d')) <> length (data_y d'))
      by (rewrite Hn, Hy; exact Hlen).
    split.
    + intros train train'.
      rewrite !init_mismatch by assumption. reflexivity.
    + intros view. rewrite init_mismatch by assumption. discriminate.
Qed.

End Leakage.

(** The perturbed toy data differ from the toy data in validation sample 3
    only; both yield [loc = 1] and [scale = 5]. *)
Lemma leakage_freedom_witness :
  stats (MNIST1D.init toy_rng true 0.5%float toy_data_perturbed 42)
  = stats (MNIST1D.init toy_rng false 0.5%float toy_data 42)
  /\ stats (MNIST1D.init toy_rng false 0.5%float toy_data 42)
     = Ok (1%float, 5%float).
Proof.
  split.
  - apply (proj1 (leakage_freedom toy_rng toy_data toy_data_perturbed
                    0.5%float 42 [0; 1]%nat [2; 3]%nat
                    ltac:(vm_compute; reflexivity) ltac:(reflexivity)
                    ltac:(reflexivity) ltac:(reflexivity)
                    ltac:(repeat constructor))).
  - vm_compute. reflexivity.
Defined.

(** ** Slices *)

Lemma slice_prefix {A : Type} (l : list A) (b : Z) :
  0 <= b <= Z.of_nat (length l) -> slice l 0 b = firstn (Z.to_nat b) l.
Proof.
  intros Hb. unfold slice, clamp_index.
  replace (0 <? 0) with false by reflexivity.
  destruct (b <? 0) eqn:Hneg; [apply Z.ltb_lt in Hneg; lia|].
  rewrite Z.min_l by lia. rewrite Z.min_l by lia.
  rewrite Z.sub_0_r. reflexivity.
Qed.

Lemma slice_suffix {A : Type} (l : list A) (a : Z) :
  0 <= a <= Z.of_nat (length l) ->
  slice l a (Z.of_nat (length l)) = skipn (Z.to_nat a) l.
Proof.
  intros Ha. unfold slice, clamp_index.
  destruct (a <? 0) eqn:Hneg; [apply Z.ltb_lt in Hneg; lia|].
  destruct (Z.of_nat (length l) <? 0) eqn:Hneg'; [apply Z.ltb_lt in Hneg'; lia|].
  rewrite Z.min_l by lia. rewrite Z.min_l by lia.
  apply firstn_all2. rewrite length_skipn. lia.
Qed.

(** ** [math.ceil] *)



(** ** The split *)

Section Split.

Context `{NumpyRandom}.
Variable np_random : RandomState.

Lemma split_indices_inv (n : nat) (p : float) (random_state : option Z)
    (ind_train ind_test : list nat) :
  split_indices np_random n p random_state = Ok (ind_train, ind_test) ->
  exists (n_test : Z) (rng : RandomState),
    math_ceil (p * float_of_int (Z.of_nat n))%float = Ok n_test
    /\ 0 < n_test < Z.of_nat n
    /\ check_random_state np_random random_state = Ok rng
    /\ ind_test = slice (rs_permutation rng n) 0 n_test
    /\ ind_train = slice (rs_permutation rng n) n_test (Z.of_nat n).
Proof.
  unfold split_indices, validate_shuffle_split_float.
  destruct ((p <=? 0)%float || (1 <=? p)%float); [discriminate|].
  destruct (math_ceil _) as [n_test|]; simpl; [|discriminate].
  destruct (Z.of_nat n <? _); [discriminate|].
  destruct (Z.of_nat n - n_test =? 0); [discriminate|]. simpl.
  unfold validate_shuffle_split_int.
  destruct ((Z.of_nat n <=? n_test) || (n_test <=? 0)) eqn:Htest;
    [discriminate|].
  destruct ((Z.of_nat n <=? Z.of_nat n - n_test) || _); [discriminate|].
  destruct (Z.of_nat n <? _); [discriminate|].
  destruct (Z.of_nat n - n_test =? 0); [discriminate|]. simpl.
  destruct (check_random_state np_random random_state) as [rng|];
    simpl; [|discriminate].
  intros [= <- <-]. exists n_test, rng.
  apply orb_false_iff in Htest as [H1 H2].
  apply Z.leb_gt in H1. apply Z.leb_gt in H2.
  replace (n_test + (Z.of_nat n - n_test)) with (Z.of_nat n) by lia.
  repeat split; try reflexivity; lia.
Qed.

Hypothesis permutation_spec :
  forall (rs : RandomState) (k : nat), Permutation (rs_permutation rs k) (seq 0 k).

Lemma permutation_length (rs : RandomState) (k : nat) :
  length (rs_permutation rs k) = k.
Proof.
  rewrite (Permutation_length (permutation_spec rs k)). apply length_seq.
Qed.

(** The two index lists are the two halves of the permutation, cut at the
    size of the validation partition. *)
Lemma split_indices_halves (n : nat) (p : float) (random_state : option Z)
    (ind_train ind_test : list nat) :
  split_indices np_random n p random_state = Ok (ind_train, ind_test) ->
  exists (n_test : Z) (rng : RandomState),
    math_ceil (p * float_of_int (Z.of_nat n))%float = Ok n_test
    /\ 0 < n_test < Z.of_nat n
    /\ ind_test = firstn (Z.to_nat n_test) (rs_permutation rng n)
    /\ ind_train = skipn (Z.to_nat n_test) (rs_permutation rng n).
Proof.
  intros Hsplit.
  destruct (split_indices_inv _ _ _ _ _ Hsplit)
    as (n_test & rng & Hceil & Hrange & _ & -> & ->).
  exists n_test, rng. repeat split; try assumption; try lia.
  - apply slice_prefix. rewrite permutation_length. lia.
  - rewrite <- (permutation_length rng n) at 2.
    apply slice_suffix. rewrite permutation_length. lia.
Qed.


Lemma split_indices_in_range (n : nat) (p : float) (random_state : option Z)
    (ind_train ind_test : list nat) :
  split_indices np_random n p random_state = Ok (ind_train, ind_test) ->
  Permutation (ind_test ++ ind_train) (seq 0 n).
Proof.
  intros Hsplit.
  destruct (split_indices_halves _ _ _ _ _ Hsplit)
    as (n_test & rng & _ & _ & -> & ->).
  rewrite firstn_skipn. apply permutation_spec.
Qed.

End Split.

Lemma take_elements {A : Type} (l : list A) (idx : list nat) (r : list A) :
  take l idx = Ok r -> Forall (fun x => x ∈ l) r.
Proof.
  unfold take. revert r. induction idx as [|i idx IH]; simpl; intros r Hr.
  - injection Hr as <-. constructor.
  - destruct (l !! i) as [x|] eqn:Hx; simpl in Hr; [|discriminate].
    destruct (mapM _ idx) as [xs|]; simpl in Hr; [|discriminate].
    injection Hr as <-. constructor.
    + apply list_elem_of_lookup. eauto.
    + apply IH. reflexivity.
Qed.

Lemma np_reduce_ok (op : float -> float -> float) (a : ndarray2 float) :
  rows a <> [] -> Forall (fun r => r <> []) (rows a) ->
  exists v, np_reduce op a = Ok v.
Proof.
  unfold np_reduce. destruct (rows a) as [|r rs]; [congruence|].
  intros _ Hne. inversion Hne as [|? ? Hr _]; subst.
  destruct r as [|x xs]; [congruence|]. simpl. eauto.
Qed.


Section Construction.

Context `{NumpyRandom}.
Variable np_random : RandomState.

Lemma init_len (train : bool) (p : float) (d : mnist1d_data) (seed : Z)
    (ind_train ind_test : list nat) (ds : MNIST1D.t) :
  split_indices np_random (length (rows (data_x d))) p (Some seed)
    = Ok (ind_train, ind_test) ->
  MNIST1D.init np_random train p d seed = Ok ds ->
  MNIST1D.len ds = Z.of_nat (length (if train then ind_train else ind_test))
  /\ length (MNIST1D.y ds) = length (rows (MNIST1D.X ds))
  /\ ncols (MNIST1D.X ds) = ncols (data_x d).
Proof.
  intros Hsplit.
  destruct (Nat.eq_dec (length (rows (data_x d))) (length (data_y d)))
    as [Hlen|Hlen]; [|rewrite init_mismatch by assumption; discriminate].
  rewrite (init_unfold np_random train p d seed _ _ Hlen Hsplit).
  unfold take_rows.
  destruct (take (rows (data_x d)) ind_train) as [X_train|] eqn:Hxt; simpl;
    [|discriminate].
  destruct (take (rows (data_x d)) ind_test) as [X_val|] eqn:Hxv; simpl;
    [|discriminate].
  destruct (take (data_y d) ind_train) as [y_train|] eqn:Hyt; simpl;
    [|discriminate].
  destruct (take (data_y d) ind_test) as [y_val|] eqn:Hyv; simpl;
    [|discriminate].
  destruct (np_min _); simpl; [|discriminate].
  destruct (np_max _); simpl; [|discriminate].
  intros [= <-]. unfold MNIST1D.len. simpl.
  apply take_length in Hxt, Hxv, Hyt, Hyv.
  destruct train; simpl; rewrite length_map; repeat split; congruence.
Qed.

Hypothesis permutation_spec :
  forall (rs : RandomState) (k : nat), Permutation (rs_permutation rs k) (seq 0 k).

(** On samples that are not empty the constructor returns whenever the
    split does, with the statistics of the selected training rows. *)
Lemma init_succeeds (train : bool) (p : float) (d : mnist1d_data) (seed : Z)
    (ind_train ind_test : list nat) :
  length (rows (data_x d)) = length (data_y d) ->
  Forall (fun r => r <> []) (rows (data_x d)) ->
  split_indices np_random (length (rows (data_x d))) p (Some seed)
    = Ok (ind_train, ind_test) ->
  exists X_train X_validation y_train y_validation lo hi,
    take (rows (data_x d)) ind_train = Ok X_train
    /\ take (rows (data_x d)) ind_test = Ok X_validation
    /\ X_train <> []
    /\ np_min (mk_ndarray2 (ncols (data_x d)) X_train) = Ok lo
    /\ np_max (mk_ndarray2 (ncols (data_x d)) X_train) = Ok hi
    /\ MNIST1D.init np_random train p d seed =
         Ok (MNIST1D.mk train d lo (hi - lo)%float
               (MNIST1D.normalize lo (hi - lo)%float
                  (mk_ndarray2 (ncols (data_x d))
                     (if train then X_train else X_validation)))
               (if train then y_train else y_validation)).
Proof.
  intros Hlen Hne Hsplit.
  rewrite (init_unfold np_random train p d seed _ _ Hlen Hsplit).
  pose proof (split_indices_in_range np_random permutation_spec _ _ _ _ _ Hsplit)
    as Hperm.
  assert (Hrange : Forall (fun i => (i < length (rows (data_x d)))%nat)
                     (ind_test ++ ind_train)).
  { apply Forall_forall. intros i Hi. rewrite Hperm in Hi.
    apply elem_of_seq in Hi. lia. }
  apply Forall_app in Hrange as [Hte Htr].
  destruct (split_indices_halves np_random permutation_spec _ _ _ _ _ Hsplit)
    as (n_test & rng & _ & Hn & _ & Htrain).
  assert (Hpos : ind_train <> []).
  { intros Hnil. apply (f_equal length) in Htrain.
    rewrite Hnil, length_skipn, permutation_length in Htrain by assumption.
    simpl in Htrain. lia. }
  unfold take_rows.
  pose proof (take_in_range (rows (data_x d)) ind_train Htr) as H1.
  pose proof (take_in_range (rows (data_x d)) ind_test Hte) as H2.
  rewrite Hlen in Htr, Hte.
  pose proof (take_in_range (data_y d) ind_train Htr) as H3.
  pose proof (take_in_range (data_y d) ind_test Hte) as H4.
  destruct (take (rows (data_x d)) ind_train) as [X_train|] eqn:Hxt;
    [|discriminate].
  destruct (take (rows (data_x d)) ind_test) as [X_val|]; [|discriminate].
  destruct (take (data_y d) ind_train) as [y_train|]; [|discriminate].
  destruct (take (data_y d) ind_test) as [y_val|]; [|discriminate].
  simpl.
  assert (Hrows : X_train <> []).
  { intros ->. apply take_length in Hxt. destruct ind_train; simpl in *;
      congruence. }
  assert (Hnonempty : Forall (fun r => r <> [])
                        (rows (mk_ndarray2 (ncols (data_x d)) X_train))).
  { simpl. pose proof (take_elements _ _ _ Hxt) as Hel.
    rewrite Forall_forall in Hel, Hne |- *. auto. }
  destruct (np_reduce_ok np_minimum (mk_ndarray2 (ncols (data_x d)) X_train)
              Hrows Hnonempty) as [lo Hlo].
  destruct (np_reduce_ok np_maximum (mk_ndarray2 (ncols (data_x d)) X_train)
              Hrows Hnonempty) as [hi Hhi].
  exists X_train, X_val, y_train, y_val, lo, hi.
  unfold np_min, np_max. rewrite Hlo, Hhi. simpl.
  destruct train; repeat split; assumption || reflexivity.
Qed.


End Construction.

Lemma rotation_permutation (k n : nat) : Permutation (rotation k n) (seq 0 n).
Proof.
  unfold rotation. rewrite Permutation_app_comm, firstn_skipn. reflexivity.
Qed.

(** C4 - Split determinism.  With [seed] given as [random_state], the split
    consults no generator but the one it seeds itself: whatever the state of
    the global generator at the time of the call ([np_random] for the first
    call, [np_random'] for the second), and whatever the contents of two raw
    sample sets with the same number of samples, the same
    [(split_fraction, seed)] yield the same training and validation index
    lists, and two constructions from the same raw set yield the same
    dataset. *)
Theorem split_determinism `{NumpyRandom} (np_random np_random' : RandomState)
    (d d' : mnist1d_data) (p : float) (seed : Z) :
  length (rows (data_x d)) = length (rows (data_x d')) ->
  split_indices np_random (length (rows (data_x d))) p (Some seed)
  = split_indices np_random' (length (rows (data_x d'))) p (Some seed)
  /\ (forall train : bool,
        MNIST1D.init np_random train p d seed
        = MNIST1D.init np_random' train p d seed).
Proof.
  intros <-. split; [reflexivity|]. intros train. reflexivity.
Qed.

Lemma split_determinism_witness :
  split_indices toy_rng 4 0.5%float (Some 42)
  = split_indices (7 : @RandomState toy_random) 4 0.5%float (Some 42)
  /\ split_indices toy_rng 4 0.5%float (Some 42) = Ok ([0; 1]%nat, [2; 3]%nat).
Proof.
  split.
  - exact (proj1 (split_determinism toy_rng (7 : @RandomState toy_random)
                    toy_data toy_data_perturbed 0.5%float 42 eq_refl)).
  - vm_compute. reflexivity.
Defined.



(** ** Constant training data *)

Lemma float_sub_diag (c : float) :
  SFfinite (Prim2SF c) = true -> (c - c)%float = 0%float.
Proof.
  intros Hfin. rewrite <- (SF2Prim_Prim2SF (c - c)), FloatAxioms.sub_spec.
  destruct (Prim2SF c) as [s|s| |s m e]; try discriminate.
  - destruct s; reflexivity.
  - unfold SF64sub, SFsub. rewrite Z.sub_diag. reflexivity.
Qed.

Lemma np_minimum_diag (c : float) : np_minimum c c = c.
Proof. unfold np_minimum. destruct (_ || _); reflexivity. Qed.

Lemma np_maximum_diag (c : float) : np_maximum c c = c.
Proof. unfold np_maximum. destruct (_ || _); reflexivity. Qed.

Lemma fold_left_constant (op : float -> float -> float) (c : float)
    (xs : list float) :
  op c c = c -> Forall (eq c) xs -> fold_left op xs c = c.
Proof.
  intros Hop. induction 1 as [|x xs <- _ IH]; simpl; [reflexivity|].
  rewrite Hop. exact IH.
Qed.

Lemma np_reduce_constant (op : float -> float -> float) (c : float)
    (a : ndarray2 float) :
  op c c = c -> Forall (Forall (eq c)) (rows a) -> concat (rows a) <> [] ->
  np_reduce op a = Ok c.
Proof.
  intros Hop Hconst Hne. unfold np_reduce.
  assert (Hall : Forall (eq c) (concat (rows a))).
  { clear Hne. induction Hconst; simpl; [constructor|]. apply Forall_app. auto. }
  destruct (concat (rows a)) as [|x xs]; [congruence|].
  apply Forall_cons in Hall as [<- Hxs].
  rewrite (fold_left_constant op c xs Hop Hxs). reflexivity.
Qed.

Lemma take_Forall {A : Type} (P : A -> Prop) (l : list A) (idx : list nat)
    (r : list A) :
  take l idx = Ok r ->
  Forall (fun i => forall x, l !! i = Some x -> P x) idx ->
  Forall P r.
Proof.
  unfold take. revert r. induction idx as [|i idx IH]; simpl; intros r Hr Hidx.
  - injection Hr as <-. constructor.
  - inversion Hidx as [|? ? Hi Hrest]; subst.
    destruct (l !! i) as [x|] eqn:Hx; simpl in Hr; [|discriminate].
    destruct (mapM _ idx) as [xs|]; simpl in Hr; [|discriminate].
    injection Hr as <-. constructor; [apply Hi; reflexivity|].
    apply IH; [reflexivity|assumption].
Qed.

(** C2 - Constant training data, where the claim says that computing the
    statistics fails.  Rows 0 and 1 of [toy_data_constant] form the training
    partition and hold the value 3 only.  The constructor returns: [loc] is
    3, [scale] is 0 and every normalized training input is NaN. *)
Lemma constant_training_data_is_accepted :
  MNIST1D.init toy_rng true 0.5%float toy_data_constant 42
  = Ok (MNIST1D.mk true toy_data_constant 3%float 0%float
          (mk_ndarray2 2 [[nan; nan]; [nan; nan]]%float) [0; 1]).
Proof. vm_compute. reflexivity. Qed.

(** C2, as the code has it.  When the training partition is constant -
    every training input equals one finite value [c] - and no sample is
    empty, the constructor does not fail: both views get [loc = c] and
    [scale = 0], and every normalized input of the training view is NaN. *)
Theorem constant_training_partition `{NumpyRandom} (np_random : RandomState)
    (d : mnist1d_data) (p : float) (seed : Z) (ind_train ind_test : list nat)
    (c : float) :
  (forall (rs : RandomState) (k : nat), Permutation (rs_permutation rs k) (seq 0 k)) ->
  length (rows (data_x d)) = length (data_y d) ->
  Forall (fun r => r <> []) (rows (data_x d)) ->
  split_indices np_random (length (rows (data_x d))) p (Some seed)
    = Ok (ind_train, ind_test) ->
  Forall (fun i => forall r, rows (data_x d) !! i = Some r -> Forall (eq c) r)
         ind_train ->
  SFfinite (Prim2SF c) = true ->
  (forall train : bool,
      stats (MNIST1D.init np_random train p d seed) = Ok (c, 0%float))
  /\ exists ds,
       MNIST1D.init np_random true p d seed = Ok ds
       /\ MNIST1D.len ds = Z.of_nat (length ind_train)
       /\ Forall (Forall (eq nan)) (rows (MNIST1D.X ds)).
Proof.
  intros Hperm Hlen Hne Hsplit Hconst Hfin.
  assert (Hstats : forall train,
             exists X_train X_validation y_train y_validation,
               take (rows (data_x d)) ind_train = Ok X_train
               /\ MNIST1D.init np_random train p d seed =
                  Ok (MNIST1D.mk train d c 0%float
                        (MNIST1D.normalize c 0%float
                           (mk_ndarray2 (ncols (data_x d))
                              (if train then X_train else X_validation)))
                        (if train then y_train else y_validation))).
  { intros train.
    destruct (init_succeeds np_random Hperm train p d seed _ _ Hlen Hne Hsplit)
      as (X_train & X_val & y_train & y_val & lo & hi
          & Hxt & _ & Hrows & Hlo & Hhi & Hinit).
    assert (Hall : Forall (Forall (eq c)) X_train)
      by (exact (take_Forall _ _ _ _ Hxt Hconst)).
    assert (Hcat : concat X_train <> []).
    { destruct X_train as [|r rs]; [congruence|].
      pose proof (take_elements _ _ _ Hxt) as Hel.
      inversion Hel as [|? ? Hr _]; subst.
      rewrite Forall_forall in Hne. specialize (Hne r Hr).
      destruct r; [congruence|discriminate]. }
    unfold np_min in Hlo. unfold np_max in Hhi.
    rewrite (np_reduce_constant np_minimum c (mk_ndarray2 _ X_train)
               (np_minimum_diag c) Hall Hcat) in Hlo.
    rewrite (np_reduce_constant np_maximum c (mk_ndarray2 _ X_train)
               (np_maximum_diag c) Hall Hcat) in Hhi.
    injection Hlo as <-. injection Hhi as <-.
    rewrite (float_sub_diag c Hfin) in Hinit.
    exists X_train, X_val, y_train, y_val. split; assumption. }
  split.
  - intros train. destruct (Hstats train) as (? & ? & ? & ? & _ & ->).
    reflexivity.
  - destruct (Hstats true) as (X_train & ? & ? & ? & Hxt & Hinit).
    eexists. split; [exact Hinit|]. simpl. split.
    + unfold MNIST1D.len. simpl. rewrite length_map.
      rewrite (take_length _ _ _ Hxt). reflexivity.
    + pose proof (take_Forall _ _ _ _ Hxt Hconst) as Hall.
      apply Forall_map. eapply Forall_impl; [exact Hall|].
      intros r Hr. simpl. apply Forall_map. eapply Forall_impl; [exact Hr|].
      intros v <-. simpl. rewrite (float_sub_diag c Hfin). reflexivity.
Qed.

Lemma constant_training_partition_witness :
  stats (MNIST1D.init toy_rng false 0.5%float toy_data_constant 42)
  = Ok (3%float, 0%float).
Proof.
  apply (proj1 (constant_training_partition toy_rng toy_data_constant 0.5%float
                  42 [0; 1]%nat [2; 3]%nat 3%float
                  (fun rs k => rotation_permutation (Z.to_nat rs) k)
                  ltac:(reflexivity) ltac:(repeat constructor; discriminate)
                  ltac:(vm_compute; reflexivity)
                  ltac:(repeat constructor; intros r [= <-]; repeat constructor)
                  ltac:(reflexivity))).
Defined.

(** ** Indexed access *)

Lemma slice_single {A : Type} (l : list A) (i : Z) (x : A) :
  0 <= i -> l !! Z.to_nat i = Some x -> slice l i (i + 1) = [x].
Proof.
  intros Hi Hx. pose proof (lookup_lt_Some _ _ _ Hx) as Hlt.
  unfold slice, clamp_index.
  destruct (i <? 0) eqn:H1; [apply Z.ltb_lt in H1; lia|].
  destruct (i + 1 <? 0) eqn:H2; [apply Z.ltb_lt in H2; lia|].
  rewrite !Z.min_l by lia.
  replace (Z.to_nat (i + 1 - i)) with 1%nat by lia.
  rewrite (drop_S _ _ _ Hx). reflexivity.
Qed.



Lemma index_int_in_range {A : Type} (l : list A) (i : Z) (x : A) :
  0 <= i -> l !! Z.to_nat i = Some x -> index_int l i = Ok x.
Proof.
  intros Hi Hx. pose proof (lookup_lt_Some _ _ _ Hx) as Hlt.
  unfold index_int.
  destruct (i <? - Z.of_nat (length l)) eqn:H1; [apply Z.ltb_lt in H1; lia|].
  destruct (Z.of_nat (length l) <=? i) eqn:H2; [apply Z.leb_le in H2; lia|].
  destruct (i <? 0) eqn:H3; [apply Z.ltb_lt in H3; lia|].
  simpl. rewrite Hx. reflexivity.
Qed.

Lemma index_int_negative_wraps {A : Type} (l : list A) (i : Z) :
  - Z.of_nat (length l) <= i < 0 ->
  index_int l i = index_int l (i + Z.of_nat (length l)).
Proof.
  intros Hi. unfold index_int.
  destruct (i <? - Z.of_nat (length l)) eqn:H1; [apply Z.ltb_lt in H1; lia|].
  destruct (Z.of_nat (length l) <=? i) eqn:H2; [apply Z.leb_le in H2; lia|].
  destruct (i + Z.of_nat (length l) <? - Z.of_nat (length l)) eqn:H3;
    [apply Z.ltb_lt in H3; lia|].
  destruct (Z.of_nat (length l) <=? i + Z.of_nat (length l)) eqn:H4;
    [apply Z.leb_le in H4; lia|].
  destruct (i <? 0) eqn:H5; [|apply Z.ltb_ge in H5; lia].
  destruct (i + Z.of_nat (length l) <? 0) eqn:H6; [apply Z.ltb_lt in H6; lia|].
  reflexivity.
Qed.

Lemma astype_int64_range (z : Z) : - 2 ^ 63 <= astype_int64 z < 2 ^ 63.
Proof.
  unfold astype_int64.
  pose proof (Z.mod_pos_bound (z + 2 ^ 63) (2 ^ 64) ltac:(lia)). lia.
Qed.

Lemma astype_int64_id (z : Z) : - 2 ^ 63 <= z < 2 ^ 63 -> astype_int64 z = z.
Proof.
  intros Hz. unfold astype_int64. rewrite Z.mod_small by lia. lia.
Qed.

(** A constructed dataset has one label per row, and rows of the width of
    the raw samples. *)
Lemma init_invariant `{NumpyRandom} (np_random : RandomState) (train : bool)
    (p : float) (d : mnist1d_data) (seed : Z) (self : MNIST1D.t) :
  MNIST1D.init np_random train p d seed = Ok self ->
  length (MNIST1D.y self) = length (rows (MNIST1D.X self))
  /\ ncols (MNIST1D.X self) = ncols (data_x d)
  /\ (rectangular (data_x d) -> rectangular (MNIST1D.X self)).
Proof.
  intros Hinit.
  destruct (split_indices np_random (length (rows (data_x d))) p (Some seed))
    as [[ind_train ind_test]|e] eqn:Hsplit.
  - destruct (init_len np_random train p d seed _ _ self Hsplit Hinit)
      as (_ & Hy & Hc).
    repeat split; try assumption.
    intros Hrect. revert Hinit.
    destruct (Nat.eq_dec (length (rows (data_x d))) (length (data_y d)))
      as [Hlen|Hlen]; [|rewrite init_mismatch by assumption; discriminate].
    rewrite (init_unfold np_random train p d seed _ _ Hlen Hsplit).
    unfold take_rows.
    destruct (take (rows (data_x d)) ind_train) as [X_train|] eqn:Hxt; simpl;
      [|discriminate].
    destruct (take (rows (data_x d)) ind_test) as [X_val|] eqn:Hxv; simpl;
      [|discriminate].
    destruct (take (data_y d) ind_train); simpl; [|discriminate].
    destruct (take (data_y d) ind_test); simpl; [|discriminate].
    destruct (np_min _); simpl; [|discriminate].
    destruct (np_max _); simpl; [|discriminate].
    intros [= <-]. unfold rectangular in *.
    apply take_elements in Hxt, Hxv. rewrite Forall_forall in Hrect.
    destruct train; simpl; apply Forall_map;
      (eapply Forall_impl; [eassumption|]);
      intros r Hr; simpl; rewrite length_map; auto.
  - exfalso. revert Hinit. unfold MNIST1D.init, train_test_split.
    rewrite Hsplit. destruct (negb _); discriminate.
Qed.




Lemma mapM_Forall {A B : Type} (P : B -> Prop) (f : A -> result B) (l : list A) :
  Forall (fun x => exists b, f x = Ok b /\ P b) l ->
  exists r, mapM f l = Ok r /\ Forall P r /\ length r = length l.
Proof.
  induction 1 as [|x l (b & Hb & HP) _ (r & Hr & HPr & Hlen)]; simpl.
  - exists []. repeat split. constructor.
  - rewrite Hb, Hr. simpl. exists (b :: r). repeat split.
    + constructor; assumption.
    + simpl. congruence.
Qed.

Lemma stack_float_shape (ts : list FloatTensor) (shape : list nat) :
  ts <> [] -> Forall (fun t => ft_shape t = shape) ts ->
  exists Xb, stack_float ts = Ok Xb /\ ft_shape Xb = length ts :: shape.
Proof.
  intros Hne Hall. unfold stack_float. destruct ts as [|t ts']; [congruence|].
  assert (Hb : forallb (fun u => bool_decide (ft_shape u = ft_shape t)) (t :: ts')
               = true).
  { apply forallb_forall. intros u Hu. apply bool_decide_eq_true.
    rewrite Forall_forall in Hall.
    rewrite (Hall u), (Hall t); [reflexivity|left|apply list_elem_of_In; exact Hu]. }
  rewrite Hb. eexists. split; [reflexivity|]. simpl.
  inversion Hall; subst. congruence.
Qed.

Lemma stack_long_shape (ts : list LongTensor) (shape : list nat) :
  ts <> [] -> Forall (fun t => lt_shape t = shape) ts ->
  exists yb, stack_long ts = Ok yb /\ lt_shape yb = length ts :: shape.
Proof.
  intros Hne Hall. unfold stack_long. destruct ts as [|t ts']; [congruence|].
  assert (Hb : forallb (fun u => bool_decide (lt_shape u = lt_shape t)) (t :: ts')
               = true).
  { apply forallb_forall. intros u Hu. apply bool_decide_eq_true.
    rewrite Forall_forall in Hall.
    rewrite (Hall u), (Hall t); [reflexivity|left|apply list_elem_of_In; exact Hu]. }
  rewrite Hb. eexists. split; [reflexivity|]. simpl.
  inversion Hall; subst. congruence.
Qed.

(** C10 - The channel dimension.  On every dataset constructed from
    rectangular raw samples of width [input_length], and for every index in
    [0, length), [__getitem__] returns the float32 image of the normalized
    row as a tensor of shape [(1, input_length)] - not [(input_length,)] -
    holding [input_length] values, and the label as a zero-dimensional
    tensor of a 64-bit integer.  A batch of such samples, stacked by the
    default collate function, has shape [(batch, 1, input_length)] for the
    inputs and [(batch,)] for the labels. *)
Theorem getitem_channel_dimension `{NumpyRandom} (np_random : RandomState)
    (train : bool) (p : float) (d : mnist1d_data) (seed : Z)
    (self : MNIST1D.t) :
  MNIST1D.init np_random train p d seed = Ok self ->
  rectangular (data_x d) ->
  let input_length := ncols (data_x d) in
  (forall index : Z,
      0 <= index < MNIST1D.len self ->
      exists (row : list float) (label : Z) (X : FloatTensor) (y : LongTensor),
        rows (MNIST1D.X self) !! Z.to_nat index = Some row
        /\ MNIST1D.y self !! Z.to_nat index = Some label
        /\ MNIST1D.getitem self index = Ok (X, y)
        /\ ft_shape X = [1%nat; input_length]
        /\ ft_shape X <> [input_length]
        /\ ft_data X = map astype_float32 row
        /\ length (ft_data X) = input_length
        /\ lt_shape y = []
        /\ lt_data y = [astype_int64 label]
        /\ - 2 ^ 63 <= astype_int64 label < 2 ^ 63)
  /\ (forall batch : list Z,
        batch <> [] ->
        Forall (fun index => 0 <= index < MNIST1D.len self) batch ->
        exists (Xb : FloatTensor) (yb : LongTensor),
          fetch self batch = Ok (Xb, yb)
          /\ ft_shape Xb = [length batch; 1%nat; input_length]
          /\ lt_shape yb = [length batch]).
Proof.
  intros Hinit Hrect input_length.
  destruct (init_invariant np_random train p d seed self Hinit)
    as (Hy & Hc & Hrect').
  specialize (Hrect' Hrect). unfold rectangular in Hrect'.
  assert (Hget : forall index : Z,
             0 <= index < MNIST1D.len self ->
             exists (row : list float) (label : Z),
               rows (MNIST1D.X self) !! Z.to_nat index = Some row
               /\ MNIST1D.y self !! Z.to_nat index = Some label
               /\ length row = input_length
               /\ MNIST1D.getitem self index
                  = Ok (mk_FloatTensor [1%nat; input_length]
                          (map astype_float32 row),
                        mk_LongTensor [] [astype_int64 label])).
  { intros index Hrange. unfold MNIST1D.len in Hrange.
    assert (Hlt : (Z.to_nat index < length (rows (MNIST1D.X self)))%nat) by lia.
    destruct (lookup_lt_is_Some_2 _ _ Hlt) as [row Hrow].
    rewrite <- Hy in Hlt.
    destruct (lookup_lt_is_Some_2 _ _ Hlt) as [label Hlabel].
    exists row, label. split; [exact Hrow|]. split; [exact Hlabel|].
    assert (Hwidth : length row = input_length).
    { rewrite Forall_forall in Hrect'. unfold input_length. rewrite <- Hc.
      apply Hrect'. apply list_elem_of_lookup. eauto. }
    split; [exact Hwidth|].
    unfold MNIST1D.getitem, slice_rows.
    rewrite (slice_single _ _ row) by (lia || exact Hrow).
    rewrite (index_int_in_range _ _ label) by (lia || exact Hlabel).
    unfold from_numpy2, map2d, shape2, from_numpy0. simpl.
    rewrite app_nil_r, Hc. reflexivity. }
  split.
  - intros index Hrange.
    destruct (Hget index Hrange) as (row & label & Hrow & Hlabel & Hwidth & Hitem).
    eexists row, label, _, _.
    split; [exact Hrow|]. split; [exact Hlabel|]. split; [exact Hitem|].
    simpl. repeat split; try reflexivity.
    + discriminate.
    + rewrite length_map. exact Hwidth.
    + apply astype_int64_range.
    + apply astype_int64_range.
  - intros batch Hne Hall. unfold fetch.
    destruct (mapM_Forall
                (fun s : FloatTensor * LongTensor =>
                   ft_shape (fst s) = [1%nat; input_length]
                   /\ lt_shape (snd s) = [])
                (MNIST1D.getitem self) batch) as (samples & Hs & Hshapes & Hlen).
    { eapply Forall_impl; [exact Hall|]. intros index Hrange. simpl in Hrange.
      destruct (Hget index Hrange) as (row & label & _ & _ & _ & Hitem).
      eexists. split; [exact Hitem|]. split; reflexivity. }
    rewrite Hs. simpl.
    assert (Hsne : samples <> [])
      by (intros ->; destruct batch; simpl in Hlen; congruence).
    destruct (stack_float_shape (map fst samples) [1%nat; input_length])
      as (Xb & HXb & HXs).
    { destruct samples; simpl; congruence. }
    { apply Forall_map. eapply Forall_impl; [exact Hshapes|]. intros s [? _].
      assumption. }
    destruct (stack_long_shape (map snd samples) []) as (yb & Hyb & Hys).
    { destruct samples; simpl; congruence. }
    { apply Forall_map. eapply Forall_impl; [exact Hshapes|]. intros s [_ ?].
      assumption. }
    rewrite HXb, Hyb. simpl. exists Xb, yb.
    rewrite length_map in HXs, Hys. rewrite Hlen in HXs, Hys.
    repeat split; assumption.
Qed.

Lemma getitem_channel_dimension_witness :
  exists self,
    MNIST1D.init toy_rng false 0.5%float toy_data 42 = Ok self
    /\ exists Xb yb,
         fetch self [1; 0] = Ok (Xb, yb)
         /\ ft_shape Xb = [2; 1; 2]%nat /\ lt_shape yb = [2%nat].
Proof.
  eexists. split; [vm_compute; reflexivity|].
  apply (proj2 (getitem_channel_dimension toy_rng false 0.5%float toy_data 42 _
                  ltac:(vm_compute; reflexivity)
                  ltac:(repeat constructor)) [1; 0]).
  - discriminate.
  - repeat constructor; vm_compute; discriminate.
Defined.

(** ** Statements *)

Section Statements.

Context `{torch : Torch}.
Context {V : Type}.

Lemma bind_ok {A B : Type} (c : M World V A) (k : A -> M World V B)
    (s s' : St World V) (a : A) :
  c s = (Ok a, s') -> bind c k s = k a s'.
Proof. intros Hc. unfold bind. rewrite Hc. reflexivity. Qed.

Lemma bind_raise {A B : Type} (c : M World V A) (k : A -> M World V B)
    (s s' : St World V) (e : exn) :
  c s = (Raise e, s') -> bind c k s = (Raise e, s').
Proof. intros Hc. unfold bind. rewrite Hc. reflexivity. Qed.

Lemma world_only_ret {A : Type} (P : A -> Prop) (a : A) :
  P a -> world_only (V := V) P (ret a).
Proof. intros HP [w lg out ap]. exists w, a. split; [reflexivity|exact HP]. Qed.

Lemma world_only_on_world {A : Type} (f : World -> World * A) :
  world_only (V := V) (fun _ => True) (on_world f).
Proof.
  intros s. unfold on_world. destruct (f (world s)) as [w a].
  exists w, a. split; [reflexivity|exact I].
Qed.

Lemma world_only_call (f : World -> World) :
  world_only (V := V) (fun _ => True) (call f).
Proof. apply world_only_on_world. Qed.

Lemma world_only_iterate (loader : Loader) :
  world_only (V := V) (fun bs => length bs = loader_len loader) (iterate loader).
Proof.
  intros s. unfold iterate, on_world.
  destruct (loader_iter loader (world s)) as [w batch_at].
  eexists w, _. split; [reflexivity|].
  rewrite length_map, length_seq. reflexivity.
Qed.

Lemma world_only_bind {A B : Type} (P : A -> Prop) (Q : B -> Prop)
    (c : M World V A) (k : A -> M World V B) :
  world_only P c -> (forall a, P a -> world_only Q (k a)) ->
  world_only Q (bind c k).
Proof.
  intros Hc Hk s. destruct (Hc s) as (w & a & Hs & HP).
  destruct (Hk a HP (mk_St w (logs s) (stdout s) (appends s)))
    as (w' & b & Hs' & HQ).
  exists w', b. split; [|exact HQ].
  rewrite (bind_ok _ _ _ _ _ Hs). exact Hs'.
Qed.

Lemma world_only_weaken {A : Type} (P Q : A -> Prop) (c : M World V A) :
  world_only P c -> (forall a, P a -> Q a) -> world_only Q c.
Proof.
  intros Hc HPQ s. destruct (Hc s) as (w & a & Hs & HP). eauto.
Qed.

(** A loop whose body only touches the PyTorch side and maintains an
    invariant [I] of the locals does so as a whole. *)
Lemma world_only_for_each {A L : Type} (R : A -> Prop) (I : L -> Prop)
    (body : A -> L -> M World V L) (xs : list A) (l : L) :
  (forall x l, R x -> I l -> world_only I (body x l)) ->
  Forall R xs -> I l -> world_only I (for_each body xs l).
Proof.
  intros Hbody Hxs. revert l.
  induction Hxs as [|x xs Hx _ IH]; intros l Hl; simpl.
  - apply world_only_ret. exact Hl.
  - eapply world_only_bind; [apply Hbody; assumption|]. exact IH.
Qed.

(** After a loop over at least one element the locals are those the body
    left last. *)
Lemma world_only_for_each_last {A L : Type} (P : L -> Prop)
    (body : A -> L -> M World V L) (xs : list A) (l : L) :
  (forall x l, world_only P (body x l)) ->
  xs <> [] -> world_only P (for_each body xs l).
Proof.
  intros Hbody Hne. destruct xs as [|x xs]; [congruence|]. simpl.
  eapply world_only_bind; [apply Hbody|]. intros l' Hl'.
  apply (world_only_for_each (fun _ => True) P); auto.
  apply Forall_forall. auto.
Qed.

End Statements.

(** One statement of a sequence: [lemma] describes the first statement of
    the goal's computation, which is run and replaced by its result. *)
Tactic Notation "step" constr(lemma) "as" ident(w) ident(a) ident(HP) :=
  match goal with
  | |- context [bind ?c ?k ?s] =>
      let Hs := fresh "Hs" in
      destruct (lemma s) as (w & a & Hs & HP);
      rewrite (bind_ok c k s _ a Hs); clear Hs; simpl logs; simpl stdout;
      simpl appends; simpl world
  end.

(** ** [train_classifier], epoch by epoch *)

Section TrainClassifierFacts.

Context `{torch : Torch}.
Variables train_dataloader test_dataloader : Loader.

Lemma train_step_world_only (b : Batch) (l : acc_locals) :
  world_only (fun l' : acc_locals => is_Some (snd l')) (train_step b l).
Proof.
  destruct l as [[loss_sum acc_sum] last]. unfold train_step.
  eapply world_only_bind; [apply world_only_on_world|]. intros y_pred _.
  eapply world_only_bind; [apply world_only_on_world|]. intros loss _.
  eapply world_only_bind; [apply world_only_call|]. intros _ _.
  eapply world_only_bind; [apply world_only_call|]. intros _ _.
  eapply world_only_bind; [apply world_only_call|]. intros _ _.
  apply world_only_ret. simpl. eauto.
Qed.

Lemma test_step_world_only (b : Batch) (l : acc_locals) :
  world_only (fun l' : acc_locals => is_Some (snd l')) (test_step b l).
Proof.
  destruct l as [[loss_sum acc_sum] last]. unfold test_step.
  eapply world_only_bind; [apply world_only_on_world|]. intros y_pred _.
  eapply world_only_bind; [apply world_only_on_world|]. intros loss _.
  apply world_only_ret. simpl. eauto.
Qed.

(** A pass returns and, over at least one batch, leaves the loss of its
    last batch bound. *)
Lemma train_pass_world_only (bs : list Batch) (l : acc_locals) :
  world_only (V := float) (fun r : acc_locals => bs <> [] -> is_Some (snd r))
    (for_each train_step bs l).
Proof.
  destruct bs as [|b bs].
  - apply world_only_ret. congruence.
  - eapply world_only_weaken;
      [apply (world_only_for_each_last _ _ _ _ train_step_world_only);
       discriminate|].
    auto.
Qed.

Lemma test_pass_world_only (bs : list Batch) (l : acc_locals) :
  world_only (V := float) (fun r : acc_locals => bs <> [] -> is_Some (snd r))
    (for_each test_step bs l).
Proof.
  destruct bs as [|b bs].
  - apply world_only_ret. congruence.
  - eapply world_only_weaken;
      [apply (world_only_for_each_last _ _ _ _ test_step_world_only);
       discriminate|].
    auto.
Qed.

Lemma log_mean_ok (key : string) (total : float) (loader : Loader)
    (s : St World float) :
  (0 < loader_len loader)%nat ->
  exists mean,
    log_mean key total loader s
    = (Ok tt, mk_St (world s) (log_append key mean (logs s)) (stdout s)
                    (appends s ++ [(key, length (log_values key (logs s)))])).
Proof.
  intros Hlen. exists (total / float_of_int (Z.of_nat (loader_len loader)))%float.
  unfold log_mean, bind, defaultdict_getitem, lift, py_truediv, list_append,
    log_append, log_values.
  destruct (Z.of_nat (loader_len loader) =? 0) eqn:Hz;
    [apply Z.eqb_eq in Hz; lia|].
  destruct (logs s !! key) as [old|] eqn:Hold; simpl.
  - rewrite Hold. reflexivity.
  - rewrite lookup_insert_eq, insert_insert_eq. reflexivity.
Qed.

Lemma log_mean_raise (key : string) (total : float) (loader : Loader)
    (s : St World float) :
  loader_len loader = 0%nat ->
  exists lg,
    log_mean key total loader s
    = (Raise ZeroDivisionError, mk_St (world s) lg (stdout s) (appends s))
    /\ forall k, log_values k lg = log_values k (logs s).
Proof.
  intros Hlen. unfold log_mean, bind, defaultdict_getitem, lift, py_truediv.
  rewrite Hlen. simpl.
  destruct (logs s !! key) as [old|] eqn:Hold; simpl.
  - exists (logs s). destruct s; split; reflexivity.
  - exists (<[key := []]> (logs s)). split; [reflexivity|].
    intros k. unfold log_values.
    destruct (decide (k = key)) as [->|Hne].
    + rewrite lookup_insert_eq, Hold. reflexivity.
    + rewrite lookup_insert_ne by congruence. reflexivity.
Qed.

End TrainClassifierFacts.

(** ** The metrics dictionary *)

Lemma log_values_append_eq {V : Type} (key : string) (v : V)
    (lg : gmap string (list V)) :
  log_values key (log_append key v lg) = log_values key lg ++ [v].
Proof. unfold log_values, log_append. rewrite lookup_insert_eq. reflexivity. Qed.

Lemma log_values_append_ne {V : Type} (k key : string) (v : V)
    (lg : gmap string (list V)) :
  k <> key -> log_values k (log_append key v lg) = log_values k lg.
Proof.
  intros Hne. unfold log_values, log_append.
  rewrite lookup_insert_ne by congruence. reflexivity.
Qed.

Section TrainClassifierEpoch.

Context `{torch : Torch}.
Variables train_dataloader test_dataloader : Loader.
Hypothesis train_not_empty : (0 < loader_len train_dataloader)%nat.
Hypothesis test_not_empty : (0 < loader_len test_dataloader)%nat.

Ltac step_log :=
  match goal with
  | |- context [bind (log_mean ?key ?total ?loader) ?k ?s] =>
      let mean := fresh "mean" in
      let Hs := fresh "Hs" in
      destruct (log_mean_ok key total loader s ltac:(assumption)) as [mean Hs];
      rewrite (bind_ok _ k s _ tt Hs); clear Hs; simpl logs; simpl stdout;
      simpl appends; simpl world
  end.

Lemma train_classifier_epoch_ok (max_epochs log_every epoch : Z)
    (l : option Loss * option Loss) (s : St World float) :
  log_every <> 0 ->
  exists w m l' out,
    train_classifier_epoch train_dataloader test_dataloader
      max_epochs log_every epoch l s
    = (Ok l', mk_St w (record_epoch m (logs s)) (stdout s ++ out)
                    (appends s ++ appends_of_run train_classifier_keys (logs s) 1))
    /\ printed_epochs out
       = (if spec_progress_due max_epochs log_every epoch then [epoch + 1] else []).
Proof.
  intros Hle. destruct l as [train_loss test_loss].
  unfold train_classifier_epoch.
  step (world_only_call (V := float) model_train) as w1 u1 H1.
  step (world_only_iterate (V := float) train_dataloader) as w2 bs Hbs.
  step (train_pass_world_only bs (0%float, 0%float, train_loss)) as w3 r Hr.
  destruct r as [[train_loss_sum train_acc_sum] train_loss']. simpl in Hr.
  step (world_only_call (V := float) model_eval) as w4 u4 H4.
  step (world_only_iterate (V := float) test_dataloader) as w5 bs' Hbs'.
  step (test_pass_world_only bs' (0%float, 0%float, test_loss)) as w6 r' Hr'.
  destruct r' as [[test_loss_sum test_acc_sum] test_loss']. simpl in Hr'.
  destruct Hr as [tl ->]; [destruct bs; simpl in *; [lia|discriminate]|].
  destruct Hr' as [tel ->]; [destruct bs'; simpl in *; [lia|discriminate]|].
  step_log. step_log. step_log. step_log.
  rewrite !log_values_append_ne by discriminate.
  unfold py_mod. destruct (log_every =? 0) eqn:Hz; [apply Z.eqb_eq in Hz; lia|].
  assert (Happ : forall ap : list (string * nat),
             (((ap ++ [("train_loss", length (log_values "train_loss" (logs s)))])
                 ++ [("test_loss", length (log_values "test_loss" (logs s)))])
                ++ [("train_acc", length (log_values "train_acc" (logs s)))])
               ++ [("test_acc", length (log_values "test_acc" (logs s)))]
             = ap ++ appends_of_run train_classifier_keys (logs s) 1).
  { intros ap. unfold appends_of_run. simpl. rewrite !Nat.add_0_r.
    rewrite <- !app_assoc. reflexivity. }
  rewrite Happ. unfold spec_progress_due, bind, lift, print, ret.
  destruct (((epoch + 1) mod log_every =? 0) || (epoch + 1 =? max_epochs)).
  - eexists w6, (mean, mean0, mean1, mean2), _, [_]. split; reflexivity.
  - eexists w6, (mean, mean0, mean1, mean2), _, []. rewrite app_nil_r.
    split; reflexivity.
Qed.

End TrainClassifierEpoch.

(** ** The append history of several epochs *)

Lemma flat_map_shift {A : Type} (f : nat -> list A) (start n : nat) :
  flat_map f (seq (S start) n) = flat_map (fun i => f (S i)) (seq start n).
Proof.
  revert start. induction n as [|n IH]; intros start; simpl; [reflexivity|].
  rewrite IH. reflexivity.
Qed.

Lemma appends_of_run_succ {V : Type} (keys : list string)
    (lg lg' : gmap string (list V)) (n : nat) :
  Forall (fun key => length (log_values key lg') = S (length (log_values key lg)))
         keys ->
  appends_of_run keys lg 1 ++ appends_of_run keys lg' n
  = appends_of_run keys lg (S n).
Proof.
  intros Hkeys. unfold appends_of_run. simpl. rewrite <- app_assoc. simpl. f_equal.
  rewrite flat_map_shift. apply flat_map_ext. intros i.
  apply map_ext_in. intros key Hkey. rewrite Forall_forall in Hkeys.
  rewrite (Hkeys key) by (apply list_elem_of_In; exact Hkey).
  f_equal. lia.
Qed.

(** The values stored under a key after a sequence of appends. *)
Lemma log_append_all_values {V : Type} (kvs : list (string * V))
    (lg : gmap string (list V)) (key : string) :
  log_values key (fold_left (fun lg kv => log_append (fst kv) (snd kv) lg) kvs lg)
  = log_values key lg
    ++ map snd (List.filter (fun kv => bool_decide (fst kv = key)) kvs).
Proof.
  revert lg. induction kvs as [|[k v] kvs IH]; intros lg; simpl.
  - rewrite app_nil_r. reflexivity.
  - rewrite IH. case_bool_decide as Hk; simpl.
    + subst k. rewrite log_values_append_eq, <- app_assoc. reflexivity.
    + rewrite log_values_append_ne by congruence. reflexivity.
Qed.

(** The values an epoch adds under a key. *)
Lemma record_epoch_values (key : string) (m : epoch_means float)
    (lg : gmap string (list float)) :
  log_values key (record_epoch m lg)
  = log_values key lg ++ means_under train_classifier_keys m key.
Proof.
  destruct m as [[[a b] c] d].
  exact (log_append_all_values
           [("train_loss", a); ("test_loss", b); ("train_acc", c); ("test_acc", d)]
           lg key).
Qed.

Lemma record_cell_epoch_values (key : string) (m : epoch_means spec_float)
    (lg : gmap string (list spec_float)) :
  log_values key (record_cell_epoch m lg)
  = log_values key lg ++ means_under training_cell_keys m key.
Proof.
  destruct m as [[[a b] c] d].
  exact (log_append_all_values
           [("train_losses", a); ("train_acc", b); ("validation_losses", c);
            ("validation_acc", d)] lg key).
Qed.

Lemma record_epochs_values (key : string) (ms : list (epoch_means float))
    (lg : gmap string (list float)) :
  log_values key (fold_left (fun lg m => record_epoch m lg) ms lg)
  = log_values key lg ++ flat_map (fun m => means_under train_classifier_keys m key) ms.
Proof.
  revert lg. induction ms as [|m ms IH]; intros lg; simpl.
  - rewrite app_nil_r. reflexivity.
  - rewrite IH, record_epoch_values, <- app_assoc. reflexivity.
Qed.

Lemma means_under_length {V : Type} (keys : list string) (m : epoch_means V)
    (key : string) :
  NoDup keys -> length keys = 4%nat -> key ∈ keys ->
  length (means_under keys m key) = 1%nat.
Proof.
  intros Hnd Hlen Hin. destruct m as [[[a b] c] d].
  destruct keys as [|k1 [|k2 [|k3 [|k4 [|]]]]]; try discriminate.
  apply NoDup_cons in Hnd as [N1 Hnd]. apply NoDup_cons in Hnd as [N2 Hnd].
  apply NoDup_cons in Hnd as [N3 _].
  unfold means_under. simpl. set_unfold.
  repeat case_bool_decide; simpl in *; try reflexivity; exfalso;
    intuition congruence.
Qed.

Lemma train_classifier_keys_NoDup : NoDup train_classifier_keys.
Proof.
  unfold train_classifier_keys.
  repeat (apply NoDup_cons_2; [set_unfold; intuition discriminate|]).
  apply NoDup_nil_2.
Qed.

Lemma flat_map_length_const {A B : Type} (f : A -> list B) (l : list A) (k : nat) :
  Forall (fun x => length (f x) = k) l ->
  length (flat_map f l) = (k * length l)%nat.
Proof.
  induction 1 as [|x l Hx _ IH]; simpl; [lia|].
  rewrite length_app, Hx, IH. lia.
Qed.

Section TrainClassifierRun.

Context `{torch : Torch}.
Variables train_dataloader test_dataloader : Loader.
Hypothesis train_not_empty : (0 < loader_len train_dataloader)%nat.
Hypothesis test_not_empty : (0 < loader_len test_dataloader)%nat.

Lemma train_classifier_epochs_ok (max_epochs log_every : Z) (epochs : list Z)
    (l : option Loss * option Loss) (s : St World float) :
  log_every <> 0 ->
  exists w ms l' out,
    for_each (train_classifier_epoch train_dataloader test_dataloader
                max_epochs log_every) epochs l s
    = (Ok l', mk_St w (fold_left (fun lg m => record_epoch m lg) ms (logs s))
                    (stdout s ++ out)
                    (appends s ++ appends_of_run train_classifier_keys (logs s)
                                                 (length epochs)))
    /\ length ms = length epochs
    /\ printed_epochs out
       = map (fun e => e + 1)
             (List.filter (spec_progress_due max_epochs log_every) epochs).
Proof.
  intros Hle. revert l s. induction epochs as [|e epochs IH]; intros l s.
  - exists (world s), [], l, []. simpl. unfold appends_of_run. simpl.
    rewrite !app_nil_r. destruct s. repeat split.
  - simpl for_each.
    destruct (train_classifier_epoch_ok train_dataloader test_dataloader
                train_not_empty test_not_empty max_epochs log_every e l s Hle)
      as (w1 & m & l1 & out1 & Hepoch & Hout1).
    rewrite (bind_ok _ _ _ _ _ Hepoch).
    destruct (IH l1 (mk_St w1 (record_epoch m (logs s)) (stdout s ++ out1)
                       (appends s ++ appends_of_run train_classifier_keys (logs s) 1)))
      as (w & ms & l' & out & Hrun & Hlen & Hout).
    simpl in Hrun. rewrite Hrun.
    exists w, (m :: ms), l', (out1 ++ out). split; [|split].
    + simpl. rewrite <- !app_assoc. do 3 f_equal.
      apply appends_of_run_succ.
      apply Forall_forall. intros key Hkey.
      rewrite record_epoch_values, length_app.
      rewrite (means_under_length _ _ _ train_classifier_keys_NoDup eq_refl Hkey).
      lia.
    + simpl. congruence.
    + unfold printed_epochs in *. rewrite map_app, Hout1, Hout. simpl.
      destruct (spec_progress_due max_epochs log_every e); reflexivity.
Qed.

(** A run over non-empty loaders returns [logs]; its effect on the store. *)
Lemma train_classifier_ok (max_epochs log_every : Z) (s : St World float) :
  log_every <> 0 ->
  exists w ms out,
    train_classifier train_dataloader test_dataloader max_epochs log_every s
    = (Ok (fold_left (fun lg m => record_epoch m lg) ms (logs s)),
       mk_St w (fold_left (fun lg m => record_epoch m lg) ms (logs s))
             (stdout s ++ out)
             (appends s ++ appends_of_run train_classifier_keys (logs s)
                                          (Z.to_nat max_epochs)))
    /\ length ms = Z.to_nat max_epochs
    /\ printed_epochs out
       = map (fun e => e + 1)
             (List.filter (spec_progress_due max_epochs log_every)
                          (range max_epochs)).
Proof.
  intros Hle. unfold train_classifier.
  destruct (world_only_call (V := float) model_to s) as (w0 & u & Hs & _).
  rewrite (bind_ok _ _ _ _ _ Hs).
  destruct (train_classifier_epochs_ok max_epochs log_every (range max_epochs)
              (None, None) (mk_St w0 (logs s) (stdout s) (appends s)) Hle)
    as (w & ms & l' & out & Hrun & Hlen & Hout).
  rewrite (bind_ok _ _ _ _ _ Hrun). simpl.
  assert (Hrange : length (range max_epochs) = Z.to_nat max_epochs)
    by (unfold range; rewrite length_map, length_seq; reflexivity).
  rewrite Hrange in *. exists w, ms, out. repeat split; assumption.
Qed.

End TrainClassifierRun.

(** ** The training cell, epoch by epoch *)

Lemma tensor_setitem_ok (t : list spec_float) (idx : nat) (v : float) :
  (idx < length t)%nat ->
  tensor_setitem t idx v = Ok (<[idx := astype_float32 v]> t).
Proof.
  intros Hlt. unfold tensor_setitem.
  destruct (idx <? length t)%nat eqn:Hb; [reflexivity|].
  apply Nat.ltb_ge in Hb. lia.
Qed.

Lemma enumerate_range {A : Type} (l : list A) :
  Forall (fun ix : nat * A => (fst ix < length l)%nat) (enumerate l).
Proof.
  unfold enumerate. apply Forall_forall. intros [i x] Hin.
  apply list_elem_of_In, in_combine_l, in_seq in Hin. simpl. lia.
Qed.

Lemma training_cell_keys_NoDup : NoDup training_cell_keys.
Proof.
  unfold training_cell_keys.
  repeat (apply NoDup_cons_2; [set_unfold; intuition discriminate|]).
  apply NoDup_nil_2.
Qed.

Lemma log_append_present {V : Type} (k key : string) (v : V)
    (lg : gmap string (list V)) :
  is_Some (lg !! k) -> is_Some (log_append key v lg !! k).
Proof.
  intros Hk. unfold log_append. destruct (decide (k = key)) as [->|Hne].
  - rewrite lookup_insert_eq. eauto.
  - rewrite lookup_insert_ne by congruence. exact Hk.
Qed.

Section TrainingCellFacts.

Context `{torch : Torch}.
Variables train_dataloader validation_dataloader : Loader.

Lemma world_only_lift {A : Type} (P : A -> Prop) (r : result A) (a : A) :
  r = Ok a -> P a -> world_only (V := spec_float) P (lift r).
Proof.
  intros -> HP s. exists (world s), a. destruct s. split; [reflexivity|exact HP].
Qed.

Lemma cell_train_step_world_only (n : nat) (ib : nat * Batch) (l : containers) :
  (fst ib < n)%nat -> sized n l ->
  world_only (sized n) (cell_train_step ib l).
Proof.
  destruct ib as [idx b]. destruct l as [acc loss]. intros Hidx [Ha Hl].
  simpl in *. unfold cell_train_step.
  eapply world_only_bind; [apply world_only_on_world|]. intros y_hat _.
  eapply world_only_bind; [apply world_only_on_world|]. intros loss' _.
  eapply world_only_bind; [apply world_only_call|]. intros _ _.
  eapply world_only_bind; [apply world_only_call|]. intros _ _.
  eapply world_only_bind; [apply world_only_call|]. intros _ _.
  eapply world_only_bind with (P := fun t => length t = n).
  { eapply world_only_lift; [apply tensor_setitem_ok; lia|].
    rewrite length_insert. exact Hl. }
  intros loss'' Hl''.
  eapply world_only_bind with (P := fun t => length t = n).
  { eapply world_only_lift; [apply tensor_setitem_ok; lia|].
    rewrite length_insert. exact Ha. }
  intros acc'' Ha''. apply world_only_ret. split; assumption.
Qed.

Lemma cell_validation_step_world_only (n : nat) (ib : nat * Batch)
    (l : containers) :
  (fst ib < n)%nat -> sized n l ->
  world_only (sized n) (cell_validation_step ib l).
Proof.
  destruct ib as [idx b]. destruct l as [acc loss]. intros Hidx [Ha Hl].
  simpl in *. unfold cell_validation_step.
  eapply world_only_bind; [apply world_only_on_world|]. intros y_hat _.
  eapply world_only_bind; [apply world_only_on_world|]. intros loss' _.
  eapply world_only_bind with (P := fun t => length t = n).
  { eapply world_only_lift; [apply tensor_setitem_ok; lia|].
    rewrite length_insert. exact Hl. }
  intros loss'' Hl''.
  eapply world_only_bind with (P := fun t => length t = n).
  { eapply world_only_lift; [apply tensor_setitem_ok; lia|].
    rewrite length_insert. exact Ha. }
  intros acc'' Ha''. apply world_only_ret. split; assumption.
Qed.

Lemma cell_pass_world_only (step : nat * Batch -> containers -> M World spec_float containers)
    (n : nat) (bs : list Batch) (l : containers) :
  (forall ib l, (fst ib < n)%nat -> sized n l -> world_only (sized n) (step ib l)) ->
  length bs = n -> sized n l ->
  world_only (sized n) (for_each step (enumerate bs) l).
Proof.
  intros Hstep Hbs Hl.
  apply (world_only_for_each (fun ib => (fst ib < n)%nat) (sized n));
    [exact Hstep| |exact Hl].
  rewrite <- Hbs. apply enumerate_range.
Qed.

Lemma results_append_ok (key : string) (t : list spec_float)
    (s : St World spec_float) :
  is_Some (logs s !! key) ->
  results_append key t s
  = (Ok tt, mk_St (world s) (log_append key (tensor_mean t) (logs s)) (stdout s)
                  (appends s ++ [(key, length (log_values key (logs s)))])).
Proof.
  intros [old Hold]. unfold results_append, bind, dict_getitem, list_append,
    log_append, log_values.
  rewrite Hold. simpl. rewrite ?Hold. reflexivity.
Qed.

End TrainingCellFacts.

Section TrainingCellRun.

Context `{torch : Torch}.
Variables train_dataloader validation_dataloader : Loader.

Ltac step_append :=
  match goal with
  | |- context [bind (results_append ?key ?t) ?k ?s] =>
      rewrite (bind_ok _ k s _ tt (results_append_ok key t s
                                     ltac:(simpl; auto using log_append_present)));
      simpl logs; simpl stdout; simpl appends; simpl world
  end.

Lemma cell_epoch_ok (max_epochs log_every epoch : Z)
    (l : containers * containers) (s : St World spec_float) :
  log_every <> 0 -> cell_sized train_dataloader validation_dataloader l ->
  Forall (fun key => is_Some (logs s !! key)) training_cell_keys ->
  exists w l' out,
    cell_epoch train_dataloader validation_dataloader
      max_epochs log_every epoch l s
    = (Ok l', mk_St w (record_cell_epoch (cell_means l') (logs s))
                    (stdout s ++ out)
                    (appends s ++ appends_of_run training_cell_keys (logs s) 1))
    /\ cell_sized train_dataloader validation_dataloader l'
    /\ printed_epochs out
       = (if cell_progress_due max_epochs log_every epoch then [epoch + 1] else []).
Proof.
  intros Hle [Htrain Hval] Hkeys. destruct l as [train validation].
  simpl in Htrain, Hval.
  apply Forall_cons in Hkeys as [K1 Hkeys]. apply Forall_cons in Hkeys as [K2 Hkeys].
  apply Forall_cons in Hkeys as [K3 Hkeys]. apply Forall_cons in Hkeys as [K4 _].
  unfold cell_epoch.
  step (world_only_call (V := spec_float) model_train) as w1 u1 H1.
  step (world_only_iterate (V := spec_float) train_dataloader) as w2 bs Hbs.
  step (cell_pass_world_only cell_train_step _ bs train
          (cell_train_step_world_only _) Hbs Htrain) as w3 train' Htrain'.
  step (world_only_call (V := spec_float) model_eval) as w4 u4 H4.
  step (world_only_iterate (V := spec_float) validation_dataloader) as w5 bs' Hbs'.
  step (cell_pass_world_only cell_validation_step _ bs' validation
          (cell_validation_step_world_only _) Hbs' Hval) as w6 validation' Hval'.
  destruct train' as [train_acc train_loss].
  destruct validation' as [validation_acc validation_loss].
  step_append. step_append. step_append. step_append.
  rewrite !log_values_append_ne by discriminate.
  unfold py_mod. destruct (log_every =? 0) eqn:Hz; [apply Z.eqb_eq in Hz; lia|].
  assert (Happ : forall ap : list (string * nat),
             (((ap ++ [("train_losses", length (log_values "train_losses" (logs s)))])
                 ++ [("train_acc", length (log_values "train_acc" (logs s)))])
                ++ [("validation_losses",
                     length (log_values "validation_losses" (logs s)))])
               ++ [("validation_acc", length (log_values "validation_acc" (logs s)))]
             = ap ++ appends_of_run training_cell_keys (logs s) 1).
  { intros ap. unfold appends_of_run. simpl. rewrite !Nat.add_0_r.
    rewrite <- !app_assoc. reflexivity. }
  rewrite Happ. unfold cell_progress_due, bind, lift, print, ret.
  destruct ((epoch mod log_every =? 0) || (epoch + 1 =? max_epochs)).
  - eexists w6, (_, _, (_, _)), [_]. split; [reflexivity|].
    split; [split; assumption|reflexivity].
  - eexists w6, (_, _, (_, _)), []. rewrite app_nil_r. split; [reflexivity|].
    split; [split; assumption|reflexivity].
Qed.

Lemma record_cell_epoch_present (m : epoch_means spec_float)
    (lg : gmap string (list spec_float)) :
  Forall (fun key => is_Some (lg !! key)) training_cell_keys ->
  Forall (fun key => is_Some (record_cell_epoch m lg !! key)) training_cell_keys.
Proof.
  intros Hkeys. destruct m as [[[a b] c] d]. unfold record_cell_epoch.
  eapply Forall_impl; [exact Hkeys|]. intros key Hkey. simpl in *.
  auto using log_append_present.
Qed.

Lemma cell_epochs_ok (max_epochs log_every : Z) (epochs : list Z)
    (l : containers * containers) (s : St World spec_float) :
  log_every <> 0 -> cell_sized train_dataloader validation_dataloader l ->
  Forall (fun key => is_Some (logs s !! key)) training_cell_keys ->
  exists w ms l' out,
    for_each (cell_epoch train_dataloader validation_dataloader
                max_epochs log_every) epochs l s
    = (Ok l', mk_St w (fold_left (fun lg m => record_cell_epoch m lg) ms (logs s))
                    (stdout s ++ out)
                    (appends s ++ appends_of_run training_cell_keys (logs s)
                                                 (length epochs)))
    /\ length ms = length epochs
    /\ Forall (fun m => exists c, cell_sized train_dataloader validation_dataloader c /\ m = cell_means c) ms
    /\ printed_epochs out
       = map (fun e => e + 1)
             (List.filter (cell_progress_due max_epochs log_every) epochs).
Proof.
  intros Hle. revert l s. induction epochs as [|e epochs IH]; intros l s Hl Hkeys.
  - exists (world s), [], l, []. simpl. unfold appends_of_run. simpl.
    rewrite !app_nil_r. destruct s. repeat split. constructor.
  - simpl for_each.
    destruct (cell_epoch_ok max_epochs log_every e l s Hle Hl Hkeys)
      as (w1 & l1 & out1 & Hepoch & Hl1 & Hout1).
    rewrite (bind_ok _ _ _ _ _ Hepoch).
    destruct (IH l1 (mk_St w1 (record_cell_epoch (cell_means l1) (logs s))
                       (stdout s ++ out1)
                       (appends s ++ appends_of_run training_cell_keys (logs s) 1))
                Hl1 (record_cell_epoch_present _ _ Hkeys))
      as (w & ms & l' & out & Hrun & Hlen & Hms & Hout).
    simpl in Hrun. rewrite Hrun.
    exists w, (cell_means l1 :: ms), l', (out1 ++ out).
    split; [|split; [|split]].
    + simpl. rewrite <- !app_assoc. do 3 f_equal.
      apply appends_of_run_succ.
      apply Forall_forall. intros key Hkey.
      rewrite record_cell_epoch_values, length_app.
      rewrite (means_under_length _ _ _ training_cell_keys_NoDup eq_refl Hkey).
      lia.
    + simpl. congruence.
    + constructor; [eauto|exact Hms].
    + unfold printed_epochs in *. rewrite map_app, Hout1, Hout. simpl.
      destruct (cell_progress_due max_epochs log_every e); reflexivity.
Qed.

(** The effect of the cell on the store: it always returns. *)
Lemma training_cell_ok (max_epochs log_every : Z) (s : St World spec_float) :
  log_every <> 0 ->
  exists w ms out,
    training_cell train_dataloader validation_dataloader max_epochs log_every s
    = (Ok tt,
       mk_St w (fold_left (fun lg m => record_cell_epoch m lg) ms fresh_results)
             (stdout s ++ out)
             (appends s ++ appends_of_run training_cell_keys fresh_results
                                          (Z.to_nat max_epochs)))
    /\ length ms = Z.to_nat max_epochs
    /\ Forall (fun m => exists c, cell_sized train_dataloader validation_dataloader c /\ m = cell_means c) ms
    /\ printed_epochs out
       = map (fun e => e + 1)
             (List.filter (cell_progress_due max_epochs log_every)
                          (range max_epochs)).
Proof.
  intros Hle. unfold training_cell. unfold bind at 1 2.
  destruct (cell_epochs_ok max_epochs log_every (range max_epochs)
              (torch_zeros (loader_len train_dataloader),
               torch_zeros (loader_len train_dataloader),
               (torch_zeros (loader_len validation_dataloader),
                torch_zeros (loader_len validation_dataloader)))
              (mk_St (world s) fresh_results (stdout s) (appends s)) Hle)
    as (w & ms & l' & out & Hrun & Hlen & Hms & Hout).
  { unfold cell_sized, sized, torch_zeros; simpl.
    rewrite !repeat_length. repeat split. }
  { simpl. unfold training_cell_keys, fresh_results.
    repeat (apply Forall_cons; split;
            [rewrite ?lookup_insert_eq, ?lookup_insert_ne by discriminate; eauto|]).
    constructor. }
  unfold fresh_results in Hrun |- *. simpl in Hrun. rewrite Hrun. simpl.
  assert (Hrange : length (range max_epochs) = Z.to_nat max_epochs)
    by (unfold range; rewrite length_map, length_seq; reflexivity).
  rewrite Hrange in *. exists w, ms, out. repeat split; assumption.
Qed.

End TrainingCellRun.

(** ** Empty loaders *)

Lemma range_pos (n : Z) : 0 < n -> range n = 0 :: map (fun e => e + 1) (range (n - 1)).
Proof.
  intros Hn. unfold range.
  replace (Z.to_nat n) with (S (Z.to_nat (n - 1))) by lia.
  simpl. f_equal. rewrite <- seq_shift, !map_map.
  apply map_ext. intros i. lia.
Qed.

Section EmptyLoader.

Context `{torch : Torch}.
Variables train_dataloader test_dataloader : Loader.

(** An epoch over an empty training loader stops at the first mean, before
    any value is appended; over an empty test loader (and a training loader
    that is not empty) it stops at the second mean, after the training loss
    of the epoch has been appended. *)
Lemma train_classifier_epoch_raise (max_epochs log_every epoch : Z)
    (l : option Loss * option Loss) (s : St World float) :
  loader_len train_dataloader = 0%nat \/ loader_len test_dataloader = 0%nat ->
  exists s',
    train_classifier_epoch train_dataloader test_dataloader
      max_epochs log_every epoch l s
    = (Raise ZeroDivisionError, s')
    /\ stdout s' = stdout s
    /\ (loader_len train_dataloader = 0%nat ->
        appends s' = appends s
        /\ forall key, log_values key (logs s') = log_values key (logs s))
    /\ ((0 < loader_len train_dataloader)%nat ->
        exists mean,
          appends s'
          = appends s ++ [("train_loss", length (log_values "train_loss" (logs s)))]
          /\ forall key, log_values key (logs s')
                         = log_values key (log_append "train_loss" mean (logs s))).
Proof.
  intros Hempty. destruct l as [train_loss test_loss].
  unfold train_classifier_epoch.
  step (world_only_call (V := float) model_train) as w1 u1 H1.
  step (world_only_iterate (V := float) train_dataloader) as w2 bs Hbs.
  step (train_pass_world_only bs (0%float, 0%float, train_loss)) as w3 r Hr.
  destruct r as [[train_loss_sum train_acc_sum] train_loss'].
  step (world_only_call (V := float) model_eval) as w4 u4 H4.
  step (world_only_iterate (V := float) test_dataloader) as w5 bs' Hbs'.
  step (test_pass_world_only bs' (0%float, 0%float, test_loss)) as w6 r' Hr'.
  destruct r' as [[test_loss_sum test_acc_sum] test_loss'].
  destruct (Nat.eq_dec (loader_len train_dataloader) 0%nat) as [Htrain|Htrain].
  - match goal with
    | |- context [bind (log_mean ?key ?total ?loader) ?k ?s0] =>
        destruct (log_mean_raise key total loader s0 Htrain) as (lg & Hs & Hlg);
        rewrite (bind_raise _ k s0 _ _ Hs)
    end.
    eexists. split; [reflexivity|]. simpl. split; [reflexivity|]. split.
    + intros _. split; [reflexivity|exact Hlg].
    + lia.
  - destruct Hempty as [?|Htest]; [contradiction|].
    match goal with
    | |- context [bind (log_mean ?key ?total ?loader) ?k ?s0] =>
        destruct (log_mean_ok key total loader s0 ltac:(lia)) as [mean Hs];
        rewrite (bind_ok _ k s0 _ tt Hs); clear Hs
    end.
    match goal with
    | |- context [bind (log_mean ?key ?total ?loader) ?k ?s0] =>
        destruct (log_mean_raise key total loader s0 Htest) as (lg & Hs & Hlg);
        rewrite (bind_raise _ k s0 _ _ Hs)
    end.
    eexists. split; [reflexivity|]. simpl. split; [reflexivity|]. split.
    + intros ?. contradiction.
    + intros _. exists mean. split; [reflexivity|exact Hlg].
Qed.

Lemma train_classifier_raise (max_epochs log_every : Z) (s : St World float) :
  0 < max_epochs ->
  loader_len train_dataloader = 0%nat \/ loader_len test_dataloader = 0%nat ->
  exists s',
    train_classifier train_dataloader test_dataloader max_epochs log_every s
    = (Raise ZeroDivisionError, s')
    /\ stdout s' = stdout s
    /\ (loader_len train_dataloader = 0%nat ->
        appends s' = appends s
        /\ forall key, log_values key (logs s') = log_values key (logs s))
    /\ ((0 < loader_len train_dataloader)%nat ->
        exists mean,
          appends s'
          = appends s ++ [("train_loss", length (log_values "train_loss" (logs s)))]
          /\ forall key, log_values key (logs s')
                         = log_values key (log_append "train_loss" mean (logs s))).
Proof.
  intros Hpos Hempty. unfold train_classifier.
  destruct (world_only_call (V := float) model_to s) as (w0 & u & Hs & _).
  rewrite (bind_ok _ _ _ _ _ Hs). rewrite (range_pos max_epochs Hpos).
  simpl for_each.
  destruct (train_classifier_epoch_raise max_epochs log_every 0 (None, None)
              (mk_St w0 (logs s) (stdout s) (appends s)) Hempty)
    as (s' & Hepoch & Hrest).
  rewrite (bind_raise _ _ _ _ _ (bind_raise _ _ _ _ _ Hepoch)).
  exists s'. split; [reflexivity|exact Hrest].
Qed.

End EmptyLoader.

(** ** Whole runs *)

Lemma record_cell_epochs_values (key : string) (ms : list (epoch_means spec_float))
    (lg : gmap string (list spec_float)) :
  log_values key (fold_left (fun lg m => record_cell_epoch m lg) ms lg)
  = log_values key lg ++ flat_map (fun m => means_under training_cell_keys m key) ms.
Proof.
  revert lg. induction ms as [|m ms IH]; intros lg; simpl.
  - rewrite app_nil_r. reflexivity.
  - rewrite IH, record_cell_epoch_values, <- app_assoc. reflexivity.
Qed.

Lemma flat_map_singletons {A B : Type} (f : A -> list B) (b : B) (l : list A) :
  Forall (fun x => f x = [b]) l -> flat_map f l = repeat b (length l).
Proof.
  induction 1 as [|x l Hx _ IH]; simpl; [reflexivity|].
  rewrite Hx, IH. reflexivity.
Qed.

Lemma flat_map_seq_shift {A : Type} (f g : nat -> list A) (n k m : nat) :
  (forall i, f (n + i)%nat = g i) ->
  flat_map f (seq (n + k) m) = flat_map g (seq k m).
Proof.
  intros Hfg. revert k. induction m as [|m IH]; intros k; simpl; [reflexivity|].
  rewrite Hfg. f_equal. replace (S (n + k)) with (n + S k)%nat by lia. apply IH.
Qed.

Lemma appends_of_run_add {V : Type} (keys : list string)
    (lg lg' : gmap string (list V)) (n m : nat) :
  Forall (fun key => length (log_values key lg')
                     = (length (log_values key lg) + n)%nat) keys ->
  appends_of_run keys lg n ++ appends_of_run keys lg' m
  = appends_of_run keys lg (n + m).
Proof.
  intros Hkeys. unfold appends_of_run.
  rewrite seq_app, flat_map_app. f_equal. simpl.
  replace (seq n m) with (seq (n + 0) m) by (f_equal; lia). symmetry.
  apply flat_map_seq_shift. intros i.
  apply map_ext_in. intros key Hkey. rewrite Forall_forall in Hkeys.
  rewrite (Hkeys key) by (apply list_elem_of_In; exact Hkey).
  f_equal. lia.
Qed.

(** C6 - An empty loader, where the claim says that the training loop fails
    and never records NaN.  The training cell of [02_convnets.ipynb], run
    for one epoch over a training loader without batches, returns normally
    and has appended NaN as the mean training loss and as the mean training
    accuracy of the epoch. *)
Lemma cell_records_nan_without_batches :
  let r := training_cell (toy_loader 0) (toy_loader 1) 1 1 toy_store in
  fst r = Ok tt
  /\ log_values "train_losses" (logs (snd r)) = [S754_nan]
  /\ log_values "train_acc" (logs (snd r)) = [S754_nan].
Proof. vm_compute. repeat split. Qed.

(** C6, as the code has it.  [train_classifier], run for at least one epoch
    with a training or a test loader without batches, fails with
    [ZeroDivisionError] in its first epoch and prints nothing; if the
    training loader is the empty one, nothing has been appended to [logs].
    The training cell of [02_convnets.ipynb] has no such failure: over a
    training loader without batches it returns normally, and the mean
    training loss and the mean training accuracy it has appended for every
    epoch are NaN. *)
Theorem empty_loader `{torch : Torch} (train_dataloader test_dataloader : Loader) :
  (forall (max_epochs log_every : Z) (s : St World float),
      0 < max_epochs ->
      loader_len train_dataloader = 0%nat \/ loader_len test_dataloader = 0%nat ->
      exists s',
        train_classifier train_dataloader test_dataloader max_epochs log_every s
        = (Raise ZeroDivisionError, s')
        /\ stdout s' = stdout s
        /\ (loader_len train_dataloader = 0%nat ->
            appends s' = appends s
            /\ forall key, log_values key (logs s') = log_values key (logs s)))
  /\ (forall (max_epochs log_every : Z) (s : St World spec_float),
        log_every <> 0 ->
        loader_len train_dataloader = 0%nat ->
        exists s',
          training_cell train_dataloader test_dataloader max_epochs log_every s
          = (Ok tt, s')
          /\ log_values "train_losses" (logs s')
             = repeat S754_nan (Z.to_nat max_epochs)
          /\ log_values "train_acc" (logs s')
             = repeat S754_nan (Z.to_nat max_epochs)).
Proof.
  split.
  - intros max_epochs log_every s Hpos Hempty.
    destruct (train_classifier_raise train_dataloader test_dataloader
                max_epochs log_every s Hpos Hempty)
      as (s' & Hrun & Hout & Htrain & _).
    exists s'. split; [exact Hrun|split; [exact Hout|exact Htrain]].
  - intros max_epochs log_every s Hle Hempty.
    destruct (training_cell_ok train_dataloader test_dataloader
                max_epochs log_every s Hle)
      as (w & ms & out & Hrun & Hlen & Hms & _).
    eexists. split; [exact Hrun|]. simpl.
    rewrite !record_cell_epochs_values. simpl. rewrite <- Hlen.
    split; apply flat_map_singletons;
      (eapply Forall_impl; [exact Hms|]);
      intros m ([[train_acc train_loss] [val_acc val_loss]] & [[Ha Hl] _] & ->);
      simpl in Ha, Hl; rewrite Hempty in Ha, Hl;
      apply nil_length_inv in Ha; apply nil_length_inv in Hl; subst;
      reflexivity.
Qed.

Lemma empty_loader_witness :
  exists s',
    train_classifier (toy_loader 1) (toy_loader 0) 3 5 toy_store
    = (Raise ZeroDivisionError, s')
    /\ stdout s' = [].
Proof.
  destruct (proj1 (empty_loader (toy_loader 1) (toy_loader 0)) 3 5 toy_store
              ltac:(lia) ltac:(right; reflexivity))
    as (s' & Hrun & Hout & _).
  exists s'. split; [exact Hrun|exact Hout].
Defined.

(** C7 - Progress lines, where the claim gives one rule for the training
    loop.  The training cell of [02_convnets.ipynb], run for 4 epochs with
    [log_every = 2], prints after the epochs with index 0, 2 and 3 (its
    lines read 1/4, 3/4 and 4/4); the rule of the claim asks for lines
    after the epochs with index 1 and 3 only. *)
Lemma cell_prints_after_first_epoch :
  printed_epochs
    (stdout (snd (training_cell (toy_loader 1) (toy_loader 1) 4 2 toy_store)))
  = [1; 3; 4]
  /\ map (fun e => e + 1) (List.filter (spec_progress_due 4 2) (range 4)) = [2; 4].
Proof. vm_compute. split; reflexivity. Qed.

(** C7, as the code has it.  [train_classifier], over loaders that are not
    empty and with [log_every <> 0], returns and prints a progress line
    after the epoch with index [epoch_index] exactly when
    [(epoch_index + 1) % log_every == 0] or the epoch is the final one, in
    epoch order.  The training cell of [02_convnets.ipynb] prints a line
    exactly when [epoch_index % log_every == 0] or the epoch is the final
    one. *)
Theorem progress_lines `{torch : Torch} (train_dataloader test_dataloader : Loader)
    (max_epochs log_every : Z) :
  log_every <> 0 ->
  (forall s : St World float,
      (0 < loader_len train_dataloader)%nat ->
      (0 < loader_len test_dataloader)%nat ->
      exists lg s' out,
        train_classifier train_dataloader test_dataloader max_epochs log_every s
        = (Ok lg, s')
        /\ stdout s' = stdout s ++ out
        /\ printed_epochs out
           = map (fun epoch_index => epoch_index + 1)
                 (List.filter (spec_progress_due max_epochs log_every)
                              (range max_epochs)))
  /\ (forall s : St World spec_float,
        exists s' out,
          training_cell train_dataloader test_dataloader max_epochs log_every s
          = (Ok tt, s')
          /\ stdout s' = stdout s ++ out
          /\ printed_epochs out
             = map (fun epoch_index => epoch_index + 1)
                   (List.filter (cell_progress_due max_epochs log_every)
                                (range max_epochs))).
Proof.
  intros Hle. split.
  - intros s Htrain Htest.
    destruct (train_classifier_ok train_dataloader test_dataloader Htrain Htest
                max_epochs log_every s Hle)
      as (w & ms & out & Hrun & _ & Hout).
    eexists _, _, out. split; [exact Hrun|]. split; [reflexivity|exact Hout].
  - intros s.
    destruct (training_cell_ok train_dataloader test_dataloader
                max_epochs log_every s Hle)
      as (w & ms & out & Hrun & _ & _ & Hout).
    eexists _, out. split; [exact Hrun|]. split; [reflexivity|exact Hout].
Qed.

Lemma progress_lines_witness :
  exists lg s' out,
    train_classifier (toy_loader 2) (toy_loader 1) 7 3 toy_store = (Ok lg, s')
    /\ stdout s' = [] ++ out
    /\ printed_epochs out = [3; 6; 7].
Proof.
  exact (proj1 (progress_lines (toy_loader 2) (toy_loader 1) 7 3 ltac:(lia))
           toy_store ltac:(simpl; lia) ltac:(simpl; lia)).
Defined.

Lemma fresh_results_values (key : string) : log_values key fresh_results = [].
Proof.
  unfold log_values, fresh_results.
  destruct (decide (key = "train_losses")) as [->|H1]; [reflexivity|].
  rewrite lookup_insert_ne by congruence.
  destruct (decide (key = "validation_losses")) as [->|H2]; [reflexivity|].
  rewrite lookup_insert_ne by congruence.
  destruct (decide (key = "train_acc")) as [->|H3]; [reflexivity|].
  rewrite lookup_insert_ne by congruence.
  destruct (decide (key = "validation_acc")) as [->|H4]; [reflexivity|].
  rewrite lookup_insert_ne by congruence. reflexivity.
Qed.

(** C8 - The order of the appends, where the claim gives one order for the
    training loop.  In one epoch of the training cell of
    [02_convnets.ipynb] the mean training accuracy is appended second,
    before the mean validation loss. *)
Lemma cell_appends_accuracy_before_validation_loss :
  map fst (appends (snd (training_cell (toy_loader 1) (toy_loader 1) 1 1
                           toy_store)))
  = ["train_losses"; "train_acc"; "validation_losses"; "validation_acc"]
  /\ map fst (appends (snd (training_cell (toy_loader 1) (toy_loader 1) 1 1
                              toy_store)))
     <> ["train_losses"; "validation_losses"; "train_acc"; "validation_acc"].
Proof. vm_compute. split; [reflexivity|discriminate]. Qed.

(** C8, as the code has it.  A run of [train_classifier] over loaders that
    are not empty, with [log_every <> 0], makes four appends per epoch, in
    the order mean training loss, mean test loss, mean training accuracy,
    mean test accuracy; the append of epoch [i] under a key writes to
    position [len(existing values) + i]; afterwards every sequence is what
    it was, followed by one value per epoch.  A run of the training cell of
    [02_convnets.ipynb] makes its four appends per epoch in the order mean
    training loss, mean training accuracy, mean validation loss, mean
    validation accuracy, to the sequences of a fresh dictionary. *)
Theorem append_order `{torch : Torch} (train_dataloader test_dataloader : Loader)
    (max_epochs log_every : Z) :
  log_every <> 0 ->
  (forall s : St World float,
      (0 < loader_len train_dataloader)%nat ->
      (0 < loader_len test_dataloader)%nat ->
      exists lg s' ms,
        train_classifier train_dataloader test_dataloader max_epochs log_every s
        = (Ok lg, s')
        /\ length ms = Z.to_nat max_epochs
        /\ appends s'
           = appends s ++ appends_of_run train_classifier_keys (logs s)
                                         (Z.to_nat max_epochs)
        /\ forall key,
             log_values key (logs s')
             = log_values key (logs s)
               ++ flat_map (fun m => means_under train_classifier_keys m key) ms)
  /\ (forall s : St World spec_float,
        exists s' ms,
          training_cell train_dataloader test_dataloader max_epochs log_every s
          = (Ok tt, s')
          /\ length ms = Z.to_nat max_epochs
          /\ appends s'
             = appends s ++ appends_of_run training_cell_keys fresh_results
                                           (Z.to_nat max_epochs)
          /\ forall key,
               log_values key (logs s')
               = flat_map (fun m => means_under training_cell_keys m key) ms).
Proof.
  intros Hle. split.
  - intros s Htrain Htest.
    destruct (train_classifier_ok train_dataloader test_dataloader Htrain Htest
                max_epochs log_every s Hle)
      as (w & ms & out & Hrun & Hlen & _).
    eexists _, _, ms. split; [exact Hrun|]. split; [exact Hlen|].
    split; [reflexivity|]. intros key. simpl. apply record_epochs_values.
  - intros s.
    destruct (training_cell_ok train_dataloader test_dataloader
                max_epochs log_every s Hle)
      as (w & ms & out & Hrun & Hlen & _).
    eexists _, ms. split; [exact Hrun|]. split; [exact Hlen|].
    split; [reflexivity|]. intros key. simpl.
    rewrite record_cell_epochs_values.
    rewrite fresh_results_values. reflexivity.
Qed.

Lemma append_order_witness :
  exists lg s' (ms : list (epoch_means float)),
    train_classifier (toy_loader 2) (toy_loader 1) 2 5 toy_store = (Ok lg, s')
    /\ length ms = 2%nat
    /\ appends s'
       = [("train_loss", 0%nat); ("test_loss", 0%nat); ("train_acc", 0%nat);
          ("test_acc", 0%nat); ("train_loss", 1%nat); ("test_loss", 1%nat);
          ("train_acc", 1%nat); ("test_acc", 1%nat)].
Proof.
  destruct (proj1 (append_order (toy_loader 2) (toy_loader 1) 2 5 ltac:(lia))
              toy_store ltac:(simpl; lia) ltac:(simpl; lia))
    as (lg & s' & ms & Hrun & Hlen & Happ & _).
  exists lg, s', ms. split; [exact Hrun|]. split; [exact Hlen|exact Happ].
Defined.

(** C9 - Resumability.  Two calls of [train_classifier] in sequence on the
    same store - the same model, optimizer and [logs] - with
    [max_epochs = 5] each, over loaders that are not empty: both return
    [logs]; the second call starts from the store the first one left,
    parameters included; after the first call every metric sequence is
    what it was followed by the 5 values of the first call, after the
    second call it is followed, in addition and behind them, by the 5
    values of the second call, so that it has 10 entries more than before,
    exactly 10 on a fresh [logs]; and the 40 appends of the two calls are
    made epoch after epoch to the positions
    [len(existing values) + 0 .. 9]. *)
Theorem resumability `{torch : Torch} (train_dataloader test_dataloader : Loader)
    (log_every : Z) (s0 : St World float) :
  (0 < loader_len train_dataloader)%nat ->
  (0 < loader_len test_dataloader)%nat ->
  log_every <> 0 ->
  exists (s1 s2 : St World float) (first second : list (epoch_means float)),
    train_classifier train_dataloader test_dataloader 5 log_every s0
    = (Ok (logs s1), s1)
    /\ train_classifier train_dataloader test_dataloader 5 log_every s1
       = (Ok (logs s2), s2)
    /\ (train_classifier train_dataloader test_dataloader 5 log_every ;;
        train_classifier train_dataloader test_dataloader 5 log_every) s0
       = (Ok (logs s2), s2)
    /\ length first = 5%nat
    /\ length second = 5%nat
    /\ (forall key,
          log_values key (logs s1)
          = log_values key (logs s0)
            ++ flat_map (fun m => means_under train_classifier_keys m key) first)
    /\ (forall key,
          log_values key (logs s2)
          = log_values key (logs s0)
            ++ flat_map (fun m => means_under train_classifier_keys m key) first
            ++ flat_map (fun m => means_under train_classifier_keys m key) second)
    /\ (forall key,
          key ∈ train_classifier_keys ->
          length (log_values key (logs s2))
          = (length (log_values key (logs s0)) + 10)%nat)
    /\ (logs s0 = ∅ ->
        forall key,
          key ∈ train_classifier_keys -> length (log_values key (logs s2)) = 10%nat)
    /\ appends s2
       = appends s0 ++ appends_of_run train_classifier_keys (logs s0) 10.
Proof.
  intros Htrain Htest Hle.
  destruct (train_classifier_ok train_dataloader test_dataloader Htrain Htest
              5 log_every s0 Hle)
    as (w1 & first & out1 & Hrun1 & Hlen1 & _).
  set (s1 := mk_St w1 (fold_left (fun lg m => record_epoch m lg) first (logs s0))
                   (stdout s0 ++ out1)
                   (appends s0 ++ appends_of_run train_classifier_keys (logs s0)
                                                 (Z.to_nat 5))) in *.
  destruct (train_classifier_ok train_dataloader test_dataloader Htrain Htest
              5 log_every s1 Hle)
    as (w2 & second & out2 & Hrun2 & Hlen2 & _).
  set (s2 := mk_St w2 (fold_left (fun lg m => record_epoch m lg) second (logs s1))
                   (stdout s1 ++ out2)
                   (appends s1 ++ appends_of_run train_classifier_keys (logs s1)
                                                 (Z.to_nat 5))) in *.
  assert (Hfirst : forall key,
             log_values key (logs s1)
             = log_values key (logs s0)
               ++ flat_map (fun m => means_under train_classifier_keys m key) first)
    by (intros key; apply record_epochs_values).
  assert (Hsecond : forall key,
             log_values key (logs s2)
             = log_values key (logs s0)
               ++ flat_map (fun m => means_under train_classifier_keys m key) first
               ++ flat_map (fun m => means_under train_classifier_keys m key) second).
  { intros key. unfold s2. simpl logs at 1.
    rewrite record_epochs_values, Hfirst, <- app_assoc. reflexivity. }
  assert (Hcount : forall (ms : list (epoch_means float)) key,
             key ∈ train_classifier_keys ->
             length (flat_map (fun m => means_under train_classifier_keys m key) ms)
             = length ms).
  { intros ms key Hkey.
    rewrite (flat_map_length_const _ ms 1); [lia|].
    apply Forall_forall. intros m _.
    apply (means_under_length _ _ _ train_classifier_keys_NoDup eq_refl Hkey). }
  assert (Hten : forall key,
             key ∈ train_classifier_keys ->
             length (log_values key (logs s2))
             = (length (log_values key (logs s0)) + 10)%nat).
  { intros key Hkey.
    rewrite Hsecond, !length_app, !Hcount by assumption. lia. }
  exists s1, s2, first, second.
  split; [exact Hrun1|]. split; [exact Hrun2|].
  split; [rewrite (bind_ok _ _ _ _ _ Hrun1); exact Hrun2|].
  split; [exact Hlen1|]. split; [exact Hlen2|].
  split; [exact Hfirst|]. split; [exact Hsecond|]. split; [exact Hten|].
  split.
  - intros Hempty key Hkey. rewrite (Hten key Hkey).
    unfold log_values. rewrite Hempty, lookup_empty. reflexivity.
  - change (appends s2)
      with ((appends s0 ++ appends_of_run train_classifier_keys (logs s0) 5)
              ++ appends_of_run train_classifier_keys (logs s1) 5).
    rewrite <- app_assoc. f_equal.
    apply (appends_of_run_add train_classifier_keys (logs s0) (logs s1) 5 5).
    apply Forall_forall. intros key Hkey.
    rewrite Hfirst, length_app, Hcount by assumption. lia.
Qed.

Lemma resumability_witness :
  exists s2 : St World float,
    (train_classifier (toy_loader 2) (toy_loader 1) 5 5 ;;
     train_classifier (toy_loader 2) (toy_loader 1) 5 5) toy_store
    = (Ok (logs s2), s2)
    /\ length (log_values "train_loss" (logs s2)) = 10%nat
    /\ length (log_values "test_acc" (logs s2)) = 10%nat.
Proof.
  destruct (resumability (toy_loader 2) (toy_loader 1) 5 toy_store
              ltac:(simpl; lia) ltac:(simpl; lia) ltac:(lia))
    as (s1 & s2 & first & second & _ & _ & Hseq & _ & _ & _ & _ & _ & Hfresh & _).
  exists s2. split; [exact Hseq|].
  split.
  - apply (Hfresh eq_refl). unfold train_classifier_keys. apply list_elem_of_here.
  - apply (Hfresh eq_refl). unfold train_classifier_keys.
    do 3 apply list_elem_of_further. apply list_elem_of_here.
Defined.

(** * Further properties of the dataset adapter *)

Lemma take_Forall2 {A : Type} (l : list A) (idx : list nat) (r : list A) :
  take l idx = Ok r -> Forall2 (fun j x => l !! j = Some x) idx r.
Proof.
  unfold take. revert r. induction idx as [|j idx IH]; simpl; intros r Hr.
  - injection Hr as <-. constructor.
  - destruct (l !! j) as [x|] eqn:Hx; simpl in Hr; [|discriminate].
    destruct (mapM _ idx) as [xs|]; simpl in Hr; [|discriminate].
    injection Hr as <-. constructor; [exact Hx|]. apply IH. reflexivity.
Qed.

Lemma take_lookup {A : Type} (l : list A) (idx : list nat) (r : list A)
    (i j : nat) :
  take l idx = Ok r -> idx !! i = Some j ->
  exists x, l !! j = Some x /\ r !! i = Some x.
Proof.
  intros Htake Hi. apply take_Forall2 in Htake.
  destruct (Forall2_lookup_l _ _ _ _ _ Htake Hi) as (x & Hx & Hjx). eauto.
Qed.

Lemma Forall2_lookup_seq {A : Type} (l r : list A) :
  Forall2 (fun j x => l !! j = Some x) (seq 0 (length l)) r -> r = l.
Proof.
  intros Hall. apply list_eq. intros i.
  destruct (decide (i < length l)%nat) as [Hlt|Hge].
  - destruct (Forall2_lookup_l _ _ _ i i Hall) as (x & Hx & Hix);
      [apply lookup_seq_lt; exact Hlt|].
    simpl in Hix. congruence.
  - apply Forall2_length in Hall. rewrite length_seq in Hall.
    rewrite !lookup_ge_None_2 by lia. reflexivity.
Qed.

(** Indexing with a permutation of all positions permutes the array. *)
Lemma take_Permutation {A : Type} (l : list A) (idx : list nat) (r : list A) :
  Permutation idx (seq 0 (length l)) -> take l idx = Ok r -> Permutation r l.
Proof.
  intros Hperm Htake. apply take_Forall2 in Htake.
  destruct (Permutation_Forall2 Hperm Htake) as (r' & Hr & Hall).
  rewrite Hr. rewrite (Forall2_lookup_seq l r' Hall). reflexivity.
Qed.

Lemma take_app {A : Type} (l : list A) (idx idx' : list nat) (r r' : list A) :
  take l idx = Ok r -> take l idx' = Ok r' -> take l (idx ++ idx') = Ok (r ++ r').
Proof.
  unfold take. revert r. induction idx as [|j idx IH]; simpl; intros r Hr Hr'.
  - injection Hr as <-. exact Hr'.
  - destruct (l !! j) as [x|]; simpl in *; [|discriminate].
    destruct (mapM _ idx) as [xs|]; simpl in Hr; [|discriminate].
    injection Hr as <-. rewrite (IH xs eq_refl Hr'). reflexivity.
Qed.

(** A sample read at a position that holds a row and a label. *)
Lemma getitem_at (self : MNIST1D.t) (index : Z) (row : list float) (label : Z) :
  0 <= index ->
  rows (MNIST1D.X self) !! Z.to_nat index = Some row ->
  MNIST1D.y self !! Z.to_nat index = Some label ->
  MNIST1D.getitem self index
  = Ok (mk_FloatTensor [1%nat; ncols (MNIST1D.X self)] (map astype_float32 row),
        mk_LongTensor [] [astype_int64 label]).
Proof.
  intros Hindex Hrow Hlabel. unfold MNIST1D.getitem, slice_rows.
  rewrite (slice_single _ _ row Hindex Hrow).
  rewrite (index_int_in_range _ _ label Hindex Hlabel).
  unfold from_numpy2, map2d, shape2, from_numpy0. simpl.
  rewrite app_nil_r. reflexivity.
Qed.

(** What a successful construction has computed. *)
Lemma init_inv `{NumpyRandom} (np_random : RandomState) (train : bool)
    (p : float) (d : mnist1d_data) (seed : Z) (self : MNIST1D.t)
    (ind_train ind_test : list nat) :
  split_indices np_random (length (rows (data_x d))) p (Some seed)
    = Ok (ind_train, ind_test) ->
  MNIST1D.init np_random train p d seed = Ok self ->
  exists X_train X_validation y_train y_validation lo hi,
    take (rows (data_x d)) ind_train = Ok X_train
    /\ take (rows (data_x d)) ind_test = Ok X_validation
    /\ take (data_y d) ind_train = Ok y_train
    /\ take (data_y d) ind_test = Ok y_validation
    /\ np_min (mk_ndarray2 (ncols (data_x d)) X_train) = Ok lo
    /\ np_max (mk_ndarray2 (ncols (data_x d)) X_train) = Ok hi
    /\ self = MNIST1D.mk train d lo (hi - lo)%float
                (MNIST1D.normalize lo (hi - lo)%float
                   (mk_ndarray2 (ncols (data_x d))
                      (if train then X_train else X_validation)))
                (if train then y_train else y_validation).
Proof.
  intros Hsplit.
  destruct (Nat.eq_dec (length (rows (data_x d))) (length (data_y d)))
    as [Hlen|Hlen]; [|rewrite init_mismatch by assumption; discriminate].
  rewrite (init_unfold np_random train p d seed _ _ Hlen Hsplit).
  unfold take_rows.
  destruct (take (rows (data_x d)) ind_train) as [X_train|]; simpl; [|discriminate].
  destruct (take (rows (data_x d)) ind_test) as [X_val|]; simpl; [|discriminate].
  destruct (take (data_y d) ind_train) as [y_train|]; simpl; [|discriminate].
  destruct (take (data_y d) ind_test) as [y_val|]; simpl; [|discriminate].
  destruct (np_min _) as [lo|] eqn:Hlo; simpl; [|discriminate].
  destruct (np_max _) as [hi|] eqn:Hhi; simpl; [|discriminate].
  intros [= <-]. exists X_train, X_val, y_train, y_val, lo, hi.
  destruct train; repeat split; assumption.
Qed.

Lemma init_split `{NumpyRandom} (np_random : RandomState) (train : bool)
    (p : float) (d : mnist1d_data) (seed : Z) (self : MNIST1D.t) :
  MNIST1D.init np_random train p d seed = Ok self ->
  exists ind_train ind_test,
    split_indices np_random (length (rows (data_x d))) p (Some seed)
    = Ok (ind_train, ind_test).
Proof.
  intros Hinit.
  destruct (split_indices np_random (length (rows (data_x d))) p (Some seed))
    as [[ind_train ind_test]|e] eqn:Hsplit; [eauto|].
  exfalso. revert Hinit. unfold MNIST1D.init, train_test_split.
  rewrite Hsplit. destruct (negb _); discriminate.
Qed.

(** X1 - Inputs and labels stay paired.  Position [i] of a view holds the
    raw sample whose index is the [i]-th index of the view's partition: its
    input normalized with the statistics of the dataset, and its label;
    [__getitem__(i)] returns the float32 image of that input and that label
    as a 64-bit integer. *)
Theorem sample_alignment `{NumpyRandom} (np_random : RandomState) (train : bool)
    (p : float) (d : mnist1d_data) (seed : Z) (self : MNIST1D.t)
    (ind_train ind_test : list nat) (i j : nat) :
  MNIST1D.init np_random train p d seed = Ok self ->
  split_indices np_random (length (rows (data_x d))) p (Some seed)
    = Ok (ind_train, ind_test) ->
  (if train then ind_train else ind_test) !! i = Some j ->
  exists (row : list float) (label : Z),
    rows (data_x d) !! j = Some row
    /\ data_y d !! j = Some label
    /\ rows (MNIST1D.X self) !! i
       = Some (map (fun v => ((v - MNIST1D.X_loc self) / MNIST1D.X_scale self)%float)
                   row)
    /\ MNIST1D.y self !! i = Some label
    /\ MNIST1D.getitem self (Z.of_nat i)
       = Ok (mk_FloatTensor [1%nat; ncols (data_x d)]
               (map astype_float32
                  (map (fun v => ((v - MNIST1D.X_loc self)
                                  / MNIST1D.X_scale self)%float) row)),
             mk_LongTensor [] [astype_int64 label]).
Proof.
  intros Hinit Hsplit Hi.
  destruct (init_inv np_random train p d seed self _ _ Hsplit Hinit)
    as (X_train & X_val & y_train & y_val & lo & hi
        & Hxt & Hxv & Hyt & Hyv & _ & _ & ->).
  assert (Hrow : exists row, rows (data_x d) !! j = Some row
                   /\ (if train then X_train else X_val) !! i = Some row).
  { destruct train; eapply take_lookup; eassumption. }
  assert (Hlabel : exists label, data_y d !! j = Some label
                     /\ (if train then y_train else y_val) !! i = Some label).
  { destruct train; eapply take_lookup; eassumption. }
  destruct Hrow as (row & Hraw & Hrow). destruct Hlabel as (label & Hrawl & Hlabel).
  exists row, label. simpl.
  assert (Hnorm : map (map (fun v => ((v - lo) / (hi - lo))%float))
                    (if train then X_train else X_val) !! i
                  = Some (map (fun v => ((v - lo) / (hi - lo))%float) row)).
  { rewrite list_lookup_fmap, Hrow. reflexivity. }
  split; [exact Hraw|]. split; [exact Hrawl|]. split; [exact Hnorm|].
  split; [exact Hlabel|].
  erewrite getitem_at; [reflexivity|lia|..]; simpl; rewrite Nat2Z.id;
    eassumption.
Qed.

Lemma sample_alignment_witness :
  exists self,
    MNIST1D.init toy_rng false 0.5%float toy_data 42 = Ok self
    /\ MNIST1D.y self !! 1%nat = Some 3
    /\ rows (MNIST1D.X self) !! 1%nat
       = Some (map (fun v => ((v - MNIST1D.X_loc self) / MNIST1D.X_scale self)%float)
                   [4; 8]%float).
Proof.
  eexists. split; [vm_compute; reflexivity|].
  destruct (sample_alignment toy_rng false 0.5%float toy_data 42 _
              [0; 1]%nat [2; 3]%nat 1 3
              ltac:(vm_compute; reflexivity) ltac:(vm_compute; reflexivity)
              ltac:(reflexivity))
    as (row & label & Hrow & Hlabel & HX & Hy & _).
  injection Hrow as <-. injection Hlabel as <-. split; assumption.
Defined.

(** X2 - The two views hold every raw sample exactly once.  For a
    generator that returns permutations, the labels of the validation view
    followed by those of the training view are a rearrangement of the raw
    labels, the rows of the two views a rearrangement of the raw rows
    normalized with the common statistics, and the lengths of the two views
    add up to the number of raw samples (the check [nsamples == 4000] of
    the notebook). *)
Theorem views_hold_every_sample `{NumpyRandom} (np_random : RandomState)
    (p : float) (d : mnist1d_data) (seed : Z)
    (training_data validation_data : MNIST1D.t) :
  (forall (rs : RandomState) (k : nat), Permutation (rs_permutation rs k) (seq 0 k)) ->
  MNIST1D.init np_random true p d seed = Ok training_data ->
  MNIST1D.init np_random false p d seed = Ok validation_data ->
  MNIST1D.X_loc validation_data = MNIST1D.X_loc training_data
  /\ MNIST1D.X_scale validation_data = MNIST1D.X_scale training_data
  /\ Permutation (MNIST1D.y validation_data ++ MNIST1D.y training_data) (data_y d)
  /\ Permutation
       (rows (MNIST1D.X validation_data) ++ rows (MNIST1D.X training_data))
       (map (map (fun v => ((v - MNIST1D.X_loc training_data)
                            / MNIST1D.X_scale training_data)%float))
            (rows (data_x d)))
  /\ MNIST1D.len training_data + MNIST1D.len validation_data
     = Z.of_nat (length (rows (data_x d))).
Proof.
  intros Hperm Htrain Hval.
  destruct (init_split np_random true p d seed _ Htrain)
    as (ind_train & ind_test & Hsplit).
  assert (Hlen : length (rows (data_x d)) = length (data_y d)).
  { destruct (Nat.eq_dec (length (rows (data_x d))) (length (data_y d)))
      as [?|Hne]; [assumption|].
    rewrite init_mismatch in Htrain by assumption. discriminate. }
  destruct (init_inv np_random true p d seed _ _ _ Hsplit Htrain)
    as (X_train & X_val & y_train & y_val & lo & hi
        & Hxt & Hxv & Hyt & Hyv & Hlo & Hhi & ->).
  destruct (init_inv np_random false p d seed _ _ _ Hsplit Hval)
    as (X_train' & X_val' & y_train' & y_val' & lo' & hi'
        & Hxt' & Hxv' & Hyt' & Hyv' & Hlo' & Hhi' & ->).
  rewrite Hxt in Hxt'. injection Hxt' as <-.
  rewrite Hxv in Hxv'. injection Hxv' as <-.
  rewrite Hyv in Hyv'. injection Hyv' as <-.
  rewrite Hlo in Hlo'. injection Hlo' as <-.
  rewrite Hhi in Hhi'. injection Hhi' as <-.
  pose proof (split_indices_in_range np_random Hperm _ _ _ _ _ Hsplit) as Hall.
  assert (Hys : Permutation (y_val ++ y_train) (data_y d)).
  { apply (take_Permutation _ (ind_test ++ ind_train));
      [rewrite <- Hlen; exact Hall|apply take_app; assumption]. }
  assert (Hxs : Permutation (X_val ++ X_train) (rows (data_x d))).
  { apply (take_Permutation _ (ind_test ++ ind_train));
      [exact Hall|apply take_app; assumption]. }
  simpl. split; [reflexivity|]. split; [reflexivity|]. split; [exact Hys|].
  split.
  - rewrite <- map_app. apply Permutation_map. exact Hxs.
  - unfold MNIST1D.len. simpl. rewrite !length_map.
    apply Permutation_length in Hxs. rewrite length_app in Hxs. lia.
Qed.

Lemma views_hold_every_sample_witness :
  exists training_data validation_data,
    MNIST1D.init toy_rng true 0.5%float toy_data 42 = Ok training_data
    /\ MNIST1D.init toy_rng false 0.5%float toy_data 42 = Ok validation_data
    /\ Permutation (MNIST1D.y validation_data ++ MNIST1D.y training_data)
                   [0; 1; 2; 3]
    /\ MNIST1D.len training_data + MNIST1D.len validation_data = 4.
Proof.
  eexists _, _. split; [vm_compute; reflexivity|].
  split; [vm_compute; reflexivity|].
  destruct (views_hold_every_sample toy_rng 0.5%float toy_data 42 _ _
              (fun rs k => rotation_permutation (Z.to_nat rs) k)
              ltac:(vm_compute; reflexivity) ltac:(vm_compute; reflexivity))
    as (_ & _ & Hy & _ & Hlen).
  split; [exact Hy|exact Hlen].
Defined.

(** X3 - The last sample by negative index.  On every constructed dataset
    with at least one sample, [__getitem__(-1)] does not raise: the slice
    [X[-1:0]] is empty, so the input tensor has shape [(0, input_length)]
    and no value, while the label is that of the last sample. *)
Theorem getitem_minus_one `{NumpyRandom} (np_random : RandomState)
    (train : bool) (p : float) (d : mnist1d_data) (seed : Z)
    (self : MNIST1D.t) :
  MNIST1D.init np_random train p d seed = Ok self ->
  0 < MNIST1D.len self ->
  exists label,
    MNIST1D.y self !! Z.to_nat (MNIST1D.len self - 1) = Some label
    /\ MNIST1D.getitem self (-1)
       = Ok (mk_FloatTensor [0%nat; ncols (data_x d)] [],
             mk_LongTensor [] [astype_int64 label]).
Proof.
  intros Hinit Hpos.
  destruct (init_invariant np_random train p d seed self Hinit) as (Hy & Hc & _).
  unfold MNIST1D.len in *.
  assert (Hlt : (Z.to_nat (Z.of_nat (length (rows (MNIST1D.X self))) - 1)
                 < length (MNIST1D.y self))%nat) by lia.
  destruct (lookup_lt_is_Some_2 _ _ Hlt) as [label Hlabel].
  exists label. split; [exact Hlabel|].
  unfold MNIST1D.getitem, slice_rows.
  rewrite (index_int_negative_wraps (MNIST1D.y self) (-1)) by lia.
  rewrite (index_int_in_range _ _ label); [|lia|].
  - assert (Hslice : slice (rows (MNIST1D.X self)) (-1) (-1 + 1) = []).
    { unfold slice, clamp_index. simpl.
      match goal with
      | |- firstn ?n _ = _ => replace n with 0%nat by lia
      end.
      reflexivity. }
    rewrite Hslice. unfold from_numpy2, map2d, shape2, from_numpy0. simpl.
    rewrite Hc. reflexivity.
  - rewrite <- Hlabel. f_equal. lia.
Qed.

Lemma getitem_minus_one_witness :
  exists self,
    MNIST1D.init toy_rng true 0.5%float toy_data 42 = Ok self
    /\ MNIST1D.getitem self (-1)
       = Ok (mk_FloatTensor [0; 2]%nat [], mk_LongTensor [] [1]).
Proof.
  eexists. split; [vm_compute; reflexivity|].
  destruct (getitem_minus_one toy_rng true 0.5%float toy_data 42 _
              ltac:(vm_compute; reflexivity) ltac:(reflexivity))
    as (label & Hlabel & Hget).
  injection Hlabel as <-. exact Hget.
Defined.

Lemma split_indices_invalid_size `{NumpyRandom} (np_random : RandomState)
    (n : nat) (p : float) (random_state : option Z) :
  (p <=? 0)%float = true \/ (1 <=? p)%float = true \/ Prim2SF p = S754_nan ->
  split_indices np_random n p random_state = Raise ValueError.
Proof.
  intros Hp. unfold split_indices, validate_shuffle_split_float.
  destruct ((p <=? 0)%float || (1 <=? p)%float) eqn:Hrange; [reflexivity|].
  apply orb_false_iff in Hrange as [H0 H1].
  destruct Hp as [Hp|[Hp|Hp]]; [congruence|congruence|].
  unfold math_ceil. rewrite FloatAxioms.mul_spec, Hp. reflexivity.
Qed.

(** X4 - What the constructor rejects.  [MNIST1D(...)] raises [ValueError]
    when [validation_size] is not inside (0, 1) - at most 0, at least 1 or
    NaN - and when the raw inputs and labels differ in number; it raises
    for every raw set with fewer than two samples and for every seed
    outside [0, 2^32). *)
Theorem init_rejects `{NumpyRandom} (np_random : RandomState) (train : bool)
    (p : float) (d : mnist1d_data) (seed : Z) :
  ((p <=? 0)%float = true \/ (1 <=? p)%float = true \/ Prim2SF p = S754_nan ->
   MNIST1D.init np_random train p d seed = Raise ValueError)
  /\ (length (rows (data_x d)) <> length (data_y d) ->
      MNIST1D.init np_random train p d seed = Raise ValueError)
  /\ ((length (rows (data_x d)) <= 1)%nat ->
      is_ok (MNIST1D.init np_random train p d seed) = false)
  /\ (seed < 0 \/ 2 ^ 32 <= seed ->
      is_ok (MNIST1D.init np_random train p d seed) = false).
Proof.
  split; [|split; [|split]].
  - intros Hp. unfold MNIST1D.init, train_test_split.
    destruct (negb _); [reflexivity|].
    rewrite (split_indices_invalid_size np_random _ p (Some seed) Hp). reflexivity.
  - apply init_mismatch.
  - intros Hn.
    destruct (MNIST1D.init np_random train p d seed) as [self|e] eqn:Hinit;
      [|reflexivity].
    destruct (init_split np_random train p d seed self Hinit)
      as (ind_train & ind_test & Hsplit).
    destruct (split_indices_inv np_random _ _ _ _ _ Hsplit)
      as (n_test & _ & _ & Hrange & _). lia.
  - intros Hseed.
    destruct (MNIST1D.init np_random train p d seed) as [self|e] eqn:Hinit;
      [|reflexivity].
    destruct (init_split np_random train p d seed self Hinit)
      as (ind_train & ind_test & Hsplit).
    destruct (split_indices_inv np_random _ _ _ _ _ Hsplit)
      as (n_test & rng & _ & _ & Hrng & _).
    exfalso. revert Hrng. unfold check_random_state.
    destruct ((seed <? 0) || (2 ^ 32 <=? seed)) eqn:Hb; [discriminate|].
    apply orb_false_iff in Hb as [H1 H2].
    apply Z.ltb_ge in H1. apply Z.leb_gt in H2. lia.
Qed.

Lemma init_rejects_witness :
  MNIST1D.init toy_rng true 1%float toy_data 42 = Raise ValueError
  /\ MNIST1D.init toy_rng true nan toy_data 42 = Raise ValueError
  /\ is_ok (MNIST1D.init toy_rng true 0.5%float toy_data (-1)) = false.
Proof.
  split; [|split].
  - apply (proj1 (init_rejects toy_rng true 1%float toy_data 42)).
    right. left. reflexivity.
  - apply (proj1 (init_rejects toy_rng true nan toy_data 42)).
    right. right. reflexivity.
  - apply (proj2 (proj2 (proj2 (init_rejects toy_rng true 0.5%float toy_data (-1))))).
    left. lia.
Defined.

(** X5 - [get_dataloaders] accepts raw sets of 4000 samples only.  For a
    generator that returns permutations and a positive batch size,
    whenever [get_dataloaders] returns, the raw set has exactly 4000
    samples, the training loader holds the training view of 3600 samples
    and shuffles, the test loader holds the validation view of 400 samples
    and does not shuffle, and both use the given batch size. *)
Theorem get_dataloaders_returns `{NumpyRandom} (np_random : RandomState)
    (clean : mnist1d_data) (batch_size : Z)
    (train_dataloader test_dataloader : DataLoader) :
  (forall (rs : RandomState) (k : nat), Permutation (rs_permutation rs k) (seq 0 k)) ->
  0 < batch_size ->
  get_dataloaders np_random clean batch_size
    = Ok (train_dataloader, test_dataloader) ->
  length (rows (data_x clean)) = 4000%nat
  /\ MNIST1D.init np_random true MNIST1D.default_validation_size clean 42
     = Ok (dataset train_dataloader)
  /\ MNIST1D.init np_random false MNIST1D.default_validation_size clean 42
     = Ok (dataset test_dataloader)
  /\ MNIST1D.len (dataset train_dataloader) = 3600
  /\ MNIST1D.len (dataset test_dataloader) = 400
  /\ train_dataloader = mk_DataLoader (dataset train_dataloader) batch_size true
  /\ test_dataloader = mk_DataLoader (dataset test_dataloader) batch_size false.
Proof.
  intros Hperm _. unfold get_dataloaders, MNIST1D.default_seed.
  destruct (MNIST1D.init np_random true _ clean 42) as [tr|] eqn:Htr;
    [|discriminate].
  destruct (MNIST1D.init np_random false _ clean 42) as [te|] eqn:Hte;
    [|discriminate].
  simpl.
  destruct (MNIST1D.len tr =? 3600) eqn:Hltr; [|discriminate].
  destruct (MNIST1D.len te =? 400) eqn:Hlte; [|discriminate].
  simpl. intros [= <- <-]. simpl.
  apply Z.eqb_eq in Hltr. apply Z.eqb_eq in Hlte.
  destruct (init_split np_random true _ clean 42 tr Htr)
    as (ind_train & ind_test & Hsplit).
  destruct (init_len np_random true _ clean 42 _ _ tr Hsplit Htr) as (Hl1 & _).
  destruct (init_len np_random false _ clean 42 _ _ te Hsplit Hte) as (Hl2 & _).
  destruct (split_indices_halves np_random Hperm _ _ _ _ _ Hsplit)
    as (n_test & rng & _ & Hrange & -> & ->).
  rewrite length_skipn, (permutation_length Hperm) in Hl1.
  rewrite length_firstn, (permutation_length Hperm) in Hl2.
  repeat split; try reflexivity; try assumption. lia.
Qed.

Lemma get_dataloaders_returns_witness :
  exists (clean : mnist1d_data) (train_dataloader test_dataloader : DataLoader),
    get_dataloaders toy_rng clean 128 = Ok (train_dataloader, test_dataloader)
    /\ length (rows (data_x clean)) = 4000%nat
    /\ MNIST1D.len (dataset train_dataloader) = 3600
    /\ test_dataloader = mk_DataLoader (dataset test_dataloader) 128 false.
Proof.
  set (clean := mk_data (mk_ndarray2 1 (map (fun i => [float_of_int (Z.of_nat i)]) (seq 0 4000)))
                        (map Z.of_nat (seq 0 4000))).
  assert (is_ok (get_dataloaders toy_rng clean 128) = true) as Hok
    by (vm_compute; reflexivity).
  destruct (get_dataloaders toy_rng clean 128) as [[tr te]|] eqn:Hget;
    [|discriminate Hok].
  exists clean, tr, te.
  pose proof (get_dataloaders_returns toy_rng clean 128 tr te
                (fun rs k => rotation_permutation (Z.to_nat rs) k) ltac:(lia) Hget)
    as HP.
  split; [exact Hget|]. split; [apply HP|]. split; apply HP.
Defined.

(** * Further properties of the training loops *)

Lemma range_nonpos (n : Z) : n <= 0 -> range n = [].
Proof. intros Hn. unfold range. replace (Z.to_nat n) with 0%nat by lia. reflexivity. Qed.

Section NoInterval.

Context `{torch : Torch}.
Variables train_dataloader test_dataloader : Loader.

(** With [log_every = 0] an epoch of [train_classifier] over loaders that
    are not empty stops at the test for a progress line, after its four
    appends. *)
Lemma train_classifier_epoch_no_interval (max_epochs epoch : Z)
    (l : option Loss * option Loss) (s : St World float) :
  (0 < loader_len train_dataloader)%nat ->
  (0 < loader_len test_dataloader)%nat ->
  exists w m,
    train_classifier_epoch train_dataloader test_dataloader
      max_epochs 0 epoch l s
    = (Raise ZeroDivisionError,
       mk_St w (record_epoch m (logs s)) (stdout s)
             (appends s ++ appends_of_run train_classifier_keys (logs s) 1)).
Proof.
  intros Htrain Htest. destruct l as [train_loss test_loss].
  unfold train_classifier_epoch.
  step (world_only_call (V := float) model_train) as w1 u1 H1.
  step (world_only_iterate (V := float) train_dataloader) as w2 bs Hbs.
  step (train_pass_world_only bs (0%float, 0%float, train_loss)) as w3 r Hr.
  destruct r as [[train_loss_sum train_acc_sum] train_loss'].
  step (world_only_call (V := float) model_eval) as w4 u4 H4.
  step (world_only_iterate (V := float) test_dataloader) as w5 bs' Hbs'.
  step (test_pass_world_only bs' (0%float, 0%float, test_loss)) as w6 r' Hr'.
  destruct r' as [[test_loss_sum test_acc_sum] test_loss'].
  do 4 match goal with
    | |- context [bind (log_mean ?key ?total ?loader) ?k ?s0] =>
        let mean := fresh "mean" in
        let Hs := fresh "Hs" in
        destruct (log_mean_ok key total loader s0 ltac:(assumption)) as [mean Hs];
        rewrite (bind_ok _ k s0 _ tt Hs); clear Hs; simpl logs; simpl stdout;
        simpl appends; simpl world
    end.
  rewrite !log_values_append_ne by discriminate.
  exists w6, (mean, mean0, mean1, mean2).
  unfold bind, lift, py_mod. simpl. unfold appends_of_run. simpl.
  rewrite !Nat.add_0_r, <- !app_assoc. reflexivity.
Qed.

(** The same for an epoch of the training cell, whatever the loaders. *)
Lemma cell_epoch_no_interval (max_epochs epoch : Z)
    (l : containers * containers) (s : St World spec_float) :
  cell_sized train_dataloader test_dataloader l ->
  Forall (fun key => is_Some (logs s !! key)) training_cell_keys ->
  exists w l',
    cell_epoch train_dataloader test_dataloader max_epochs 0 epoch l s
    = (Raise ZeroDivisionError,
       mk_St w (record_cell_epoch (cell_means l') (logs s)) (stdout s)
             (appends s ++ appends_of_run training_cell_keys (logs s) 1))
    /\ cell_sized train_dataloader test_dataloader l'.
Proof.
  intros [Htrain Hval] Hkeys. destruct l as [train validation].
  simpl in Htrain, Hval.
  apply Forall_cons in Hkeys as [K1 Hkeys]. apply Forall_cons in Hkeys as [K2 Hkeys].
  apply Forall_cons in Hkeys as [K3 Hkeys]. apply Forall_cons in Hkeys as [K4 _].
  unfold cell_epoch.
  step (world_only_call (V := spec_float) model_train) as w1 u1 H1.
  step (world_only_iterate (V := spec_float) train_dataloader) as w2 bs Hbs.
  step (cell_pass_world_only cell_train_step _ bs train
          (cell_train_step_world_only _) Hbs Htrain) as w3 train' Htrain'.
  step (world_only_call (V := spec_float) model_eval) as w4 u4 H4.
  step (world_only_iterate (V := spec_float) test_dataloader) as w5 bs' Hbs'.
  step (cell_pass_world_only cell_validation_step _ bs' validation
          (cell_validation_step_world_only _) Hbs' Hval) as w6 validation' Hval'.
  destruct train' as [train_acc train_loss].
  destruct validation' as [validation_acc validation_loss].
  do 4 match goal with
    | |- context [bind (results_append ?key ?t) ?k ?s0] =>
        rewrite (bind_ok _ k s0 _ tt (results_append_ok key t s0
                                       ltac:(simpl; auto using log_append_present)));
        simpl logs; simpl stdout; simpl appends; simpl world
    end.
  rewrite !log_values_append_ne by discriminate.
  exists w6, (train_acc, train_loss, (validation_acc, validation_loss)).
  split; [|split; assumption].
  unfold bind, lift, py_mod. simpl. unfold appends_of_run. simpl.
  rewrite !Nat.add_0_r, <- !app_assoc. reflexivity.
Qed.

Lemma train_classifier_no_interval (max_epochs : Z) (s : St World float) :
  0 < max_epochs ->
  (0 < loader_len train_dataloader)%nat ->
  (0 < loader_len test_dataloader)%nat ->
  exists w m,
    train_classifier train_dataloader test_dataloader max_epochs 0 s
    = (Raise ZeroDivisionError,
       mk_St w (record_epoch m (logs s)) (stdout s)
             (appends s ++ appends_of_run train_classifier_keys (logs s) 1)).
Proof.
  intros Hpos Htrain Htest. unfold train_classifier.
  destruct (world_only_call (V := float) model_to s) as (w0 & u & Hs & _).
  rewrite (bind_ok _ _ _ _ _ Hs). rewrite (range_pos max_epochs Hpos).
  simpl for_each.
  destruct (train_classifier_epoch_no_interval max_epochs 0 (None, None)
              (mk_St w0 (logs s) (stdout s) (appends s)) Htrain Htest)
    as (w & m & Hepoch).
  rewrite (bind_raise _ _ _ _ _ (bind_raise _ _ _ _ _ Hepoch)).
  exists w, m. reflexivity.
Qed.

Lemma fresh_results_present :
  Forall (fun key => is_Some (fresh_results !! key)) training_cell_keys.
Proof.
  unfold training_cell_keys, fresh_results.
  repeat (apply Forall_cons; split;
          [rewrite ?lookup_insert_eq, ?lookup_insert_ne by discriminate; eauto|]).
  constructor.
Qed.

Lemma training_cell_no_interval (max_epochs : Z) (s : St World spec_float) :
  0 < max_epochs ->
  exists w c,
    training_cell train_dataloader test_dataloader max_epochs 0 s
    = (Raise ZeroDivisionError,
       mk_St w (record_cell_epoch (cell_means c) fresh_results) (stdout s)
             (appends s ++ appends_of_run training_cell_keys fresh_results 1))
    /\ cell_sized train_dataloader test_dataloader c.
Proof.
  intros Hpos. unfold training_cell. unfold bind at 1 2.
  rewrite (range_pos max_epochs Hpos). simpl for_each.
  destruct (cell_epoch_no_interval max_epochs 0
              (torch_zeros (loader_len train_dataloader),
               torch_zeros (loader_len train_dataloader),
               (torch_zeros (loader_len test_dataloader),
                torch_zeros (loader_len test_dataloader)))
              (mk_St (world s) fresh_results (stdout s) (appends s)))
    as (w & c & Hepoch & Hc).
  { unfold cell_sized, sized, torch_zeros; simpl.
    rewrite !repeat_length. repeat split. }
  { exact fresh_results_present. }
  unfold fresh_results in Hepoch |- *. simpl in Hepoch.
  rewrite (bind_raise _ _ _ _ _ Hepoch).
  exists w, c. split; [reflexivity|exact Hc].
Qed.

Lemma train_classifier_no_epoch (max_epochs log_every : Z) (s : St World float) :
  max_epochs <= 0 ->
  train_classifier train_dataloader test_dataloader max_epochs log_every s
  = (Ok (logs s), mk_St (model_to (world s)) (logs s) (stdout s) (appends s)).
Proof.
  intros Hn. unfold train_classifier. rewrite (range_nonpos _ Hn). reflexivity.
Qed.

Lemma training_cell_no_epoch (max_epochs log_every : Z) (s : St World spec_float) :
  max_epochs <= 0 ->
  training_cell train_dataloader test_dataloader max_epochs log_every s
  = (Ok tt, mk_St (world s) fresh_results (stdout s) (appends s)).
Proof.
  intros Hn. unfold training_cell. rewrite (range_nonpos _ Hn). reflexivity.
Qed.

End NoInterval.

(** X6 - [log_every = 0].  With at least one epoch to run and
    [log_every = 0], [train_classifier] over loaders that are not empty and
    the training cell of [02_convnets.ipynb] over any loaders fail with
    [ZeroDivisionError] at the test for the first progress line: the four
    means of the first epoch have been appended, each to the end of its
    sequence ([results] being the fresh dictionary in the cell), and
    nothing has been printed. *)
Theorem log_every_zero `{torch : Torch} (train_dataloader test_dataloader : Loader)
    (max_epochs : Z) :
  0 < max_epochs ->
  (forall s : St World float,
      (0 < loader_len train_dataloader)%nat ->
      (0 < loader_len test_dataloader)%nat ->
      exists s' (m : epoch_means float),
        train_classifier train_dataloader test_dataloader max_epochs 0 s
        = (Raise ZeroDivisionError, s')
        /\ stdout s' = stdout s
        /\ appends s'
           = appends s
             ++ map (fun key => (key, length (log_values key (logs s))))
                    train_classifier_keys
        /\ forall key,
             log_values key (logs s')
             = log_values key (logs s) ++ means_under train_classifier_keys m key)
  /\ (forall s : St World spec_float,
        exists s' (m : epoch_means spec_float),
          training_cell train_dataloader test_dataloader max_epochs 0 s
          = (Raise ZeroDivisionError, s')
          /\ stdout s' = stdout s
          /\ appends s' = appends s ++ map (fun key => (key, 0%nat)) training_cell_keys
          /\ forall key,
               log_values key (logs s') = means_under training_cell_keys m key).
Proof.
  intros Hpos. split.
  - intros s Htrain Htest.
    destruct (train_classifier_no_interval train_dataloader test_dataloader
                max_epochs s Hpos Htrain Htest) as (w & m & Hrun).
    eexists _, m. split; [exact Hrun|]. simpl. split; [reflexivity|].
    split.
    + unfold appends_of_run. simpl. rewrite !Nat.add_0_r. reflexivity.
    + intros key. apply record_epoch_values.
  - intros s.
    destruct (training_cell_no_interval train_dataloader test_dataloader
                max_epochs s Hpos) as (w & c & Hrun & _).
    eexists _, (cell_means c). split; [exact Hrun|]. simpl.
    split; [reflexivity|]. split; [reflexivity|].
    intros key. rewrite record_cell_epoch_values, fresh_results_values.
    reflexivity.
Qed.

Lemma log_every_zero_witness :
  exists s',
    train_classifier (toy_loader 2) (toy_loader 1) 3 0 toy_store
    = (Raise ZeroDivisionError, s')
    /\ stdout s' = [] /\ length (appends s') = 4%nat.
Proof.
  destruct (proj1 (log_every_zero (toy_loader 2) (toy_loader 1) 3 ltac:(lia))
              toy_store)
    as (s' & m & Hrun & Hout & Happ & _); [simpl; lia|simpl; lia|].
  exists s'. split; [exact Hrun|]. split; [exact Hout|].
  rewrite Happ. reflexivity.
Defined.

(** X7 - When the loops return.  [train_classifier] returns exactly when
    there is no epoch to run ([max_epochs <= 0]) or both loaders have
    batches and [log_every] is not 0; the training cell of
    [02_convnets.ipynb] returns exactly when there is no epoch to run or
    [log_every] is not 0.  Whenever one of them does not return, the
    exception is [ZeroDivisionError]: no path of [train_classifier] reaches
    the progress line with [train_loss] or [test_loss] unbound, and no
    assignment to a per-batch container of the cell is out of range. *)
Theorem loops_return `{torch : Torch} (train_dataloader test_dataloader : Loader)
    (max_epochs log_every : Z) :
  (forall s : St World float,
      let r := fst (train_classifier train_dataloader test_dataloader
                      max_epochs log_every s) in
      (is_ok r = true
       <-> max_epochs <= 0
           \/ ((0 < loader_len train_dataloader)%nat
               /\ (0 < loader_len test_dataloader)%nat /\ log_every <> 0))
      /\ (is_ok r = false -> r = Raise ZeroDivisionError))
  /\ (forall s : St World spec_float,
        let r := fst (training_cell train_dataloader test_dataloader
                        max_epochs log_every s) in
        (is_ok r = true <-> max_epochs <= 0 \/ log_every <> 0)
        /\ (is_ok r = false -> r = Raise ZeroDivisionError)).
Proof.
  split; intros s r; subst r.
  - destruct (Z_le_gt_dec max_epochs 0) as [Hn|Hpos].
    { rewrite (train_classifier_no_epoch _ _ _ _ s Hn). simpl.
      split; [tauto|discriminate]. }
    destruct (Nat.eq_dec (loader_len train_dataloader) 0%nat) as [Htrain|Htrain].
    { destruct (train_classifier_raise train_dataloader test_dataloader
                  max_epochs log_every s ltac:(lia) (or_introl Htrain))
        as (s' & -> & _).
      simpl. split; [|reflexivity]. split; [discriminate|lia]. }
    destruct (Nat.eq_dec (loader_len test_dataloader) 0%nat) as [Htest|Htest].
    { destruct (train_classifier_raise train_dataloader test_dataloader
                  max_epochs log_every s ltac:(lia) (or_intror Htest))
        as (s' & -> & _).
      simpl. split; [|reflexivity]. split; [discriminate|lia]. }
    destruct (Z.eq_dec log_every 0) as [->|Hle].
    { destruct (train_classifier_no_interval train_dataloader test_dataloader
                  max_epochs s ltac:(lia) ltac:(lia) ltac:(lia))
        as (w & m & ->).
      simpl. split; [|reflexivity]. split; [discriminate|lia]. }
    destruct (train_classifier_ok train_dataloader test_dataloader
                ltac:(lia) ltac:(lia) max_epochs log_every s Hle)
      as (w & ms & out & -> & _).
    simpl. split; [|discriminate]. split; [|reflexivity].
    intros _. right. repeat split; [lia|lia|exact Hle].
  - destruct (Z_le_gt_dec max_epochs 0) as [Hn|Hpos].
    { rewrite (training_cell_no_epoch _ _ _ _ s Hn). simpl.
      split; [tauto|discriminate]. }
    destruct (Z.eq_dec log_every 0) as [->|Hle].
    { destruct (training_cell_no_interval train_dataloader test_dataloader
                  max_epochs s ltac:(lia)) as (w & c & -> & _).
      simpl. split; [|reflexivity]. split; [discriminate|lia]. }
    destruct (training_cell_ok train_dataloader test_dataloader
                max_epochs log_every s Hle) as (w & ms & out & -> & _).
    simpl. split; [|discriminate]. split; [|reflexivity]. intros _. right. exact Hle.
Qed.

Lemma loops_return_witness :
  is_ok (fst (train_classifier (toy_loader 2) (toy_loader 1) 3 2 toy_store)) = true
  /\ fst (training_cell (toy_loader 0) (toy_loader 0) 3 0 toy_store)
     = Raise ZeroDivisionError.
Proof.
  split.
  - apply (proj1 (loops_return (toy_loader 2) (toy_loader 1) 3 2) toy_store).
    right. simpl. repeat split; try lia.
  - apply (proj2 (loops_return (toy_loader 0) (toy_loader 0) 3 0) toy_store).
    reflexivity.
Defined.

(** ** What the loops read of the store *)

Section StoreBlind.

Context `{torch : Torch}.
Context {V : Type}.

Lemma grown_refl (s : St World V) (w : World) :
  grown s (mk_St w (logs s) (stdout s) (appends s)) (fun _ => []) [] [].
Proof.
  split; [|split]; simpl.
  - intros key. rewrite app_nil_r. reflexivity.
  - rewrite app_nil_r. reflexivity.
  - rewrite app_nil_r. reflexivity.
Qed.

Lemma grown_same (s : St World V) : grown s s (fun _ => []) [] [].
Proof. destruct s as [w lg out ap]. apply (grown_refl (mk_St w lg out ap) w). Qed.

Lemma grown_trans (s s' s'' : St World V) (d d' : string -> list V)
    (out out' : list (Line V)) (rel rel' : list (string * nat)) :
  grown s s' d out rel -> grown s' s'' d' out' rel' ->
  grown s s'' (fun key => d key ++ d' key) (out ++ out')
        (rel ++ map (fun kp => (fst kp, (length (d (fst kp)) + snd kp)%nat)) rel').
Proof.
  intros (Hd & Hout & Hrel) (Hd' & Hout' & Hrel'). split; [|split].
  - intros key. rewrite Hd', Hd, app_assoc. reflexivity.
  - rewrite Hout', Hout, app_assoc. reflexivity.
  - rewrite Hrel', Hrel, map_app, map_map, <- app_assoc. do 2 f_equal.
    apply map_ext. intros [key i]. simpl.
    rewrite Hd, length_app, Nat.add_assoc. reflexivity.
Qed.

Lemma store_blind_ret {A : Type} (keys : list string) (a : A) :
  store_blind (V := V) keys (ret a).
Proof.
  intros s1 s2 Hw K1 K2. exists (fun _ => []), [], []. simpl.
  split; [reflexivity|]. split; [exact Hw|].
  split; [apply grown_same|]. split; [apply grown_same|]. split; assumption.
Qed.

Lemma store_blind_lift {A : Type} (keys : list string) (r : result A) :
  store_blind (V := V) keys (lift r).
Proof.
  intros s1 s2 Hw K1 K2. exists (fun _ => []), [], []. simpl.
  split; [reflexivity|]. split; [exact Hw|].
  split; [apply grown_same|]. split; [apply grown_same|]. split; assumption.
Qed.

Lemma store_blind_on_world {A : Type} (keys : list string)
    (f : World -> World * A) :
  store_blind (V := V) keys (on_world f).
Proof.
  intros s1 s2 Hw K1 K2. exists (fun _ => []), [], [].
  unfold on_world. rewrite <- Hw. destruct (f (world s1)) as [w a]. simpl.
  split; [reflexivity|]. split; [reflexivity|].
  split; [apply grown_refl|]. split; [apply grown_refl|]. split; assumption.
Qed.

Lemma store_blind_call (keys : list string) (f : World -> World) :
  store_blind (V := V) keys (call f).
Proof. apply store_blind_on_world. Qed.

Lemma store_blind_iterate (keys : list string) (loader : Loader) :
  store_blind (V := V) keys (iterate loader).
Proof. apply store_blind_on_world. Qed.

Lemma store_blind_print (keys : list string) (l : Line V) :
  store_blind keys (print l).
Proof.
  intros s1 s2 Hw K1 K2. exists (fun _ => []), [l], []. simpl.
  split; [reflexivity|]. split; [exact Hw|].
  split; [|split; [|split; assumption]];
    (split; [|split]; simpl; [intros key|..]; rewrite ?app_nil_r; reflexivity).
Qed.

Lemma store_blind_defaultdict_getitem (keys : list string) (key : string) :
  store_blind (V := V) keys (defaultdict_getitem key).
Proof.
  assert (Hone : forall s : St World V,
             world (snd (defaultdict_getitem key s)) = world s
             /\ fst (defaultdict_getitem key s) = Ok tt
             /\ grown s (snd (defaultdict_getitem key s)) (fun _ => []) [] []
             /\ (Forall (fun k => is_Some (logs s !! k)) keys ->
                 Forall (fun k => is_Some (logs (snd (defaultdict_getitem key s)) !! k))
                        keys)).
  { intros s. unfold defaultdict_getitem.
    destruct (logs s !! key) as [old|] eqn:Hold; simpl.
    - split; [reflexivity|]. split; [reflexivity|]. split; [|auto].
      apply grown_same.
    - split; [reflexivity|]. split; [reflexivity|]. split.
      + split; [|split]; simpl; rewrite ?app_nil_r; try reflexivity.
        intros k. unfold log_values.
        destruct (decide (k = key)) as [->|Hne].
        * rewrite lookup_insert_eq, Hold. reflexivity.
        * rewrite lookup_insert_ne by congruence. rewrite app_nil_r. reflexivity.
      + intros HK. eapply Forall_impl; [exact HK|]. intros k Hk. simpl in *.
        destruct (decide (k = key)) as [->|Hne].
        * rewrite lookup_insert_eq. eauto.
        * rewrite lookup_insert_ne by congruence. exact Hk. }
  intros s1 s2 Hw K1 K2. exists (fun _ => []), [], [].
  destruct (Hone s1) as (W1 & R1 & G1 & P1).
  destruct (Hone s2) as (W2 & R2 & G2 & P2).
  rewrite R1, R2, W1, W2. repeat split; auto; apply G1 || apply G2.
Qed.

Lemma store_blind_dict_getitem (keys : list string) (key : string) :
  key ∈ keys -> store_blind (V := V) keys (dict_getitem key).
Proof.
  intros Hin s1 s2 Hw K1 K2. exists (fun _ => []), [], [].
  pose proof (proj1 (Forall_forall _ _) K1 key Hin) as [old1 H1].
  pose proof (proj1 (Forall_forall _ _) K2 key Hin) as [old2 H2].
  unfold dict_getitem. rewrite H1, H2. simpl.
  split; [reflexivity|]. split; [exact Hw|].
  split; [apply grown_same|].
  split; [apply grown_same|]. split; assumption.
Qed.

Lemma store_blind_list_append (keys : list string) (key : string) (v : V) :
  store_blind keys (list_append key v).
Proof.
  assert (Hone : forall s : St World V,
             grown s (snd (list_append key v s))
                   (fun k => if decide (k = key) then [v] else []) [] [(key, 0%nat)]
             /\ (Forall (fun k => is_Some (logs s !! k)) keys ->
                 Forall (fun k => is_Some (logs (snd (list_append key v s)) !! k))
                        keys)).
  { intros s. unfold list_append. simpl. split.
    - split; [|split]; simpl; rewrite ?app_nil_r, ?Nat.add_0_r; try reflexivity.
      intros k. unfold log_values.
      destruct (decide (k = key)) as [->|Hne].
      + rewrite lookup_insert_eq. reflexivity.
      + rewrite lookup_insert_ne by congruence. rewrite app_nil_r. reflexivity.
    - intros HK. eapply Forall_impl; [exact HK|]. intros k Hk. simpl in *.
      destruct (decide (k = key)) as [->|Hne].
      + rewrite lookup_insert_eq. eauto.
      + rewrite lookup_insert_ne by congruence. exact Hk. }
  intros s1 s2 Hw K1 K2.
  exists (fun k => if decide (k = key) then [v] else []), [], [(key, 0%nat)].
  destruct (Hone s1) as (G1 & P1). destruct (Hone s2) as (G2 & P2).
  split; [reflexivity|]. split; [exact Hw|]. repeat split; auto; apply G1 || apply G2.
Qed.

Lemma store_blind_bind {A B : Type} (keys : list string)
    (c : M World V A) (k : A -> M World V B) :
  store_blind keys c -> (forall a, store_blind keys (k a)) ->
  store_blind keys (bind c k).
Proof.
  intros Hc Hk s1 s2 Hw K1 K2.
  destruct (Hc s1 s2 Hw K1 K2) as (d & out & rel & Hr & Hw' & G1 & G2 & P1 & P2).
  unfold bind.
  destruct (c s1) as [r1 s1'], (c s2) as [r2 s2']. simpl in *. subst r2.
  destruct r1 as [a|e].
  - destruct (Hk a s1' s2' Hw' P1 P2)
      as (d' & out' & rel' & Hr' & Hw'' & G1' & G2' & P1' & P2').
    eexists _, _, _. split; [exact Hr'|]. split; [exact Hw''|].
    split; [exact (grown_trans _ _ _ _ _ _ _ _ _ G1 G1')|].
    split; [exact (grown_trans _ _ _ _ _ _ _ _ _ G2 G2')|]. split; assumption.
  - exists d, out, rel. simpl. repeat split; auto; apply G1 || apply G2.
Qed.

Lemma store_blind_for_each {A L : Type} (keys : list string)
    (body : A -> L -> M World V L) (xs : list A) (l : L) :
  (forall x l, store_blind keys (body x l)) ->
  store_blind keys (for_each body xs l).
Proof.
  intros Hbody. revert l. induction xs as [|x xs IH]; intros l; simpl.
  - apply store_blind_ret.
  - apply store_blind_bind; [apply Hbody|exact IH].
Qed.

End StoreBlind.

Section LoopsStoreBlind.

Context `{torch : Torch}.
Variables train_dataloader test_dataloader : Loader.

Ltac blind :=
  repeat first
    [ apply store_blind_ret | apply store_blind_lift | apply store_blind_on_world
    | apply store_blind_call | apply store_blind_iterate | apply store_blind_print
    | apply store_blind_defaultdict_getitem | apply store_blind_list_append
    | apply store_blind_bind | intro ].

Lemma train_step_store_blind (keys : list string) (b : Batch) (l : acc_locals) :
  store_blind keys (train_step b l).
Proof. destruct l as [[loss_sum acc_sum] last]. unfold train_step. blind. Qed.

Lemma test_step_store_blind (keys : list string) (b : Batch) (l : acc_locals) :
  store_blind keys (test_step b l).
Proof. destruct l as [[loss_sum acc_sum] last]. unfold test_step. blind. Qed.

Lemma log_mean_store_blind (keys : list string) (key : string) (total : float)
    (loader : Loader) :
  store_blind keys (log_mean key total loader).
Proof. unfold log_mean. blind. Qed.

Lemma train_classifier_epoch_store_blind (keys : list string)
    (max_epochs log_every epoch : Z) (l : option Loss * option Loss) :
  store_blind keys (train_classifier_epoch train_dataloader test_dataloader
                      max_epochs log_every epoch l).
Proof.
  destruct l as [train_loss test_loss]. unfold train_classifier_epoch.
  apply store_blind_bind; [apply store_blind_call|]. intros _.
  apply store_blind_bind; [apply store_blind_iterate|]. intros bs.
  apply store_blind_bind;
    [apply store_blind_for_each; intros; apply train_step_store_blind|].
  intros [[train_loss_sum train_acc_sum] train_loss'].
  apply store_blind_bind; [apply store_blind_call|]. intros _.
  apply store_blind_bind; [apply store_blind_iterate|]. intros bs'.
  apply store_blind_bind;
    [apply store_blind_for_each; intros; apply test_step_store_blind|].
  intros [[test_loss_sum test_acc_sum] test_loss'].
  do 4 (apply store_blind_bind; [apply log_mean_store_blind|]; intros _).
  apply store_blind_bind; [apply store_blind_lift|]. intros r.
  apply store_blind_bind; [|intros _; apply store_blind_ret].
  destruct ((r =? 0) || (epoch + 1 =? max_epochs)); [|apply store_blind_ret].
  destruct train_loss' as [a|], test_loss' as [b|];
    first [apply store_blind_print | apply (store_blind_lift keys (Raise UnboundLocalError))].
Qed.

Lemma train_classifier_loop_store_blind (max_epochs log_every : Z) :
  store_blind (V := float) []
    (bind (call model_to)
          (fun _ => for_each (train_classifier_epoch train_dataloader test_dataloader
                                max_epochs log_every)
                             (range max_epochs) (None, None))).
Proof.
  apply store_blind_bind; [apply store_blind_call|]. intros _.
  apply store_blind_for_each. intros.
  apply train_classifier_epoch_store_blind.
Qed.

Lemma train_classifier_as_loop (max_epochs log_every : Z) (s : St World float) :
  train_classifier train_dataloader test_dataloader max_epochs log_every s
  = let r := bind (call model_to)
               (fun _ => for_each (train_classifier_epoch train_dataloader
                                     test_dataloader max_epochs log_every)
                                  (range max_epochs) (None, None)) s in
    (match fst r with Ok _ => Ok (logs (snd r)) | Raise e => Raise e end, snd r).
Proof.
  unfold train_classifier, bind. simpl.
  destruct (for_each _ _ _ _) as [[l|e] s']; reflexivity.
Qed.

Lemma cell_train_step_store_blind (keys : list string) (ib : nat * Batch)
    (l : containers) :
  store_blind keys (cell_train_step ib l).
Proof.
  destruct ib as [idx b], l as [train_acc train_loss]. unfold cell_train_step. blind.
Qed.

Lemma cell_validation_step_store_blind (keys : list string) (ib : nat * Batch)
    (l : containers) :
  store_blind keys (cell_validation_step ib l).
Proof.
  destruct ib as [idx b], l as [validation_acc validation_loss].
  unfold cell_validation_step. blind.
Qed.

Lemma results_append_store_blind (key : string) (t : list spec_float) :
  key ∈ training_cell_keys ->
  store_blind training_cell_keys (results_append key t).
Proof.
  intros Hin. unfold results_append.
  apply store_blind_bind; [apply store_blind_dict_getitem; exact Hin|].
  intros _. apply store_blind_list_append.
Qed.

Lemma cell_epoch_store_blind (max_epochs log_every epoch : Z)
    (l : containers * containers) :
  store_blind training_cell_keys
    (cell_epoch train_dataloader test_dataloader max_epochs log_every epoch l).
Proof.
  destruct l as [train validation]. unfold cell_epoch.
  apply store_blind_bind; [apply store_blind_call|]. intros _.
  apply store_blind_bind; [apply store_blind_iterate|]. intros bs.
  apply store_blind_bind;
    [apply store_blind_for_each; intros; apply cell_train_step_store_blind|].
  intros [train_acc train_loss].
  apply store_blind_bind; [apply store_blind_call|]. intros _.
  apply store_blind_bind; [apply store_blind_iterate|]. intros bs'.
  apply store_blind_bind;
    [apply store_blind_for_each; intros; apply cell_validation_step_store_blind|].
  intros [validation_acc validation_loss].
  apply store_blind_bind;
    [apply results_append_store_blind; apply list_elem_of_here|]. intros _.
  apply store_blind_bind;
    [apply results_append_store_blind; apply list_elem_of_further, list_elem_of_here|].
  intros _.
  apply store_blind_bind;
    [apply results_append_store_blind;
     do 2 apply list_elem_of_further; apply list_elem_of_here|].
  intros _.
  apply store_blind_bind;
    [apply results_append_store_blind;
     do 3 apply list_elem_of_further; apply list_elem_of_here|].
  intros _.
  apply store_blind_bind; [apply store_blind_lift|]. intros r.
  apply store_blind_bind; [|intros _; apply store_blind_ret].
  destruct ((r =? 0) || (epoch + 1 =? max_epochs));
    [apply store_blind_print|apply store_blind_ret].
Qed.

Lemma training_cell_loop_store_blind (max_epochs log_every : Z)
    (l : containers * containers) :
  store_blind training_cell_keys
    (bind (for_each (cell_epoch train_dataloader test_dataloader
                       max_epochs log_every) (range max_epochs) l)
          (fun _ => ret tt)).
Proof.
  apply store_blind_bind; [|intros _; apply store_blind_ret].
  apply store_blind_for_each. intros. apply cell_epoch_store_blind.
Qed.

End LoopsStoreBlind.

(** X8 - The loops read nothing of the store but the PyTorch side.  Two
    runs of [train_classifier] with the same arguments, on stores that
    agree on the PyTorch side - model, optimizer, generators - and differ
    in anything else (what [logs] holds, what has been printed), end alike
    (both return, or both raise the same exception), reach the same
    PyTorch side, append the same values under every key, each to the end
    of its sequence, and print the same lines.  Two such runs of the
    training cell of [02_convnets.ipynb] end alike, reach the same PyTorch
    side, leave the same values in [results], make the same [append] calls
    and print the same lines. *)
Theorem loops_read_no_logs `{torch : Torch} (train_dataloader test_dataloader : Loader)
    (max_epochs log_every : Z) :
  (forall s1 s2 : St World float,
      world s1 = world s2 ->
      let r1 := train_classifier train_dataloader test_dataloader
                  max_epochs log_every s1 in
      let r2 := train_classifier train_dataloader test_dataloader
                  max_epochs log_every s2 in
      exists d out rel,
        outcome (fst r1) = outcome (fst r2)
        /\ world (snd r1) = world (snd r2)
        /\ grown s1 (snd r1) d out rel
        /\ grown s2 (snd r2) d out rel)
  /\ (forall s1 s2 : St World spec_float,
        world s1 = world s2 ->
        let r1 := training_cell train_dataloader test_dataloader
                    max_epochs log_every s1 in
        let r2 := training_cell train_dataloader test_dataloader
                    max_epochs log_every s2 in
        fst r1 = fst r2
        /\ world (snd r1) = world (snd r2)
        /\ (forall key, log_values key (logs (snd r1)) = log_values key (logs (snd r2)))
        /\ exists out calls,
             stdout (snd r1) = stdout s1 ++ out
             /\ stdout (snd r2) = stdout s2 ++ out
             /\ appends (snd r1) = appends s1 ++ calls
             /\ appends (snd r2) = appends s2 ++ calls).
Proof.
  split.
  - intros s1 s2 Hw r1 r2. subst r1 r2.
    rewrite !train_classifier_as_loop.
    destruct (train_classifier_loop_store_blind train_dataloader test_dataloader
                max_epochs log_every s1 s2 Hw (Forall_nil_2 _) (Forall_nil_2 _))
      as (d & out & rel & Hr & Hw' & G1 & G2 & _).
    exists d, out, rel. cbv zeta. simpl fst. simpl snd.
    split; [|split; [exact Hw'|split; [exact G1|exact G2]]].
    rewrite <- Hr.
    match goal with |- context [fst ?r] => destruct (fst r); reflexivity end.
  - intros s1 s2 Hw r1 r2. subst r1 r2.
    unfold training_cell. unfold bind at 1 3.
    match goal with
    | |- context [bind (for_each ?body ?xs ?l) ?k] =>
        pose proof (training_cell_loop_store_blind train_dataloader test_dataloader
                      max_epochs log_every l
                      (mk_St (world s1) fresh_results (stdout s1) (appends s1))
                      (mk_St (world s2) fresh_results (stdout s2) (appends s2))
                      Hw fresh_results_present fresh_results_present)
          as (d & out & rel & Hr & Hw' & G1 & G2 & _)
    end.
    unfold fresh_results in *.
    destruct G1 as (D1 & O1 & A1), G2 as (D2 & O2 & A2). simpl in *.
    split; [exact Hr|]. split; [exact Hw'|]. split.
    + intros key. rewrite D1, D2. reflexivity.
    + eexists out, _. split; [exact O1|]. split; [exact O2|].
      split; [exact A1|exact A2].
Qed.

Lemma loops_read_no_logs_witness :
  exists d out rel,
    grown (mk_St 0%nat ∅ [] [])
          (snd (train_classifier (toy_loader 2) (toy_loader 1) 2 1
                  (mk_St 0%nat ∅ [] []))) d out rel
    /\ grown (mk_St 0%nat (<["train_loss" := [1%float]]> ∅) [] [("train_loss", 0%nat)])
             (snd (train_classifier (toy_loader 2) (toy_loader 1) 2 1
                     (mk_St 0%nat (<["train_loss" := [1%float]]> ∅) []
                            [("train_loss", 0%nat)]))) d out rel.
Proof.
  destruct (proj1 (loops_read_no_logs (toy_loader 2) (toy_loader 1) 2 1)
              (mk_St 0%nat ∅ [] [])
              (mk_St 0%nat (<["train_loss" := [1%float]]> ∅) [] [("train_loss", 0%nat)])
              eq_refl)
    as (d & out & rel & _ & _ & G1 & G2).
  exists d, out, rel. split; [exact G1|exact G2].
Defined.

(** ** The two loops as training procedures *)

Section SameTraining.

Context `{torch : Torch}.











Lemma same_training_weaken {V1 V2 A B : Type} (R Q : A -> B -> Prop)
    (c1 : M World V1 A) (c2 : M World V2 B) :
  same_training R c1 c2 -> (forall a b, R a b -> Q a b) -> same_training Q c1 c2.
Proof.
  intros Hc HRQ s1 s2 a b s1' s2' Hw E1 E2.
  destruct (Hc s1 s2 a b s1' s2' Hw E1 E2). auto.
Qed.



Variables train_dataloader test_dataloader : Loader.





End SameTraining.



(** * Properties of the convolutional networks *)

Lemma sequential_app (l1 l2 : list layer) (x : list Z) :
  sequential (l1 ++ l2) x = (let! y := sequential l1 x in sequential l2 y).
Proof.
  revert x. induction l1 as [|l l1 IH]; intros x; simpl; [reflexivity|].
  destruct (layer_forward l x); simpl; [apply IH|reflexivity].
Qed.

Lemma convnets_init_ok (nlayers nchannels : Z) :
  0 <= nchannels ->
  Convnets.MyCNN.init nlayers nchannels
  = Ok [Conv1d 1 nchannels 5 2 2 zeros; ReLU;
        Conv1d nchannels nchannels 5 2 2 zeros; ReLU;
        Conv1d nchannels nchannels 3 1 1 zeros; ReLU;
        Flatten; Linear (nchannels * 10) 10].
Proof.
  intros Hn. unfold Convnets.MyCNN.init, layer_init. simpl.
  assert (H1 : (0 <=? nchannels) = true) by (apply Z.leb_le; lia).
  assert (H2 : (0 <=? nchannels * 10) = true) by (apply Z.leb_le; lia).
  rewrite H1, H2. reflexivity.
Qed.

Lemma convnets_forward_spec (nchannels B C L : Z) :
  0 < nchannels ->
  sequential [Conv1d 1 nchannels 5 2 2 zeros; ReLU;
              Conv1d nchannels nchannels 5 2 2 zeros; ReLU;
              Conv1d nchannels nchannels 3 1 1 zeros; ReLU;
              Flatten; Linear (nchannels * 10) 10] [B; C; L]
  = if (C =? 1) && (37 <=? L) && (L <=? 40) then Ok [B; 10]
    else Raise RuntimeError.
Proof.
  intros Hn. simpl.
  destruct (C =? 1) eqn:HC; simpl; [|reflexivity].
  unfold conv1d_length.
  destruct ((L <=? 0) || (L + 2 * 2 <? 5)) eqn:H1; simpl.
  { apply orb_true_iff in H1.
    destruct (37 <=? L) eqn:H37; [|reflexivity].
    apply Z.leb_le in H37. rewrite Z.leb_le, Z.ltb_lt in H1. lia. }
  apply orb_false_iff in H1 as [H1 H1']. apply Z.leb_gt in H1.
  rewrite Z.eqb_refl. simpl.
  set (L1 := (L + 2 * 2 - 5) / 2 + 1).
  assert (HL1 : 2 * L1 - 1 <= L <= 2 * L1).
  { subst L1. pose proof (Z.div_mod (L + 2 * 2 - 5) 2 ltac:(lia)).
    pose proof (Z.mod_pos_bound (L + 2 * 2 - 5) 2 ltac:(lia)). lia. }
  destruct ((L1 <=? 0) || (L1 + 2 * 2 <? 5)) eqn:H2; simpl.
  { apply orb_true_iff in H2. rewrite Z.leb_le, Z.ltb_lt in H2. lia. }
  rewrite Z.eqb_refl. simpl.
  set (L2 := (L1 + 2 * 2 - 5) / 2 + 1).
  assert (HL2 : 2 * L2 - 1 <= L1 <= 2 * L2).
  { subst L2. pose proof (Z.div_mod (L1 + 2 * 2 - 5) 2 ltac:(lia)).
    pose proof (Z.mod_pos_bound (L1 + 2 * 2 - 5) 2 ltac:(lia)). lia. }
  destruct ((L2 <=? 0) || (L2 + 2 * 1 <? 3)) eqn:H3; simpl.
  { apply orb_true_iff in H3. rewrite Z.leb_le, Z.ltb_lt in H3. lia. }
  replace ((L2 + 2 * 1 - 3) / 1 + 1) with L2 by (rewrite Z.div_1_r; lia).
  destruct (nchannels * L2 =? nchannels * 10) eqn:HF; simpl.
  - apply Z.eqb_eq in HF. assert (L2 = 10) by nia.
    destruct (37 <=? L) eqn:H37; [|apply Z.leb_gt in H37; lia].
    destruct (L <=? 40) eqn:H40; [|apply Z.leb_gt in H40; lia].
    reflexivity.
  - apply Z.eqb_neq in HF.
    destruct (37 <=? L) eqn:H37; [|reflexivity].
    destruct (L <=? 40) eqn:H40; [|reflexivity].
    apply Z.leb_le in H37, H40. exfalso. apply HF.
    assert (L2 = 10) by lia. subst. congruence.
Qed.

(** X10 - The inputs the network of [02_convnets.ipynb] accepts.
    [MyCNN(nlayers, nchannels)] with a positive number of channels has
    [8 * nchannels^2 + 108 * nchannels + 10] parameters, whatever
    [nlayers] is.  Its forward pass on a batch of shape [(B, C, L)] returns
    exactly when there is one input channel and the signal has between 37
    and 40 elements, and then returns logits of shape [(B, 10)]; on any
    other number of channels or length it raises [RuntimeError]. *)
Theorem mycnn_accepts (nlayers nchannels : Z) (self : list layer) :
  0 < nchannels ->
  Convnets.MyCNN.init nlayers nchannels = Ok self ->
  Convnets.MyCNN.count_params self = 8 * nchannels ^ 2 + 108 * nchannels + 10
  /\ forall B C L : Z,
       Convnets.MyCNN.forward self [B; C; L]
       = if (C =? 1) && (37 <=? L) && (L <=? 40) then Ok [B; 10]
         else Raise RuntimeError.
Proof.
  intros Hn. rewrite convnets_init_ok by lia. intros [= <-]. split.
  - unfold Convnets.MyCNN.count_params, sum_numel, numel. simpl. ring.
  - intros B C L. apply convnets_forward_spec. exact Hn.
Qed.

Lemma mycnn_accepts_witness :
  exists self,
    Convnets.MyCNN.init 3 32 = Ok self
    /\ Convnets.MyCNN.count_params self = 11658
    /\ Convnets.MyCNN.forward self [64; 1; 40] = Ok [64; 10].
Proof.
  destruct (Convnets.MyCNN.init 3 32) as [self|] eqn:Hinit;
    [|vm_compute in Hinit; discriminate].
  exists self. split; [reflexivity|].
  destruct (mycnn_accepts 3 32 self ltac:(lia) Hinit) as [Hcount Hfwd].
  split; [exact Hcount|exact (Hfwd 64 1 40)].
Defined.

(** ** The network of the representation-learning notebook *)

(** The length of a signal after [k] halvings, each rounding up. *)
Lemma halved_length (len m : Z) :
  0 < m -> ((len + 1) / 2 + m - 1) / m = (len + 2 * m - 1) / (2 * m).
Proof.
  intros Hm.
  replace ((len + 1) / 2 + m - 1) with ((len + 1 + (m - 1) * 2) / 2)
    by (rewrite Z.div_add by lia; lia).
  rewrite Z.div_div by lia. f_equal. lia.
Qed.

Lemma halved_small (len m : Z) : (len + 1) / 2 <= m <-> len <= 2 * m.
Proof.
  pose proof (Z.div_mod (len + 1) 2 ltac:(lia)).
  pose proof (Z.mod_pos_bound (len + 1) 2 ltac:(lia)). lia.
Qed.

(** One block on a batch of signals of length [len]: the strided
    convolution halves the length, the normalization rejects a single
    element. *)
Lemma block_forward (p : float) (old new B len : Z) :
  sequential (Latent.MyCNN.block p (old, new)) [B; old; len]
  = if len <=? 0 then Raise RuntimeError
    else if len <=? 2 then Raise ValueError
    else Ok [B; new; (len + 1) / 2].
Proof.
  simpl. rewrite Z.eqb_refl. simpl. unfold conv1d_length.
  destruct (len <=? 0) eqn:H0; simpl.
  { reflexivity. }
  apply Z.leb_gt in H0.
  replace (len + 2 * 1 <? 3) with false by (symmetry; apply Z.ltb_ge; lia).
  simpl. rewrite Z.eqb_refl. simpl.
  replace ((len + 2 * 1 - 3) / 2 + 1) with ((len + 1) / 2)
    by (replace (len + 1) with (len + 2 * 1 - 3 + 1 * 2) by lia;
        rewrite Z.div_add by lia; reflexivity).
  set (l1 := (len + 1) / 2).
  assert (Hl1 : 2 * l1 - 1 <= len <= 2 * l1).
  { subst l1. pose proof (Z.div_mod (len + 1) 2 ltac:(lia)).
    pose proof (Z.mod_pos_bound (len + 1) 2 ltac:(lia)). lia. }
  replace ((l1 <=? 0) || (l1 + 2 * 1 <? 3)) with false
    by (symmetry; apply orb_false_iff; split;
        [apply Z.leb_gt|apply Z.ltb_ge]; lia).
  simpl. replace ((l1 + 2 * 1 - 3) / 1 + 1) with l1 by (rewrite Z.div_1_r; lia).
  destruct (l1 =? 1) eqn:H1.
  - apply Z.eqb_eq in H1.
    replace (len <=? 2) with true by (symmetry; apply Z.leb_le; lia). reflexivity.
  - apply Z.eqb_neq in H1.
    replace (len <=? 2) with false by (symmetry; apply Z.leb_gt; lia). reflexivity.
Qed.

Lemma last_nonempty (x : Z) (l : list Z) (d d' : Z) :
  List.last (x :: l) d = List.last (x :: l) d'.
Proof.
  revert x. induction l as [|y l IH]; intros x; [reflexivity|].
  change (List.last (y :: l) d = List.last (y :: l) d'). apply IH.
Qed.

Lemma blocks_forward (p : float) (cs : list Z) (c B len : Z) :
  sequential (flat_map (Latent.MyCNN.block p) (combine (removelast (c :: cs)) cs))
             [B; c; len]
  = match cs with
    | [] => Ok [B; c; len]
    | _ =>
        let m := 2 ^ Z.of_nat (length cs) in
        if len <=? 0 then Raise RuntimeError
        else if len <=? m then Raise ValueError
        else Ok [B; List.last cs c; (len + m - 1) / m]
    end.
Proof.
  revert c len. induction cs as [|c1 cs IH]; intros c len; [reflexivity|].
  change (removelast (c :: c1 :: cs)) with (c :: removelast (c1 :: cs)).
  change (combine (c :: removelast (c1 :: cs)) (c1 :: cs))
    with ((c, c1) :: combine (removelast (c1 :: cs)) cs).
  change (flat_map (Latent.MyCNN.block p) ((c, c1) :: combine (removelast (c1 :: cs)) cs))
    with (Latent.MyCNN.block p (c, c1)
          ++ flat_map (Latent.MyCNN.block p) (combine (removelast (c1 :: cs)) cs)).
  rewrite sequential_app, block_forward.
  cbv zeta. rewrite length_cons, Nat2Z.inj_succ, Z.pow_succ_r by lia.
  set (m := 2 ^ Z.of_nat (length cs)).
  assert (Hm : 0 < m) by (subst m; apply Z.pow_pos_nonneg; lia).
  destruct (len <=? 0) eqn:H0; [reflexivity|]. apply Z.leb_gt in H0.
  destruct (len <=? 2) eqn:H2.
  { apply Z.leb_le in H2.
    replace (len <=? 2 * m) with true by (symmetry; apply Z.leb_le; lia).
    reflexivity. }
  apply Z.leb_gt in H2. cbn [rbind]. rewrite IH.
  destruct cs as [|c2 cs'].
  - subst m. change (2 * 2 ^ Z.of_nat (length (@nil Z))) with 2.
    replace (len <=? 2) with false by (symmetry; apply Z.leb_gt; lia).
    replace (len + 2 - 1) with (len + 1) by lia. reflexivity.
  - cbv zeta. fold m.
    assert (H1 : 0 < (len + 1) / 2).
    { pose proof (Z.div_mod (len + 1) 2 ltac:(lia)).
      pose proof (Z.mod_pos_bound (len + 1) 2 ltac:(lia)). lia. }
    replace ((len + 1) / 2 <=? 0) with false by (symmetry; apply Z.leb_gt; lia).
    pose proof (halved_small len m) as Hsmall.
    destruct ((len + 1) / 2 <=? m) eqn:Hle.
    + apply Z.leb_le in Hle.
      replace (len <=? 2 * m) with true by (symmetry; apply Z.leb_le; tauto).
      reflexivity.
    + apply Z.leb_gt in Hle.
      replace (len <=? 2 * m) with false by (symmetry; apply Z.leb_gt; lia).
      rewrite halved_length by lia.
      change (List.last (c1 :: c2 :: cs') c) with (List.last (c2 :: cs') c).
      rewrite (last_nonempty c2 cs' c1 c). reflexivity.
Qed.

Lemma mapM_app_ok {A B : Type} (f : A -> result B) (l1 l2 : list A)
    (r1 r2 : list B) :
  mapM f l1 = Ok r1 -> mapM f l2 = Ok r2 -> mapM f (l1 ++ l2) = Ok (r1 ++ r2).
Proof.
  revert r1. induction l1 as [|x l1 IH]; intros r1; simpl.
  - intros [= <-] H2. exact H2.
  - destruct (f x) as [b|]; [|discriminate]. simpl.
    destruct (mapM f l1) as [bs|]; [|discriminate]. simpl.
    intros [= <-] H2. rewrite (IH bs eq_refl H2). reflexivity.
Qed.

Lemma blocks_init (p : float) (cs : list Z) (c : Z) :
  0 <= c -> Forall (fun n => 0 < n) cs ->
  ((p <? 0) || (1 <? p))%float = false ->
  mapM layer_init
       (flat_map (Latent.MyCNN.block p) (combine (removelast (c :: cs)) cs))
  = Ok (flat_map (Latent.MyCNN.block p) (combine (removelast (c :: cs)) cs)).
Proof.
  intros Hc Hcs Hp. revert c Hc.
  induction Hcs as [|c1 cs Hc1 _ IH]; intros c Hc; [reflexivity|].
  change (removelast (c :: c1 :: cs)) with (c :: removelast (c1 :: cs)).
  change (combine (c :: removelast (c1 :: cs)) (c1 :: cs))
    with ((c, c1) :: combine (removelast (c1 :: cs)) cs).
  change (flat_map (Latent.MyCNN.block p) ((c, c1) :: combine (removelast (c1 :: cs)) cs))
    with (Latent.MyCNN.block p (c, c1)
          ++ flat_map (Latent.MyCNN.block p) (combine (removelast (c1 :: cs)) cs)).
  apply mapM_app_ok; [|apply IH; lia].
  unfold Latent.MyCNN.block, layer_init. simpl.
  replace (0 <=? c1) with true by (symmetry; apply Z.leb_le; lia).
  replace (0 <=? c) with true by (symmetry; apply Z.leb_le; lia).
  simpl. rewrite Hp. reflexivity.
Qed.

Lemma last_positive (cs : list Z) (c : Z) :
  0 < c -> Forall (fun n => 0 < n) cs -> 0 < List.last cs c.
Proof.
  intros Hc Hcs. induction Hcs as [|c1 cs Hc1 Hcs IH]; [exact Hc|].
  destruct cs; [exact Hc1|]. exact IH.
Qed.

Lemma latent_layers_forward (p : float) (channels : list Z) (B len : Z) :
  sequential (flat_map (Latent.MyCNN.block p)
                       (combine (removelast (1 :: channels)) channels)
              ++ [Flatten]) [B; 1; len]
  = let m := 2 ^ Z.of_nat (length channels) in
    if bool_decide (channels = []) then Ok [B; List.last channels 1 * ((len + m - 1) / m)]
    else if len <=? 0 then Raise RuntimeError
    else if len <=? m then Raise ValueError
    else Ok [B; List.last channels 1 * ((len + m - 1) / m)].
Proof.
  rewrite sequential_app, blocks_forward. destruct channels as [|c cs].
  - simpl. rewrite Z.div_1_r. do 3 f_equal. lia.
  - rewrite bool_decide_eq_false_2 by discriminate. cbv zeta.
    set (m := 2 ^ Z.of_nat (length (c :: cs))).
    destruct (len <=? 0); [reflexivity|].
    destruct (len <=? m); [reflexivity|]. reflexivity.
Qed.

Lemma latent_forward_3d (self : Latent.MyCNN.t) (B c len : Z) :
  Latent.MyCNN.forward self [B; c; len]
  = (let! latent_cnn := sequential (Latent.MyCNN.layers self) [B; c; len] in
     let! out := sequential (Latent.MyCNN.final_layers self) latent_cnn in
     Ok (out, latent_cnn)).
Proof. reflexivity. Qed.

Section LatentShapes.

Variable channels : list Z.
Variables input_ndim output_ndim mlp_hidden_ndim : Z.
Variable dropout_p : float.

Hypothesis channels_positive : Forall (fun n => 0 < n) channels.
Hypothesis input_ndim_nonneg : 0 <= input_ndim.
Hypothesis output_ndim_nonneg : 0 <= output_ndim.
Hypothesis mlp_hidden_ndim_nonneg : 0 <= mlp_hidden_ndim.
Hypothesis dropout_p_valid : ((dropout_p <? 0) || (1 <? dropout_p))%float = false.

Let m := 2 ^ Z.of_nat (length channels).
Let in_features := List.last channels 1 * ((input_ndim + m - 1) / m).

Lemma halvings_positive : 0 < m.
Proof. subst m. apply Z.pow_pos_nonneg; lia. Qed.

Lemma ceil_nonneg (len : Z) : 0 <= len -> 0 <= (len + m - 1) / m.
Proof. pose proof halvings_positive. intros Hlen. apply Z.div_pos; lia. Qed.

Lemma ceil_small (len : Z) : (len + m - 1) / m <= 1 <-> len <= m.
Proof.
  pose proof halvings_positive.
  pose proof (Z.div_mod (len + m - 1) m ltac:(lia)).
  pose proof (Z.mod_pos_bound (len + m - 1) m ltac:(lia)). nia.
Qed.

Lemma ceil_zero (len : Z) : (len + m - 1) / m <= 0 <-> len <= 0.
Proof.
  pose proof halvings_positive.
  pose proof (Z.div_mod (len + m - 1) m ltac:(lia)).
  pose proof (Z.mod_pos_bound (len + m - 1) m ltac:(lia)). nia.
Qed.

Lemma latent_init_spec :
  Latent.MyCNN.init channels input_ndim output_ndim mlp_hidden_ndim dropout_p
  = if bool_decide (channels = []) || (m <? input_ndim)
    then Ok (Latent.MyCNN.mk
               (flat_map (Latent.MyCNN.block dropout_p)
                         (combine (removelast (1 :: channels)) channels)
                ++ [Flatten])
               [Linear in_features mlp_hidden_ndim; ReLU;
                Linear mlp_hidden_ndim output_ndim])
    else Raise (if input_ndim =? 0 then RuntimeError else ValueError).
Proof.
  pose proof halvings_positive as Hm.
  assert (Hlast : 0 < List.last channels 1)
    by (apply last_positive; [lia|exact channels_positive]).
  unfold Latent.MyCNN.init.
  change (tail (1 :: channels)) with channels.
  rewrite (blocks_init dropout_p channels 1 ltac:(lia) channels_positive
             dropout_p_valid).
  cbn [rbind].
  replace (input_ndim <? 0) with false by (symmetry; apply Z.ltb_ge; lia).
  cbn [rbind]. rewrite latent_layers_forward. cbv zeta. fold m.
  assert (Hinit : forall f, 0 <= f ->
             (let! in_features := index_int [1; f] (-1) in
              let! l1 := layer_init (Linear in_features mlp_hidden_ndim) in
              let! l2 := layer_init (Linear mlp_hidden_ndim output_ndim) in
              Ok (Latent.MyCNN.mk
                    (flat_map (Latent.MyCNN.block dropout_p)
                              (combine (removelast (1 :: channels)) channels)
                     ++ [Flatten]) [l1; ReLU; l2]))
             = Ok (Latent.MyCNN.mk
                     (flat_map (Latent.MyCNN.block dropout_p)
                               (combine (removelast (1 :: channels)) channels)
                      ++ [Flatten])
                     [Linear f mlp_hidden_ndim; ReLU;
                      Linear mlp_hidden_ndim output_ndim])).
  { intros f Hf. unfold index_int, layer_init. simpl.
    replace (0 <=? f) with true by (symmetry; apply Z.leb_le; lia).
    replace (0 <=? mlp_hidden_ndim) with true by (symmetry; apply Z.leb_le; lia).
    replace (0 <=? output_ndim) with true by (symmetry; apply Z.leb_le; lia).
    reflexivity. }
  destruct (bool_decide (channels = [])) eqn:Hnil; simpl orb.
  - cbn [rbind]. apply Hinit.
    apply Z.mul_nonneg_nonneg; [lia|apply ceil_nonneg; lia].
  - destruct (input_ndim <=? 0) eqn:H0.
    { apply Z.leb_le in H0.
      replace (m <? input_ndim) with false by (symmetry; apply Z.ltb_ge; lia).
      replace (input_ndim =? 0) with true by (symmetry; apply Z.eqb_eq; lia).
      reflexivity. }
    apply Z.leb_gt in H0.
    replace (input_ndim =? 0) with false by (symmetry; apply Z.eqb_neq; lia).
    destruct (input_ndim <=? m) eqn:H1.
    { apply Z.leb_le in H1.
      replace (m <? input_ndim) with false by (symmetry; apply Z.ltb_ge; lia).
      reflexivity. }
    apply Z.leb_gt in H1.
    replace (m <? input_ndim) with true by (symmetry; apply Z.ltb_lt; lia).
    cbn [rbind]. apply Hinit.
    apply Z.mul_nonneg_nonneg; [lia|apply ceil_nonneg; lia].
Qed.

Lemma latent_forward_spec (B len : Z) :
  0 <= len ->
  bool_decide (channels = []) || (m <? input_ndim) = true ->
  let r := Latent.MyCNN.forward
             (Latent.MyCNN.mk
                (flat_map (Latent.MyCNN.block dropout_p)
                          (combine (removelast (1 :: channels)) channels)
                 ++ [Flatten])
                [Linear in_features mlp_hidden_ndim; ReLU;
                 Linear mlp_hidden_ndim output_ndim]) [B; 1; len] in
  (is_ok r = true <-> (len + m - 1) / m = (input_ndim + m - 1) / m)
  /\ ((len + m - 1) / m = (input_ndim + m - 1) / m ->
      r = Ok ([B; output_ndim], [B; in_features])).
Proof.
  intros Hlen Hok r. subst r.
  pose proof halvings_positive as Hm.
  assert (Hlast : 0 < List.last channels 1)
    by (apply last_positive; [lia|exact channels_positive]).
  rewrite latent_forward_3d. cbn [Latent.MyCNN.layers Latent.MyCNN.final_layers].
  rewrite latent_layers_forward. cbv zeta. fold m.
  assert (Hfinal : forall k : Z,
             (let! out := sequential
                            [Linear in_features mlp_hidden_ndim; ReLU;
                             Linear mlp_hidden_ndim output_ndim]
                            [B; List.last channels 1 * k] in
              Ok (out, [B; List.last channels 1 * k]))
             = if k =? (input_ndim + m - 1) / m
               then Ok ([B; output_ndim], [B; in_features])
               else Raise RuntimeError).
  { intros k. subst in_features. simpl.
    destruct (k =? (input_ndim + m - 1) / m) eqn:Hk.
    - apply Z.eqb_eq in Hk. subst k. rewrite Z.eqb_refl. simpl.
      rewrite Z.eqb_refl. reflexivity.
    - apply Z.eqb_neq in Hk.
      replace (List.last channels 1 * k
               =? List.last channels 1 * ((input_ndim + m - 1) / m)) with false
        by (symmetry; apply Z.eqb_neq; nia).
      reflexivity. }
  apply orb_true_iff in Hok.
  destruct (bool_decide (channels = [])) eqn:Hnil.
  - cbn [rbind]. rewrite Hfinal.
    destruct ((len + m - 1) / m =? (input_ndim + m - 1) / m) eqn:Hk.
    + apply Z.eqb_eq in Hk. split; [simpl; tauto|]. intros _. reflexivity.
    + apply Z.eqb_neq in Hk. split; [simpl; split; [discriminate|tauto]|tauto].
  - destruct Hok as [Hok|Hok]; [discriminate|]. apply Z.ltb_lt in Hok.
    assert (Hbig : 1 < (input_ndim + m - 1) / m)
      by (pose proof (ceil_small input_ndim); lia).
    destruct (len <=? 0) eqn:H0.
    { apply Z.leb_le in H0. pose proof (proj2 (ceil_zero len) H0).
      cbn [rbind is_ok]. split; [split; [discriminate|lia]|lia]. }
    destruct (len <=? m) eqn:H1.
    { apply Z.leb_le in H1. pose proof (proj2 (ceil_small len) H1).
      cbn [rbind is_ok]. split; [split; [discriminate|lia]|lia]. }
    cbn [rbind]. rewrite Hfinal.
    destruct ((len + m - 1) / m =? (input_ndim + m - 1) / m) eqn:Hk.
    + apply Z.eqb_eq in Hk. split; [simpl; tauto|]. intros _. reflexivity.
    + apply Z.eqb_neq in Hk. split; [simpl; split; [discriminate|tauto]|tauto].
Qed.

End LatentShapes.



(** ** From the dataset to the networks *)

Lemma fetch_shape (self : MNIST1D.t) (batch : list Z) :
  length (MNIST1D.y self) = length (rows (MNIST1D.X self)) ->
  batch <> [] ->
  Forall (fun index => 0 <= index < MNIST1D.len self) batch ->
  exists (Xb : FloatTensor) (yb : LongTensor),
    fetch self batch = Ok (Xb, yb)
    /\ ft_shape Xb = [length batch; 1%nat; ncols (MNIST1D.X self)]
    /\ lt_shape yb = [length batch].
Proof.
  intros Hy Hne Hbatch.
  destruct (mapM_Forall
              (fun s : FloatTensor * LongTensor =>
                 ft_shape (fst s) = [1%nat; ncols (MNIST1D.X self)]
                 /\ lt_shape (snd s) = [])
              (MNIST1D.getitem self) batch) as (samples & Hsamples & Hshapes & Hlen).
  { eapply Forall_impl; [exact Hbatch|]. intros index Hrange.
    unfold MNIST1D.len in Hrange.
    assert (Hlt : (Z.to_nat index < length (rows (MNIST1D.X self)))%nat) by lia.
    destruct (lookup_lt_is_Some_2 _ _ Hlt) as [row Hrow].
    rewrite <- Hy in Hlt.
    destruct (lookup_lt_is_Some_2 _ _ Hlt) as [label Hlabel].
    eexists. split; [apply (getitem_at self index row label); [lia|assumption..]|].
    split; reflexivity. }
  assert (Hsne : samples <> []).
  { intros ->. destruct batch; [congruence|discriminate]. }
  destruct (stack_float_shape (map fst samples) [1%nat; ncols (MNIST1D.X self)])
    as (Xb & HXb & HXs).
  { destruct samples; [congruence|discriminate]. }
  { apply Forall_map. eapply Forall_impl; [exact Hshapes|]. intros s [Hs _]. exact Hs. }
  destruct (stack_long_shape (map snd samples) []) as (yb & Hyb & Hys).
  { destruct samples; [congruence|discriminate]. }
  { apply Forall_map. eapply Forall_impl; [exact Hshapes|]. intros s [_ Hs]. exact Hs. }
  exists Xb, yb. unfold fetch. rewrite Hsamples. simpl. rewrite HXb. simpl.
  rewrite Hyb. simpl. rewrite length_map in HXs, Hys. rewrite Hlen in HXs, Hys.
  split; [reflexivity|]. split; assumption.
Qed.

(** X12 - Every batch of the dataset fits the networks.  Take a dataset
    constructed from raw signals of [L] elements and any batch of [k >= 1]
    of its indices, as a [DataLoader] draws them.  The batch is fetched and
    collated to inputs of shape [(k, 1, L)] and [k] labels.  On these
    inputs the network of [02_convnets.ipynb], with any positive number of
    channels, returns logits of shape [(k, 10)] if [37 <= L <= 40] - as
    for the 40 elements of MNIST-1D - and raises [RuntimeError] otherwise;
    and a network of the representation-learning notebook built for
    [input_ndim] elements returns [k] rows of logits and [k] latent rows
    whenever [L], halved as often as there are blocks, gives what
    [input_ndim] gives. *)
Theorem batches_fit_the_networks `{NumpyRandom} (np_random : RandomState)
    (train : bool) (p : float) (d : mnist1d_data) (seed : Z)
    (self : MNIST1D.t) (batch : list Z) :
  MNIST1D.init np_random train p d seed = Ok self ->
  batch <> [] ->
  Forall (fun index => 0 <= index < MNIST1D.len self) batch ->
  let k := Z.of_nat (length batch) in
  let L := Z.of_nat (ncols (data_x d)) in
  exists (Xb : FloatTensor) (yb : LongTensor),
    fetch self batch = Ok (Xb, yb)
    /\ lt_shape yb = [length batch]
    /\ ft_shape Xb = [length batch; 1%nat; ncols (data_x d)]
    /\ (forall (nlayers nchannels : Z) (model : list layer),
          0 < nchannels ->
          Convnets.MyCNN.init nlayers nchannels = Ok model ->
          Convnets.MyCNN.forward model (map Z.of_nat (ft_shape Xb))
          = if (37 <=? L) && (L <=? 40) then Ok [k; 10] else Raise RuntimeError)
    /\ (forall (channels : list Z) (input_ndim output_ndim mlp_hidden_ndim : Z)
               (dropout_p : float) (model : Latent.MyCNN.t),
          Forall (fun n => 0 < n) channels ->
          0 <= input_ndim -> 0 <= output_ndim -> 0 <= mlp_hidden_ndim ->
          ((dropout_p <? 0) || (1 <? dropout_p))%float = false ->
          Latent.MyCNN.init channels input_ndim output_ndim mlp_hidden_ndim
                            dropout_p = Ok model ->
          let m := 2 ^ Z.of_nat (length channels) in
          (L + m - 1) / m = (input_ndim + m - 1) / m ->
          Latent.MyCNN.forward model (map Z.of_nat (ft_shape Xb))
          = Ok ([k; output_ndim],
                [k; List.last channels 1 * ((input_ndim + m - 1) / m)])).
Proof.
  intros Hinit Hne Hbatch k L.
  destruct (init_invariant np_random train p d seed self Hinit) as (Hy & Hc & _).
  destruct (fetch_shape self batch Hy Hne Hbatch) as (Xb & yb & Hfetch & HX & Hyb).
  rewrite Hc in HX.
  exists Xb, yb. split; [exact Hfetch|]. split; [exact Hyb|]. split; [exact HX|].
  rewrite HX. change (map Z.of_nat [length batch; 1%nat; ncols (data_x d)])
    with [k; 1; L].
  split.
  - intros nlayers nchannels model Hn. rewrite convnets_init_ok by lia.
    intros [= <-]. unfold Convnets.MyCNN.forward.
    rewrite convnets_forward_spec by exact Hn. reflexivity.
  - intros channels input_ndim output_ndim mlp_hidden_ndim dropout_p model
      Hcs Hin Hout Hhid Hp.
    rewrite (latent_init_spec channels input_ndim output_ndim mlp_hidden_ndim
               dropout_p Hcs Hin Hout Hhid Hp).
    destruct (bool_decide (channels = []) || (_ <? input_ndim)) eqn:Hok;
      [|discriminate].
    intros [= <-] m Hceil.
    apply (latent_forward_spec channels input_ndim output_ndim mlp_hidden_ndim
             dropout_p Hcs k L ltac:(lia) Hok).
    exact Hceil.
Qed.

Lemma batches_fit_the_networks_witness :
  exists (self : MNIST1D.t) (Xb : FloatTensor) (yb : LongTensor),
    MNIST1D.init toy_rng true 0.5%float toy_signals 42 = Ok self
    /\ fetch self [0; 1] = Ok (Xb, yb)
    /\ forall model : list layer,
         Convnets.MyCNN.init 3 32 = Ok model ->
         Convnets.MyCNN.forward model (map Z.of_nat (ft_shape Xb)) = Ok [2; 10].
Proof.
  destruct (MNIST1D.init toy_rng true 0.5%float toy_signals 42) as [self|] eqn:Hinit;
    [|vm_compute in Hinit; discriminate].
  assert (Hlen : MNIST1D.len self = 2).
  { revert Hinit. vm_compute. intros [= <-]. reflexivity. }
  destruct (batches_fit_the_networks toy_rng true 0.5%float toy_signals 42 self [0; 1] Hinit
              ltac:(discriminate)
              ltac:(rewrite Hlen; repeat constructor; lia))
    as (Xb & yb & Hfetch & _ & _ & Hcnn & _).
  exists self, Xb, yb. split; [reflexivity|]. split; [exact Hfetch|].
  intros model Hmodel. exact (Hcnn 3 32 model ltac:(lia) Hmodel).
Defined.

(** * Properties of a pass over a [DataLoader] *)

Section BatchSampler.

Variable batch_size : Z.
Hypothesis batch_size_positive : 0 < batch_size.

Lemma batch_sampler_concat (sampler batch : list Z) :
  concat (batch_sampler batch_size sampler batch) = batch ++ sampler.
Proof.
  revert batch. induction sampler as [|idx sampler IH]; intros batch; simpl.
  - destruct batch; simpl; rewrite ?app_nil_r; reflexivity.
  - destruct (Z.of_nat (length (batch ++ [idx])) =? batch_size); simpl;
      rewrite IH, <- ?app_assoc; reflexivity.
Qed.

Lemma batch_sampler_length (sampler batch : list Z) :
  Z.of_nat (length batch) < batch_size ->
  Z.of_nat (length (batch_sampler batch_size sampler batch))
  = (Z.of_nat (length batch) + Z.of_nat (length sampler) + batch_size - 1)
    / batch_size.
Proof.
  revert batch. induction sampler as [|idx sampler IH]; intros batch Hb.
  - simpl. destruct batch as [|i batch]; simpl length.
    + symmetry. apply Z.div_small. lia.
    + apply (Z.div_unique _ _ 1 (Z.of_nat (length (i :: batch)) - 1));
        simpl length in *; lia.
  - simpl batch_sampler.
    destruct (Z.of_nat (length (batch ++ [idx])) =? batch_size) eqn:Hfull.
    + apply Z.eqb_eq in Hfull. rewrite length_app in Hfull. simpl in Hfull.
      rewrite !length_cons, !Nat2Z.inj_succ, (IH []) by (simpl; lia).
      replace (Z.of_nat (length batch) + Z.succ (Z.of_nat (length sampler))
               + batch_size - 1)
        with (Z.of_nat (length (@nil Z)) + Z.of_nat (length sampler) + batch_size - 1
              + 1 * batch_size) by (simpl length; lia).
      rewrite Z.div_add by lia. lia.
    + apply Z.eqb_neq in Hfull. rewrite length_app in Hfull. simpl in Hfull.
      rewrite IH by (rewrite length_app; simpl; lia).
      rewrite length_app, length_cons. simpl length. f_equal. lia.
Qed.

(** Every batch holds between one and [batch_size] indices, and every
    batch but the last one is full. *)
Lemma batch_sampler_sizes (sampler batch : list Z) :
  Z.of_nat (length batch) < batch_size ->
  Forall (fun b => 0 < Z.of_nat (length b) <= batch_size)
         (batch_sampler batch_size sampler batch)
  /\ forall (i : nat) (b : list Z),
       (S i < length (batch_sampler batch_size sampler batch))%nat ->
       batch_sampler batch_size sampler batch !! i = Some b ->
       Z.of_nat (length b) = batch_size.
Proof.
  revert batch. induction sampler as [|idx sampler IH]; intros batch Hb.
  - simpl. destruct batch as [|i0 batch]; simpl.
    + split; [constructor|]. intros i b Hi. simpl in Hi. lia.
    + split; [constructor; [simpl in *; lia|constructor]|].
      intros i b Hi. simpl in Hi. lia.
  - simpl batch_sampler.
    destruct (Z.of_nat (length (batch ++ [idx])) =? batch_size) eqn:Hfull.
    + apply Z.eqb_eq in Hfull.
      destruct (IH [] ltac:(simpl; lia)) as [Hall Hfullb]. split.
      * constructor; [lia|exact Hall].
      * intros [|i] b Hi Hlook; simpl in Hi, Hlook.
        -- injection Hlook as <-. exact Hfull.
        -- apply (Hfullb i b); [lia|exact Hlook].
    + apply Z.eqb_neq in Hfull. apply IH.
      rewrite length_app in *. simpl in *. lia.
Qed.

End BatchSampler.

Lemma mapM_Forall2 {A B : Type} (R : A -> B -> Prop) (f : A -> result B)
    (l : list A) :
  Forall (fun x => exists b, f x = Ok b /\ R x b) l ->
  exists r, mapM f l = Ok r /\ Forall2 R l r.
Proof.
  induction 1 as [|x l (b & Hb & HR) _ (r & Hr & HRr)]; simpl.
  - exists []. split; [reflexivity|constructor].
  - rewrite Hb, Hr. simpl. exists (b :: r). split; [reflexivity|].
    constructor; assumption.
Qed.

Lemma stack_float_ok (ts : list FloatTensor) (shape : list nat) :
  ts <> [] -> Forall (fun t => ft_shape t = shape) ts ->
  stack_float ts
  = Ok (mk_FloatTensor (length ts :: shape) (concat (map ft_data ts))).
Proof.
  intros Hne Hall. unfold stack_float. destruct ts as [|t ts']; [congruence|].
  assert (Hb : forallb (fun u => bool_decide (ft_shape u = ft_shape t)) (t :: ts')
               = true).
  { apply forallb_forall. intros u Hu. apply bool_decide_eq_true.
    rewrite Forall_forall in Hall.
    rewrite (Hall u), (Hall t); [reflexivity|left|apply list_elem_of_In; exact Hu]. }
  rewrite Hb. apply Forall_cons in Hall as [<- _]. reflexivity.
Qed.

Lemma stack_long_ok (ts : list LongTensor) (shape : list nat) :
  ts <> [] -> Forall (fun t => lt_shape t = shape) ts ->
  stack_long ts
  = Ok (mk_LongTensor (length ts :: shape) (concat (map lt_data ts))).
Proof.
  intros Hne Hall. unfold stack_long. destruct ts as [|t ts']; [congruence|].
  assert (Hb : forallb (fun u => bool_decide (lt_shape u = lt_shape t)) (t :: ts')
               = true).
  { apply forallb_forall. intros u Hu. apply bool_decide_eq_true.
    rewrite Forall_forall in Hall.
    rewrite (Hall u), (Hall t); [reflexivity|left|apply list_elem_of_In; exact Hu]. }
  rewrite Hb. apply Forall_cons in Hall as [<- _]. reflexivity.
Qed.

Lemma concat_singletons {A B : Type} (f : A -> B) (l : list A) :
  concat (map (fun x => [f x]) l) = map f l.
Proof. induction l as [|x l IH]; simpl; [reflexivity|rewrite IH; reflexivity]. Qed.

(** What the fetcher returns for a batch of valid indices: the float32
    images of the rows and the 64-bit labels, in the order of the batch. *)
Lemma fetch_at (self : MNIST1D.t) (batch : list Z) :
  length (MNIST1D.y self) = length (rows (MNIST1D.X self)) ->
  batch <> [] ->
  Forall (fun index => 0 <= index < MNIST1D.len self) batch ->
  fetch self batch
  = Ok (mk_FloatTensor
          [length batch; 1%nat; ncols (MNIST1D.X self)]
          (concat (map (fun index =>
                          map astype_float32
                              (default [] (rows (MNIST1D.X self) !! Z.to_nat index)))
                       batch)),
        mk_LongTensor
          [length batch]
          (map (fun index =>
                  astype_int64 (default 0 (MNIST1D.y self !! Z.to_nat index)))
               batch)).
Proof.
  intros Hy Hne Hbatch.
  assert (Hsamples :
            mapM (MNIST1D.getitem self) batch
            = Ok (map (fun index =>
                         (mk_FloatTensor
                            [1%nat; ncols (MNIST1D.X self)]
                            (map astype_float32
                                 (default [] (rows (MNIST1D.X self) !! Z.to_nat index))),
                          mk_LongTensor
                            []
                            [astype_int64
                               (default 0 (MNIST1D.y self !! Z.to_nat index))]))
                      batch)).
  { clear Hne. induction Hbatch as [|index batch Hrange _ IH]; [reflexivity|].
    simpl. unfold MNIST1D.len in Hrange.
    assert (Hlt : (Z.to_nat index < length (rows (MNIST1D.X self)))%nat) by lia.
    destruct (lookup_lt_is_Some_2 _ _ Hlt) as [row Hrow].
    rewrite <- Hy in Hlt.
    destruct (lookup_lt_is_Some_2 _ _ Hlt) as [label Hlabel].
    rewrite (getitem_at self index row label) by (lia || assumption).
    rewrite IH, Hrow, Hlabel. reflexivity. }
  unfold fetch. rewrite Hsamples. cbn [rbind].
  rewrite (stack_float_ok _ [1%nat; ncols (MNIST1D.X self)]);
    [|destruct batch; [congruence|discriminate]
     |apply Forall_forall; intros t Ht; apply list_elem_of_fmap in Ht as (s & -> & Hs);
      apply list_elem_of_fmap in Hs as (i & -> & _); reflexivity].
  cbn [rbind].
  rewrite (stack_long_ok _ []);
    [|destruct batch; [congruence|discriminate]
     |apply Forall_forall; intros t Ht; apply list_elem_of_fmap in Ht as (s & -> & Hs);
      apply list_elem_of_fmap in Hs as (i & -> & _); reflexivity].
  cbn [rbind]. rewrite !length_map, !map_map. cbn [fst snd ft_data lt_data].
  rewrite (concat_singletons
             (fun index => astype_int64 (default 0 (MNIST1D.y self !! Z.to_nat index)))).
  reflexivity.
Qed.

Lemma mapM_map_ok {A B : Type} (f : A -> result B) (F : A -> B) (l : list A) :
  Forall (fun x => f x = Ok (F x)) l -> mapM f l = Ok (map F l).
Proof.
  induction 1 as [|x l Hx _ IH]; simpl; [reflexivity|].
  rewrite Hx, IH. reflexivity.
Qed.

Lemma concat_concat_map {A B : Type} (h : A -> list B) (l : list (list A)) :
  concat (map (fun c => concat (map h c)) l) = concat (map h (concat l)).
Proof.
  induction l as [|c l IH]; simpl; [reflexivity|].
  rewrite map_app, concat_app, IH. reflexivity.
Qed.

Lemma range_elem (n i : Z) : i ∈ range n <-> 0 <= i < n.
Proof.
  unfold range. rewrite list_elem_of_fmap. split.
  - intros (k & -> & Hk). apply list_elem_of_In, in_seq in Hk. lia.
  - intros Hi. exists (Z.to_nat i). split; [lia|].
    apply list_elem_of_In, in_seq. lia.
Qed.

(** X13 - One pass over a [DataLoader] of the dataset.  Take a dataset
    that has been constructed, a positive batch size and the indices of
    one pass in the order the sampler yields them - [range(len(dataset))]
    without shuffling, some rearrangement of it with shuffling.  The pass
    fetches every batch without an exception; it yields [len(dataloader)]
    batches, that is [len(dataset) / batch_size] rounded up; every batch
    holds between 1 and [batch_size] samples as inputs of shape
    [(k, 1, L)] with [k] labels, and every batch but the last one holds
    [batch_size] samples; put one after the other, the batches hold the
    float32 inputs and the labels of the samples of the dataset in the
    order of the sampler - every sample once. *)
Theorem dataloader_pass `{NumpyRandom} (np_random : RandomState) (train : bool)
    (p : float) (d : mnist1d_data) (seed : Z) (self : MNIST1D.t)
    (batch_size : Z) (shuffle : bool) (order : list Z) :
  MNIST1D.init np_random train p d seed = Ok self ->
  0 < batch_size ->
  Permutation order (range (MNIST1D.len self)) ->
  let dl := mk_DataLoader self batch_size shuffle in
  exists batches : list (FloatTensor * LongTensor),
    DataLoader_iter dl order = Ok batches
    /\ Z.of_nat (length batches) = DataLoader_len dl
    /\ Forall (fun b => exists k : nat,
                 0 < Z.of_nat k <= batch_size
                 /\ ft_shape (fst b) = [k; 1%nat; ncols (data_x d)]
                 /\ lt_shape (snd b) = [k]) batches
    /\ (forall (i : nat) (b : FloatTensor * LongTensor),
          (S i < length batches)%nat -> batches !! i = Some b ->
          lt_shape (snd b) = [Z.to_nat batch_size])
    /\ concat (map (fun b => lt_data (snd b)) batches)
       = map (fun index => astype_int64 (default 0 (MNIST1D.y self !! Z.to_nat index)))
             order
    /\ concat (map (fun b => ft_data (fst b)) batches)
       = concat (map (fun index =>
                        map astype_float32
                            (default [] (rows (MNIST1D.X self) !! Z.to_nat index)))
                     order).
Proof.
  intros Hinit Hbs Hperm dl.
  destruct (init_invariant np_random train p d seed self Hinit) as (Hy & Hc & _).
  set (chunks := batch_sampler batch_size order []).
  pose proof (batch_sampler_concat batch_size order []) as Hconcat.
  pose proof (batch_sampler_length batch_size Hbs order [] ltac:(simpl; lia)) as Hlen.
  destruct (batch_sampler_sizes batch_size Hbs order [] ltac:(simpl; lia))
    as [Hsizes Hfull].
  fold chunks in Hconcat, Hlen, Hsizes, Hfull. simpl in Hconcat.
  assert (Hvalid : Forall (fun c => Forall (fun index => 0 <= index < MNIST1D.len self) c)
                          chunks).
  { apply Forall_forall. intros c Hc'. apply Forall_forall. intros index Hindex.
    apply range_elem. rewrite <- Hperm, <- Hconcat.
    apply list_elem_of_In, in_concat. exists c.
    split; apply list_elem_of_In; assumption. }
  set (F := fun batch : list Z =>
              (mk_FloatTensor
                 [length batch; 1%nat; ncols (MNIST1D.X self)]
                 (concat (map (fun index =>
                                 map astype_float32
                                     (default [] (rows (MNIST1D.X self) !! Z.to_nat index)))
                              batch)),
               mk_LongTensor
                 [length batch]
                 (map (fun index =>
                         astype_int64 (default 0 (MNIST1D.y self !! Z.to_nat index)))
                      batch))).
  assert (Hrun : DataLoader_iter dl order = Ok (map F chunks)).
  { unfold DataLoader_iter. simpl. fold chunks. apply mapM_map_ok.
    apply Forall_forall. intros c Hc'.
    apply fetch_at; [exact Hy| |exact (proj1 (Forall_forall _ _) Hvalid c Hc')].
    pose proof (proj1 (Forall_forall _ _) Hsizes c Hc') as Hsize.
    intros ->. simpl in Hsize. lia. }
  exists (map F chunks). split; [exact Hrun|]. split; [|split; [|split; [|split]]].
  - rewrite length_map, Hlen. unfold DataLoader_len, MNIST1D.len. simpl.
    rewrite (Permutation_length Hperm). unfold range, MNIST1D.len.
    rewrite length_map, length_seq, Nat2Z.id. reflexivity.
  - apply Forall_map. eapply Forall_impl; [exact Hsizes|]. intros c Hsize.
    exists (length c). simpl in *. rewrite Hc. split; [lia|split; reflexivity].
  - intros i b Hi Hlook. rewrite length_map in Hi.
    rewrite list_lookup_fmap in Hlook.
    destruct (chunks !! i) as [c|] eqn:Hci; [|discriminate].
    injection Hlook as <-. simpl. rewrite <- (Hfull i c Hi Hci), Nat2Z.id.
    reflexivity.
  - rewrite map_map. simpl. rewrite <- concat_map, Hconcat. reflexivity.
  - rewrite map_map. simpl. rewrite concat_concat_map, Hconcat. reflexivity.
Qed.

Lemma dataloader_pass_witness :
  exists (self : MNIST1D.t) (batches : list (FloatTensor * LongTensor)),
    MNIST1D.init toy_rng true 0.5%float toy_signals 42 = Ok self
    /\ DataLoader_iter (mk_DataLoader self 1 true) [1; 0] = Ok batches
    /\ length batches = 2%nat.
Proof.
  destruct (MNIST1D.init toy_rng true 0.5%float toy_signals 42) as [self|] eqn:Hinit;
    [|vm_compute in Hinit; discriminate].
  assert (Hlen : MNIST1D.len self = 2).
  { revert Hinit. vm_compute. intros [= <-]. reflexivity. }
  destruct (dataloader_pass toy_rng true 0.5%float toy_signals 42 self 1 true [1; 0]
              Hinit ltac:(lia)
              ltac:(rewrite Hlen; apply perm_swap))
    as (batches & Hrun & Hcount & _).
  exists self, batches. split; [reflexivity|]. split; [exact Hrun|].
  unfold DataLoader_len in Hcount. simpl in Hcount. rewrite Hlen in Hcount.
  change ((2 + 1 - 1) / 1) with 2 in Hcount. lia.
Defined.

(** * Properties of the embedding cache *)

Section VisCacheFacts.

Context `{Embedding}.









End VisCacheFacts.



(** * What the training cell prints *)

Section TrainingCellLines.

Context `{torch : Torch}.
Variables train_dataloader validation_dataloader : Loader.

Lemma cell_epoch_line (max_epochs log_every epoch : Z)
    (l : containers * containers) (s : St World spec_float) :
  log_every <> 0 -> cell_sized train_dataloader validation_dataloader l ->
  Forall (fun key => is_Some (logs s !! key)) training_cell_keys ->
  exists l' s',
    cell_epoch train_dataloader validation_dataloader
      max_epochs log_every epoch l s = (Ok l', s')
    /\ logs s' = record_cell_epoch (cell_means l') (logs s)
    /\ stdout s' = stdout s ++ cell_line max_epochs log_every (epoch, cell_means l')
    /\ cell_sized train_dataloader validation_dataloader l'.
Proof.
  intros Hle [Htrain Hval] Hkeys. destruct l as [train validation].
  simpl in Htrain, Hval.
  apply Forall_cons in Hkeys as [K1 Hkeys]. apply Forall_cons in Hkeys as [K2 Hkeys].
  apply Forall_cons in Hkeys as [K3 Hkeys]. apply Forall_cons in Hkeys as [K4 _].
  unfold cell_epoch.
  step (world_only_call (V := spec_float) model_train) as w1 u1 H1.
  step (world_only_iterate (V := spec_float) train_dataloader) as w2 bs Hbs.
  step (cell_pass_world_only cell_train_step _ bs train
          (cell_train_step_world_only _) Hbs Htrain) as w3 train' Htrain'.
  step (world_only_call (V := spec_float) model_eval) as w4 u4 H4.
  step (world_only_iterate (V := spec_float) validation_dataloader) as w5 bs' Hbs'.
  step (cell_pass_world_only cell_validation_step _ bs' validation
          (cell_validation_step_world_only _) Hbs' Hval) as w6 validation' Hval'.
  destruct train' as [train_acc train_loss].
  destruct validation' as [validation_acc validation_loss].
  do 4 match goal with
    | |- context [bind (results_append ?key ?t) ?k ?s0] =>
        rewrite (bind_ok _ k s0 _ tt (results_append_ok key t s0
                                       ltac:(simpl; auto using log_append_present)));
        simpl logs; simpl stdout; simpl appends; simpl world
    end.
  unfold py_mod. destruct (log_every =? 0) eqn:Hz; [apply Z.eqb_eq in Hz; lia|].
  unfold cell_line, cell_means, cell_progress_due, bind, lift, print, ret.
  destruct ((epoch mod log_every =? 0) || (epoch + 1 =? max_epochs)).
  - eexists (_, _, (_, _)), _. split; [reflexivity|]. simpl.
    split; [reflexivity|]. split; [reflexivity|split; assumption].
  - eexists (_, _, (_, _)), _. split; [reflexivity|]. simpl.
    split; [reflexivity|]. split; [rewrite app_nil_r; reflexivity|split; assumption].
Qed.

Lemma cell_epochs_lines (max_epochs log_every : Z) (epochs : list Z)
    (l : containers * containers) (s : St World spec_float) :
  log_every <> 0 -> cell_sized train_dataloader validation_dataloader l ->
  Forall (fun key => is_Some (logs s !! key)) training_cell_keys ->
  exists l' s' ms,
    for_each (cell_epoch train_dataloader validation_dataloader
                max_epochs log_every) epochs l s = (Ok l', s')
    /\ length ms = length epochs
    /\ logs s' = fold_left (fun lg m => record_cell_epoch m lg) ms (logs s)
    /\ stdout s'
       = stdout s ++ flat_map (cell_line max_epochs log_every) (combine epochs ms).
Proof.
  intros Hle. revert l s. induction epochs as [|e epochs IH]; intros l s Hl Hkeys.
  - exists l, s, []. simpl. rewrite app_nil_r. repeat split.
  - simpl for_each.
    destruct (cell_epoch_line max_epochs log_every e l s Hle Hl Hkeys)
      as (l1 & s1 & Hepoch & Hlogs1 & Hout1 & Hl1).
    rewrite (bind_ok _ _ _ _ _ Hepoch).
    destruct (IH l1 s1 Hl1) as (l' & s' & ms & Hrun & Hlen & Hlogs & Hout).
    { rewrite Hlogs1. apply record_cell_epoch_present. exact Hkeys. }
    exists l', s', (cell_means l1 :: ms). split; [exact Hrun|].
    split; [simpl; congruence|]. split.
    + rewrite Hlogs, Hlogs1. reflexivity.
    + rewrite Hout, Hout1, <- app_assoc. reflexivity.
Qed.

End TrainingCellLines.

(** X15 - The training cell prints what it records.  A run of the
    training cell of [02_convnets.ipynb] with [log_every] not 0 returns;
    it records the four means of every epoch, and the lines it prints are
    determined by these records: after the epoch with index [i], if
    [i % log_every == 0] or the epoch is the last one, one line with the
    epoch number [i + 1], [max_epochs] and the four means it has just
    appended - training loss, training accuracy, validation loss,
    validation accuracy - and no line otherwise. *)
Theorem cell_prints_its_records `{torch : Torch}
    (train_dataloader validation_dataloader : Loader)
    (max_epochs log_every : Z) (s : St World spec_float) :
  log_every <> 0 ->
  exists (s' : St World spec_float) (ms : list (epoch_means spec_float)),
    training_cell train_dataloader validation_dataloader max_epochs log_every s
    = (Ok tt, s')
    /\ length ms = Z.to_nat max_epochs
    /\ (forall key,
          log_values key (logs s')
          = flat_map (fun m => means_under training_cell_keys m key) ms)
    /\ stdout s'
       = stdout s
         ++ flat_map (cell_line max_epochs log_every) (combine (range max_epochs) ms).
Proof.
  intros Hle. unfold training_cell. unfold bind at 1 2.
  destruct (cell_epochs_lines train_dataloader validation_dataloader
              max_epochs log_every (range max_epochs)
              (torch_zeros (loader_len train_dataloader),
               torch_zeros (loader_len train_dataloader),
               (torch_zeros (loader_len validation_dataloader),
                torch_zeros (loader_len validation_dataloader)))
              (mk_St (world s) fresh_results (stdout s) (appends s)) Hle)
    as (l' & s' & ms & Hrun & Hlen & Hlogs & Hout).
  { unfold cell_sized, sized, torch_zeros; simpl.
    rewrite !repeat_length. repeat split. }
  { exact fresh_results_present. }
  unfold fresh_results in Hrun. simpl in Hrun. rewrite Hrun.
  exists s', ms. split; [reflexivity|]. split.
  - rewrite Hlen. unfold range. rewrite length_map, length_seq. reflexivity.
  - split; [|exact Hout].
    intros key. rewrite Hlogs. simpl.
    rewrite record_cell_epochs_values, fresh_results_values. reflexivity.
Qed.

Lemma cell_prints_its_records_witness :
  exists (s' : St nat spec_float) (ms : list (epoch_means spec_float)),
    training_cell (toy_loader 2) (toy_loader 1) 3 2 toy_store = (Ok tt, s')
    /\ length ms = 3%nat
    /\ stdout s' = flat_map (cell_line 3 2) (combine (range 3) ms).
Proof.
  destruct (cell_prints_its_records (toy_loader 2) (toy_loader 1) 3 2 toy_store
              ltac:(lia)) as (s' & ms & Hrun & Hlen & _ & Hout).
  exists s', ms. split; [exact Hrun|]. split; [exact Hlen|exact Hout].
Defined.
